(** * First-person movement controller: script.js (two variants) and game.js

    A shallow embedding of the movement-and-collision kernel of the three
    controller variants of the repository, and the properties the
    specification states about them.

    Numbers.  A JavaScript number is modelled as a real number: [+], [-],
    [*], [/] and [Math.sqrt] are the exact operations, [<] is the order of
    the reals.  Rounding, infinities and NaN of IEEE doubles are outside the
    model.

    The world.  Ray casting against the level geometry is a service of
    three.js: [raycaster.intersectObjects(list)] is a function from the ray
    to the distances of its intersections, nearest first.  It is a parameter
    of every function that casts a ray.

    Rendering, the FPS counter and the HUD only read the state and are left
    out. *)

From Stdlib Require Import Reals Lra Lia List Bool Sorted.
From Stdlib Require Import String DecimalString.
Import ListNotations.

Open Scope R_scope.

(** [Number(b)] of a boolean. *)
Definition Number (b : bool) : R := if b then 1 else 0.

(** ** THREE.Vector3 *)

Module Vector3.

Record t : Type := mk { x : R; y : R; z : R }.

Definition zero : t := mk 0 0 0.

Definition set_x (v : t) (a : R) : t := mk a (y v) (z v).
Definition set_y (v : t) (a : R) : t := mk (x v) a (z v).
Definition set_z (v : t) (a : R) : t := mk (x v) (y v) a.

Definition add (a b : t) : t := mk (x a + x b) (y a + y b) (z a + z b).
Definition sub (a b : t) : t := mk (x a - x b) (y a - y b) (z a - z b).

Definition multiplyScalar (v : t) (s : R) : t :=
  mk (x v * s) (y v * s) (z v * s).

(** [divideScalar(s)] is [multiplyScalar(1 / s)]. *)
Definition divideScalar (v : t) (s : R) : t := multiplyScalar v (1 / s).

Definition addScaledVector (a v : t) (s : R) : t :=
  mk (x a + x v * s) (y a + y v * s) (z a + z v * s).

Definition lengthSq (v : t) : R := x v * x v + y v * y v + z v * z v.
Definition length (v : t) : R := sqrt (lengthSq v).

(** [a.crossVectors(a, b)]. *)
Definition cross (a b : t) : t :=
  mk (y a * z b - z a * y b) (z a * x b - x a * z b) (x a * y b - y a * x b).

(** The divisor of [normalize]: [this.length() || 1]. *)
Definition lengthOr1 (v : t) : R :=
  if Req_dec_T (length v) 0 then 1 else length v.

(** [normalize()] is [divideScalar(this.length() || 1)]. *)
Definition normalize (v : t) : t := divideScalar v (lengthOr1 v).

(** [applyAxisAngle(new Vector3(0, 1, 0), angle)]: the rotation about the
    Y axis. *)
Definition applyAxisAngleY (v : t) (angle : R) : t :=
  mk (x v * cos angle + z v * sin angle)
     (y v)
     (z v * cos angle - x v * sin angle).

(** [camera.up], never changed by the program. *)
Definition up : t := mk 0 1 0.

End Vector3.

Definition Vec3 : Type := Vector3.t.

(** ** THREE.Raycaster and the world query *)

(** A raycaster: origin, direction, [near] and [far]; [far = None] is the
    default [Infinity]. *)
Record Raycaster : Type := mkRay {
  origin : Vec3;
  rayDirection : Vec3;
  near : R;
  far : option R
}.

(** [raycaster.intersectObjects(solids)]: the distances of the
    intersections along the ray. *)
Definition World : Type := Raycaster -> list R.

(** three.js returns the intersections sorted by distance, nearest first. *)
Definition nearest_first (w : World) : Prop :=
  forall r, Sorted Rle (w r).

(** [intersects.length > 0]. *)
Definition nonEmpty (l : list R) : bool :=
  match l with [] => false | _ :: _ => true end.

(** [intersects.length > 0 && intersects[0].distance < d]. *)
Definition firstCloserThan (l : list R) (d : R) : bool :=
  match l with
  | [] => false
  | d0 :: _ => if Rlt_dec d0 d then true else false
  end.

(** ** PointerLockControls: [moveRight] and [moveForward]

    Both read column 0 of [camera.matrix] (the camera's X axis in world
    space, written by the mouse-look handler and the renderer) and move
    [camera.position] along it, or along [camera.up] x it. *)
Definition pl_moveRight (right : Vec3) (position : Vec3) (distance : R) : Vec3 :=
  Vector3.addScaledVector position right distance.

Definition pl_moveForward (right : Vec3) (position : Vec3) (distance : R) : Vec3 :=
  Vector3.addScaledVector position (Vector3.cross Vector3.up right) distance.

(** Key codes the handlers switch on. *)
Inductive Key : Type :=
| KeyW | KeyA | KeyS | KeyD
| ArrowUp | ArrowLeft | ArrowDown | ArrowRight
| Space | ShiftLeft | KeyC | ControlLeft
| OtherKey.

(** ** script.js, first variant (lines 1-247): sprint, wall collision *)

Module ScriptA.

(** CONFIGURATION *)
Definition WALK_SPEED : R := 50.
Definition SPRINT_SPEED : R := 90.
Definition JUMP_FORCE : R := 20.
Definition GRAVITY : R := 60.
Definition PLAYER_HEIGHT : R := 18 / 10.
Definition PLAYER_RADIUS : R := 15 / 10.

(** GLOBALS.  [position] is [camera.position], the same object as
    [controls.getObject().position]; [camRight] is column 0 of
    [camera.matrix], written by the mouse look only; [isLocked] is
    [controls.isLocked]. *)
Record State : Type := mkState {
  position : Vec3;
  camRight : Vec3;
  isLocked : bool;
  velocity : Vec3;
  direction : Vec3;
  moveForward : bool;
  moveBackward : bool;
  moveLeft : bool;
  moveRight : bool;
  canJump : bool;
  isSprinting : bool;
  prevTime : R
}.

Definition set_position (s : State) (p : Vec3) : State :=
  mkState p (camRight s) (isLocked s) (velocity s) (direction s)
    (moveForward s) (moveBackward s) (moveLeft s) (moveRight s)
    (canJump s) (isSprinting s) (prevTime s).

Definition set_velocity (s : State) (v : Vec3) : State :=
  mkState (position s) (camRight s) (isLocked s) v (direction s)
    (moveForward s) (moveBackward s) (moveLeft s) (moveRight s)
    (canJump s) (isSprinting s) (prevTime s).

Definition set_direction (s : State) (d : Vec3) : State :=
  mkState (position s) (camRight s) (isLocked s) (velocity s) d
    (moveForward s) (moveBackward s) (moveLeft s) (moveRight s)
    (canJump s) (isSprinting s) (prevTime s).

Definition set_moveForward (s : State) (b : bool) : State :=
  mkState (position s) (camRight s) (isLocked s) (velocity s) (direction s)
    b (moveBackward s) (moveLeft s) (moveRight s)
    (canJump s) (isSprinting s) (prevTime s).

Definition set_moveBackward (s : State) (b : bool) : State :=
  mkState (position s) (camRight s) (isLocked s) (velocity s) (direction s)
    (moveForward s) b (moveLeft s) (moveRight s)
    (canJump s) (isSprinting s) (prevTime s).

Definition set_moveLeft (s : State) (b : bool) : State :=
  mkState (position s) (camRight s) (isLocked s) (velocity s) (direction s)
    (moveForward s) (moveBackward s) b (moveRight s)
    (canJump s) (isSprinting s) (prevTime s).

Definition set_moveRight (s : State) (b : bool) : State :=
  mkState (position s) (camRight s) (isLocked s) (velocity s) (direction s)
    (moveForward s) (moveBackward s) (moveLeft s) b
    (canJump s) (isSprinting s) (prevTime s).

Definition set_canJump (s : State) (b : bool) : State :=
  mkState (position s) (camRight s) (isLocked s) (velocity s) (direction s)
    (moveForward s) (moveBackward s) (moveLeft s) (moveRight s)
    b (isSprinting s) (prevTime s).

Definition set_isSprinting (s : State) (b : bool) : State :=
  mkState (position s) (camRight s) (isLocked s) (velocity s) (direction s)
    (moveForward s) (moveBackward s) (moveLeft s) (moveRight s)
    (canJump s) b (prevTime s).

Definition set_prevTime (s : State) (t : R) : State :=
  mkState (position s) (camRight s) (isLocked s) (velocity s) (direction s)
    (moveForward s) (moveBackward s) (moveLeft s) (moveRight s)
    (canJump s) (isSprinting s) t.

Definition onKeyDown (code : Key) (s : State) : State :=
  match code with
  | KeyW => set_moveForward s true
  | KeyA => set_moveLeft s true
  | KeyS => set_moveBackward s true
  | KeyD => set_moveRight s true
  | Space =>
      if canJump s
      then set_canJump (set_velocity s (Vector3.set_y (velocity s) JUMP_FORCE)) false
      else s
  | ShiftLeft => set_isSprinting s true
  | _ => s
  end.

Definition onKeyUp (code : Key) (s : State) : State :=
  match code with
  | KeyW => set_moveForward s false
  | KeyA => set_moveLeft s false
  | KeyS => set_moveBackward s false
  | KeyD => set_moveRight s false
  | ShiftLeft => set_isSprinting s false
  | _ => s
  end.

(** [detectCollision(newPosition)].  [playerPos] is a clone of the live
    camera position of the state; the ray starts there and points to
    [newPosition], with [far = PLAYER_RADIUS].  The source also computes
    [dist = newPosition.distanceTo(playerPos)] and never reads it. *)
Definition detectCollision (w : World) (s : State) (newPosition : Vec3) : bool :=
  let playerPos := position s in
  let dir := Vector3.normalize (Vector3.sub newPosition playerPos) in
  let raycaster := mkRay playerPos dir 0 (Some PLAYER_RADIUS) in
  let intersects := w raycaster in
  nonEmpty intersects.

(** Steps 1 to 4 of the body of [if (controls.isLocked === true) { ... }]
    in [animate]: damping, gravity, input direction, velocity from input. *)
Definition accelerate (delta : R) (s : State) : State :=
  (* 1. Apply Friction/Damping *)
  let v := velocity s in
  let v := Vector3.set_x v (Vector3.x v - Vector3.x v * 10 * delta) in
  let v := Vector3.set_z v (Vector3.z v - Vector3.z v * 10 * delta) in
  (* 2. Apply Gravity *)
  let v := Vector3.set_y v (Vector3.y v - GRAVITY * delta) in
  (* 3. Get Input Direction *)
  let d := direction s in
  let d := Vector3.set_z d (Number (moveForward s) - Number (moveBackward s)) in
  let d := Vector3.set_x d (Number (moveRight s) - Number (moveLeft s)) in
  let d := Vector3.normalize d in
  (* 4. Calculate Velocity based on Speed *)
  let currentSpeed := if isSprinting s then SPRINT_SPEED else WALK_SPEED in
  let v :=
    if moveForward s || moveBackward s
    then Vector3.set_z v (Vector3.z v - Vector3.z d * currentSpeed * delta)
    else v in
  let v :=
    if moveLeft s || moveRight s
    then Vector3.set_x v (Vector3.x v - Vector3.x d * currentSpeed * delta)
    else v in
  set_direction (set_velocity s v) d.

(** Step 5, X-Axis Move.  [detectCollision] is passed
    [controls.getObject().position], the live position object, after the
    move. *)
Definition moveAxisX (w : World) (delta : R) (s : State) : State :=
  let s :=
    set_position s
      (pl_moveRight (camRight s) (position s) (- Vector3.x (velocity s) * delta)) in
  if detectCollision w s (position s)
  then
    (* If hit, undo move *)
    let s :=
      set_position s
        (pl_moveRight (camRight s) (position s) (Vector3.x (velocity s) * delta)) in
    set_velocity s (Vector3.set_x (velocity s) 0)
  else s.

(** Step 5, Z-Axis Move, with the same call of [detectCollision]. *)
Definition moveAxisZ (w : World) (delta : R) (s : State) : State :=
  let s :=
    set_position s
      (pl_moveForward (camRight s) (position s) (- Vector3.z (velocity s) * delta)) in
  if detectCollision w s (position s)
  then
    (* If hit, undo move *)
    let s :=
      set_position s
        (pl_moveForward (camRight s) (position s) (Vector3.z (velocity s) * delta)) in
    set_velocity s (Vector3.set_z (velocity s) 0)
  else s.

(** Step 6, Handle Vertical Movement. *)
Definition moveVertical (delta : R) (s : State) : State :=
  set_position s
    (Vector3.set_y (position s)
       (Vector3.y (position s) + Vector3.y (velocity s) * delta)).

(** Steps 1 to 6, in the order of the body. *)
Definition integrate (w : World) (delta : R) (s : State) : State :=
  moveVertical delta (moveAxisZ w delta (moveAxisX w delta (accelerate delta s))).

(** The Floor Check that ends the body. *)
Definition floorCheck (s : State) : State :=
  if Rlt_dec (Vector3.y (position s)) PLAYER_HEIGHT
  then
    let s := set_velocity s (Vector3.set_y (velocity s) 0) in
    let s := set_position s (Vector3.set_y (position s) PLAYER_HEIGHT) in
    set_canJump s true
  else s.

(** The whole body of [if (controls.isLocked === true) { ... }]. *)
Definition tick (w : World) (delta : R) (s : State) : State :=
  floorCheck (integrate w delta s).

(** [animate], called with [time = performance.now()]. *)
Definition animate (w : World) (time : R) (s : State) : State :=
  let s :=
    if isLocked s
    then tick w ((time - prevTime s) / 1000) s
    else s in
  set_prevTime s time.

(** The state after [init]. *)
Definition init (right : Vec3) (locked : bool) (now : R) : State :=
  mkState (Vector3.mk 0 PLAYER_HEIGHT 0) right locked
    Vector3.zero Vector3.zero false false false false false false now.

Definition set_camRight (s : State) (r : Vec3) : State :=
  mkState (position s) r (isLocked s) (velocity s) (direction s)
    (moveForward s) (moveBackward s) (moveLeft s) (moveRight s)
    (canJump s) (isSprinting s) (prevTime s).

Definition set_isLocked (s : State) (b : bool) : State :=
  mkState (position s) (camRight s) b (velocity s) (direction s)
    (moveForward s) (moveBackward s) (moveLeft s) (moveRight s)
    (canJump s) (isSprinting s) (prevTime s).

(** What the browser delivers: key events, animation frames, the pointer
    lock gained or lost, and mouse look turning the camera. *)
Inductive Event : Type :=
| KeyDown (code : Key)
| KeyUp (code : Key)
| Frame (time : R)
| Lock (locked : bool)
| Look (right : Vec3).

Definition step (w : World) (e : Event) (s : State) : State :=
  match e with
  | KeyDown code => onKeyDown code s
  | KeyUp code => onKeyUp code s
  | Frame time => animate w time s
  | Lock b => set_isLocked s b
  | Look r => set_camRight s r
  end.

Definition run (w : World) (es : list Event) (s : State) : State :=
  fold_left (fun s e => step w e s) es s.

End ScriptA.

(** ** script.js, second variant (lines 248-486): sprint, crouch, wall jump *)

Module ScriptB.

(** CONFIGURATION *)
Definition MOVEMENT_SPEED : R := 10.
Definition SPRINT_MULTIPLIER : R := 18 / 10.
Definition CROUCH_SPEED : R := 5.
Definition JUMP_FORCE : R := 15.
Definition WALL_JUMP_FORCE_UP : R := 20.
Definition WALL_JUMP_FORCE_SIDE : R := 15.
Definition GRAVITY : R := 40.
Definition PLAYER_HEIGHT : R := 18 / 10.
Definition CROUCH_HEIGHT : R := 9 / 10.

(** GLOBALS.  [position] is [camera.position], the same object as
    [controls.getObject().position]; [camRight] is column 0 of
    [camera.matrix] and [rotationY] is [controls.getObject().rotation.y],
    both written by the mouse look only; [isLocked] is [controls.isLocked]. *)
Record State : Type := mkState {
  position : Vec3;
  camRight : Vec3;
  rotationY : R;
  isLocked : bool;
  velocity : Vec3;
  direction : Vec3;
  moveForward : bool;
  moveBackward : bool;
  moveLeft : bool;
  moveRight : bool;
  canJump : bool;
  isSprinting : bool;
  isCrouching : bool;
  prevTime : R
}.

Definition set_position (s : State) (p : Vec3) : State :=
  mkState p (camRight s) (rotationY s) (isLocked s) (velocity s) (direction s)
    (moveForward s) (moveBackward s) (moveLeft s) (moveRight s)
    (canJump s) (isSprinting s) (isCrouching s) (prevTime s).

Definition set_velocity (s : State) (v : Vec3) : State :=
  mkState (position s) (camRight s) (rotationY s) (isLocked s) v (direction s)
    (moveForward s) (moveBackward s) (moveLeft s) (moveRight s)
    (canJump s) (isSprinting s) (isCrouching s) (prevTime s).

Definition set_direction (s : State) (d : Vec3) : State :=
  mkState (position s) (camRight s) (rotationY s) (isLocked s) (velocity s) d
    (moveForward s) (moveBackward s) (moveLeft s) (moveRight s)
    (canJump s) (isSprinting s) (isCrouching s) (prevTime s).

Definition set_moveForward (s : State) (b : bool) : State :=
  mkState (position s) (camRight s) (rotationY s) (isLocked s) (velocity s)
    (direction s) b (moveBackward s) (moveLeft s) (moveRight s)
    (canJump s) (isSprinting s) (isCrouching s) (prevTime s).

Definition set_moveBackward (s : State) (b : bool) : State :=
  mkState (position s) (camRight s) (rotationY s) (isLocked s) (velocity s)
    (direction s) (moveForward s) b (moveLeft s) (moveRight s)
    (canJump s) (isSprinting s) (isCrouching s) (prevTime s).

Definition set_moveLeft (s : State) (b : bool) : State :=
  mkState (position s) (camRight s) (rotationY s) (isLocked s) (velocity s)
    (direction s) (moveForward s) (moveBackward s) b (moveRight s)
    (canJump s) (isSprinting s) (isCrouching s) (prevTime s).

Definition set_moveRight (s : State) (b : bool) : State :=
  mkState (position s) (camRight s) (rotationY s) (isLocked s) (velocity s)
    (direction s) (moveForward s) (moveBackward s) (moveLeft s) b
    (canJump s) (isSprinting s) (isCrouching s) (prevTime s).

Definition set_canJump (s : State) (b : bool) : State :=
  mkState (position s) (camRight s) (rotationY s) (isLocked s) (velocity s)
    (direction s) (moveForward s) (moveBackward s) (moveLeft s) (moveRight s)
    b (isSprinting s) (isCrouching s) (prevTime s).

Definition set_isSprinting (s : State) (b : bool) : State :=
  mkState (position s) (camRight s) (rotationY s) (isLocked s) (velocity s)
    (direction s) (moveForward s) (moveBackward s) (moveLeft s) (moveRight s)
    (canJump s) b (isCrouching s) (prevTime s).

Definition set_isCrouching (s : State) (b : bool) : State :=
  mkState (position s) (camRight s) (rotationY s) (isLocked s) (velocity s)
    (direction s) (moveForward s) (moveBackward s) (moveLeft s) (moveRight s)
    (canJump s) (isSprinting s) b (prevTime s).

Definition set_prevTime (s : State) (t : R) : State :=
  mkState (position s) (camRight s) (rotationY s) (isLocked s) (velocity s)
    (direction s) (moveForward s) (moveBackward s) (moveLeft s) (moveRight s)
    (canJump s) (isSprinting s) (isCrouching s) t.

(** The raycaster of [init]: [new THREE.Raycaster(.., .., 0, 10)], re-aimed
    by [raycaster.set(origin, dir)]. *)
Definition raycaster_set (o dir : Vec3) : Raycaster := mkRay o dir 0 (Some 10).

(** The four directions of [checkWallJump], in the order of the array. *)
Definition directions : list Vec3 :=
  [ Vector3.mk 1 0 0; Vector3.mk (-1) 0 0; Vector3.mk 0 0 1; Vector3.mk 0 0 (-1) ].

(** The [for (let dir of directions)] loop of [checkWallJump].  The result
    is the state and the rays that were cast, in order. *)
Fixpoint wallJumpLoop (w : World) (s : State) (dirs : list Vec3)
  : State * list Raycaster :=
  match dirs with
  | [] => (s, [])
  | dir :: rest =>
      let dir' := Vector3.applyAxisAngleY dir (rotationY s) in
      let ray := raycaster_set (position s) dir' in
      let intersects := w ray in
      if firstCloserThan intersects 2
      then (set_velocity s (Vector3.set_y (velocity s) WALL_JUMP_FORCE_UP), [ray])
      else let '(s', rays) := wallJumpLoop w s rest in (s', ray :: rays)
  end.

Definition checkWallJump (w : World) (s : State) : State * list Raycaster :=
  wallJumpLoop w s directions.

Definition onKeyDown (w : World) (code : Key) (s : State) : State :=
  match code with
  | ArrowUp | KeyW => set_moveForward s true
  | ArrowLeft | KeyA => set_moveLeft s true
  | ArrowDown | KeyS => set_moveBackward s true
  | ArrowRight | KeyD => set_moveRight s true
  | Space =>
      if canJump s
      then set_canJump (set_velocity s (Vector3.set_y (velocity s) JUMP_FORCE)) false
      else fst (checkWallJump w s)
  | ShiftLeft => set_isSprinting s true
  | KeyC =>
      if negb (isCrouching s)
      then
        let s1 := set_isCrouching s true in
        set_position s1
          (Vector3.set_y (position s1)
             (Vector3.y (position s1) - (PLAYER_HEIGHT - CROUCH_HEIGHT)))
      else s
  | _ => s
  end.

Definition onKeyUp (code : Key) (s : State) : State :=
  match code with
  | ArrowUp | KeyW => set_moveForward s false
  | ArrowLeft | KeyA => set_moveLeft s false
  | ArrowDown | KeyS => set_moveBackward s false
  | ArrowRight | KeyD => set_moveRight s false
  | ShiftLeft => set_isSprinting s false
  | KeyC =>
      if isCrouching s
      then
        let s1 := set_isCrouching s false in
        set_position s1
          (Vector3.set_y (position s1)
             (Vector3.y (position s1) + (PLAYER_HEIGHT - CROUCH_HEIGHT)))
      else s
  | _ => s
  end.

(** [isCrouching ? CROUCH_HEIGHT : PLAYER_HEIGHT] *)
Definition currentHeight (s : State) : R :=
  if isCrouching s then CROUCH_HEIGHT else PLAYER_HEIGHT.

(** The body of [if (controls.isLocked === true) { ... }] in [animate], up
    to the vertical movement. *)
Definition integrate (delta : R) (s : State) : State :=
  (* Friction / Damping, Gravity *)
  let v := velocity s in
  let v := Vector3.set_x v (Vector3.x v - Vector3.x v * 10 * delta) in
  let v := Vector3.set_z v (Vector3.z v - Vector3.z v * 10 * delta) in
  let v := Vector3.set_y v (Vector3.y v - (98 / 10) * 10 * delta) in
  (* Determine Speed *)
  let actualSpeed := MOVEMENT_SPEED in
  let actualSpeed :=
    if isSprinting s then actualSpeed * SPRINT_MULTIPLIER else actualSpeed in
  let actualSpeed := if isCrouching s then CROUCH_SPEED else actualSpeed in
  (* Calculate Movement Direction *)
  let d := direction s in
  let d := Vector3.set_z d (Number (moveForward s) - Number (moveBackward s)) in
  let d := Vector3.set_x d (Number (moveRight s) - Number (moveLeft s)) in
  let d := Vector3.normalize d in
  let v :=
    if moveForward s || moveBackward s
    then Vector3.set_z v
           (Vector3.z v - Vector3.z d * 400 * delta * (actualSpeed / 10))
    else v in
  let v :=
    if moveLeft s || moveRight s
    then Vector3.set_x v
           (Vector3.x v - Vector3.x d * 400 * delta * (actualSpeed / 10))
    else v in
  (* Apply Movement *)
  let p := position s in
  let p := pl_moveRight (camRight s) p (- Vector3.x v * delta) in
  let p := pl_moveForward (camRight s) p (- Vector3.z v * delta) in
  (* Vertical Movement *)
  let p := Vector3.set_y p (Vector3.y p + Vector3.y v * delta) in
  set_direction (set_velocity (set_position s p) v) d.

(** The Floor Collision that ends the body. *)
Definition floorCheck (s : State) : State :=
  let currentHeight := if isCrouching s then CROUCH_HEIGHT else PLAYER_HEIGHT in
  if Rlt_dec (Vector3.y (position s)) currentHeight
  then
    let s := set_velocity s (Vector3.set_y (velocity s) 0) in
    let s := set_position s (Vector3.set_y (position s) currentHeight) in
    set_canJump s true
  else s.

(** The whole body of [if (controls.isLocked === true) { ... }]. *)
Definition tick (delta : R) (s : State) : State :=
  floorCheck (integrate delta s).

(** [animate], called with [time = performance.now()]. *)
Definition animate (time : R) (s : State) : State :=
  let s :=
    if isLocked s
    then tick ((time - prevTime s) / 1000) s
    else s in
  set_prevTime s time.

(** The state after [init]: the camera at eye height at the origin,
    nothing pressed, not yet grounded. *)
Definition init (right : Vec3) (rotY : R) (locked : bool) (now : R) : State :=
  mkState (Vector3.mk 0 PLAYER_HEIGHT 0) right rotY locked
    Vector3.zero Vector3.zero false false false false false false false now.

Definition set_camera (s : State) (r : Vec3) (rotY : R) : State :=
  mkState (position s) r rotY (isLocked s) (velocity s) (direction s)
    (moveForward s) (moveBackward s) (moveLeft s) (moveRight s)
    (canJump s) (isSprinting s) (isCrouching s) (prevTime s).

Definition set_isLocked (s : State) (b : bool) : State :=
  mkState (position s) (camRight s) (rotationY s) b (velocity s) (direction s)
    (moveForward s) (moveBackward s) (moveLeft s) (moveRight s)
    (canJump s) (isSprinting s) (isCrouching s) (prevTime s).

(** What the browser delivers: key events, animation frames, the pointer
    lock gained or lost, and mouse look turning the camera. *)
Inductive Event : Type :=
| KeyDown (code : Key)
| KeyUp (code : Key)
| Frame (time : R)
| Lock (locked : bool)
| Look (right : Vec3) (rotY : R).

Definition step (w : World) (e : Event) (s : State) : State :=
  match e with
  | KeyDown code => onKeyDown w code s
  | KeyUp code => onKeyUp code s
  | Frame time => animate time s
  | Lock b => set_isLocked s b
  | Look r rotY => set_camera s r rotY
  end.

Definition run (w : World) (es : list Event) (s : State) : State :=
  fold_left (fun s e => step w e s) es s.

End ScriptB.

(** ** game.js: sprint, crouch, ground and wall rays *)

Module Game.

(** Player stats *)
Definition NORMAL_SPEED : R := 5.
Definition SPRINT_SPEED : R := 10.
Definition CROUCH_SPEED : R := 25 / 10.
Definition JUMP_VELOCITY : R := 8.
Definition GRAVITY : R := 20.
Definition NORMAL_HEIGHT : R := 18 / 10.
Definition CROUCH_HEIGHT : R := 9 / 10.

(** Game variables.  [position] is [camera.position]; [worldDirection] is
    what [camera.getWorldDirection] returns, set by the mouse look only. *)
Record State : Type := mkState {
  position : Vec3;
  worldDirection : Vec3;
  velocity : Vec3;
  direction : Vec3;
  moveForward : bool;
  moveBackward : bool;
  moveLeft : bool;
  moveRight : bool;
  canJump : bool;
  isSprinting : bool;
  isCrouching : bool
}.

Definition set_position (s : State) (p : Vec3) : State :=
  mkState p (worldDirection s) (velocity s) (direction s)
    (moveForward s) (moveBackward s) (moveLeft s) (moveRight s)
    (canJump s) (isSprinting s) (isCrouching s).

Definition set_velocity (s : State) (v : Vec3) : State :=
  mkState (position s) (worldDirection s) v (direction s)
    (moveForward s) (moveBackward s) (moveLeft s) (moveRight s)
    (canJump s) (isSprinting s) (isCrouching s).

Definition set_direction (s : State) (d : Vec3) : State :=
  mkState (position s) (worldDirection s) (velocity s) d
    (moveForward s) (moveBackward s) (moveLeft s) (moveRight s)
    (canJump s) (isSprinting s) (isCrouching s).

Definition set_moveForward (s : State) (b : bool) : State :=
  mkState (position s) (worldDirection s) (velocity s) (direction s)
    b (moveBackward s) (moveLeft s) (moveRight s)
    (canJump s) (isSprinting s) (isCrouching s).

Definition set_moveBackward (s : State) (b : bool) : State :=
  mkState (position s) (worldDirection s) (velocity s) (direction s)
    (moveForward s) b (moveLeft s) (moveRight s)
    (canJump s) (isSprinting s) (isCrouching s).

Definition set_moveLeft (s : State) (b : bool) : State :=
  mkState (position s) (worldDirection s) (velocity s) (direction s)
    (moveForward s) (moveBackward s) b (moveRight s)
    (canJump s) (isSprinting s) (isCrouching s).

Definition set_moveRight (s : State) (b : bool) : State :=
  mkState (position s) (worldDirection s) (velocity s) (direction s)
    (moveForward s) (moveBackward s) (moveLeft s) b
    (canJump s) (isSprinting s) (isCrouching s).

Definition set_canJump (s : State) (b : bool) : State :=
  mkState (position s) (worldDirection s) (velocity s) (direction s)
    (moveForward s) (moveBackward s) (moveLeft s) (moveRight s)
    b (isSprinting s) (isCrouching s).

Definition set_isSprinting (s : State) (b : bool) : State :=
  mkState (position s) (worldDirection s) (velocity s) (direction s)
    (moveForward s) (moveBackward s) (moveLeft s) (moveRight s)
    (canJump s) b (isCrouching s).

Definition set_isCrouching (s : State) (b : bool) : State :=
  mkState (position s) (worldDirection s) (velocity s) (direction s)
    (moveForward s) (moveBackward s) (moveLeft s) (moveRight s)
    (canJump s) (isSprinting s) b.

(** [isCrouching ? CROUCH_HEIGHT : NORMAL_HEIGHT] *)
Definition currentHeight (s : State) : R :=
  if isCrouching s then CROUCH_HEIGHT else NORMAL_HEIGHT.

Definition updateCameraHeight (s : State) : State :=
  let targetHeight := if isCrouching s then CROUCH_HEIGHT else NORMAL_HEIGHT in
  set_position s (Vector3.set_y (position s) targetHeight).

Definition onKeyDown (code : Key) (s : State) : State :=
  match code with
  | KeyW => set_moveForward s true
  | KeyS => set_moveBackward s true
  | KeyA => set_moveLeft s true
  | KeyD => set_moveRight s true
  | Space =>
      if canJump s
      then set_canJump (set_velocity s (Vector3.set_y (velocity s) JUMP_VELOCITY)) false
      else s
  | ShiftLeft => set_isSprinting s true
  | ControlLeft => updateCameraHeight (set_isCrouching s true)
  | _ => s
  end.

Definition onKeyUp (code : Key) (s : State) : State :=
  match code with
  | KeyW => set_moveForward s false
  | KeyS => set_moveBackward s false
  | KeyA => set_moveLeft s false
  | KeyD => set_moveRight s false
  | ShiftLeft => set_isSprinting s false
  | ControlLeft => updateCameraHeight (set_isCrouching s false)
  | _ => s
  end.

(** The raycaster of [init] is [new THREE.Raycaster()]: [near = 0],
    [far = Infinity]; [raycaster.set(origin, dir)] re-aims it. *)
Definition raycaster_set (o dir : Vec3) : Raycaster := mkRay o dir 0 None.

(** [checkCollisions()]: the state and the returned [onObject]. *)
Definition checkCollisions (w : World) (s : State) : State * bool :=
  let intersections := w (raycaster_set (position s) (Vector3.mk 0 (-1) 0)) in
  let onObject :=
    firstCloserThan intersections
      ((if isCrouching s then CROUCH_HEIGHT else NORMAL_HEIGHT) + 1 / 10) in
  if onObject
  then
    let s := set_canJump s true in
    let s :=
      if Rlt_dec (Vector3.y (velocity s)) 0
      then set_velocity s (Vector3.set_y (velocity s) 0)
      else s in
    (s, onObject)
  else (s, onObject).

Definition checkWallCollision (w : World) (s : State) (dir : Vec3) (distance : R)
  : bool :=
  let intersections := w (raycaster_set (position s) dir) in
  firstCloserThan intersections distance.

(** The movement vector of [animate], from the normalized input direction
    [d], the speed and [delta]. *)
Definition moveVector (s : State) (d : Vec3) (speed delta : R) : Vec3 :=
  let mv := Vector3.zero in
  let mv :=
    if moveForward s || moveBackward s
    then
      let forward := worldDirection s in
      let forward := Vector3.set_y forward 0 in
      let forward := Vector3.normalize forward in
      Vector3.add mv (Vector3.multiplyScalar forward (Vector3.z d * speed * delta))
    else mv in
  if moveLeft s || moveRight s
  then
    let right := worldDirection s in
    let right := Vector3.cross right Vector3.up in
    let right := Vector3.set_y right 0 in
    let right := Vector3.normalize right in
    Vector3.add mv (Vector3.multiplyScalar right (Vector3.x d * speed * delta))
  else mv.

(** [animate], first part: gravity, the input direction and the speed of
    the current state. *)
Definition applyGravity (delta : R) (s : State) : State :=
  set_velocity s
    (Vector3.set_y (velocity s) (Vector3.y (velocity s) - GRAVITY * delta)).

Definition inputDirection (s : State) : State :=
  let d := direction s in
  let d := Vector3.set_z d (Number (moveForward s) - Number (moveBackward s)) in
  let d := Vector3.set_x d (Number (moveRight s) - Number (moveLeft s)) in
  set_direction s (Vector3.normalize d).

Definition speedOf (s : State) : R :=
  if isSprinting s && negb (isCrouching s) then SPRINT_SPEED
  else if isCrouching s then CROUCH_SPEED
  else NORMAL_SPEED.

(** [animate], "Check wall collisions before moving": one ray along the
    whole movement vector; the move is applied whole or not at all. *)
Definition moveHorizontal (w : World) (delta : R) (s : State) : State :=
  let mv := moveVector s (direction s) (speedOf s) delta in
  if Rlt_dec 0 (Vector3.length mv)
  then
    let checkDirection := Vector3.normalize mv in
    if negb (checkWallCollision w s checkDirection (5 / 10))
    then set_position s (Vector3.add (position s) mv)
    else s
  else s.

(** [animate], "Apply vertical velocity". *)
Definition moveVertical (delta : R) (s : State) : State :=
  set_position s
    (Vector3.set_y (position s)
       (Vector3.y (position s) + Vector3.y (velocity s) * delta)).

(** [animate], with [delta = clock.getDelta()], up to and including the
    call of [checkCollisions]. *)
Definition integrate (w : World) (delta : R) (s : State) : State :=
  let s := applyGravity delta s in
  let s := inputDirection s in
  let s := moveHorizontal w delta s in
  let s := moveVertical delta s in
  let '(s, onGround) := checkCollisions w s in
  s.

(** The floor test that follows [checkCollisions] in [animate]. *)
Definition floorCheck (s : State) : State :=
  if Rlt_dec (Vector3.y (position s))
       (if isCrouching s then CROUCH_HEIGHT else NORMAL_HEIGHT)
  then
    let s :=
      set_position s
        (Vector3.set_y (position s)
           (if isCrouching s then CROUCH_HEIGHT else NORMAL_HEIGHT)) in
    let s := set_velocity s (Vector3.set_y (velocity s) 0) in
    set_canJump s true
  else s.

(** [animate], with [delta = clock.getDelta()]. *)
Definition animate (w : World) (delta : R) (s : State) : State :=
  floorCheck (integrate w delta s).

(** The state after [init]. *)
Definition init (worldDir : Vec3) : State :=
  mkState (Vector3.mk 0 NORMAL_HEIGHT 5) worldDir
    Vector3.zero Vector3.zero false false false false false false false.

Definition set_worldDirection (s : State) (d : Vec3) : State :=
  mkState (position s) d (velocity s) (direction s)
    (moveForward s) (moveBackward s) (moveLeft s) (moveRight s)
    (canJump s) (isSprinting s) (isCrouching s).

(** What the browser delivers: key events, animation frames (with the
    clock's delta) and mouse look turning the camera. *)
Inductive Event : Type :=
| KeyDown (code : Key)
| KeyUp (code : Key)
| Frame (delta : R)
| Look (worldDir : Vec3).

Definition step (w : World) (e : Event) (s : State) : State :=
  match e with
  | KeyDown code => onKeyDown code s
  | KeyUp code => onKeyUp code s
  | Frame delta => animate w delta s
  | Look d => set_worldDirection s d
  end.

Definition run (w : World) (es : list Event) (s : State) : State :=
  fold_left (fun s e => step w e s) es s.

End Game.

(** * Scenarios, events and runs *)

(** The actor of the scenario: at [(0, 1.8, 0)], at rest, grounded, controls
    locked, nothing pressed. *)
Definition scenario (right : Vec3) (rotY now : R) : ScriptB.State :=
  ScriptB.mkState (Vector3.mk 0 (18 / 10) 0) right rotY true
    Vector3.zero Vector3.zero false false false false true false false now.

(** The eye height is never undercut in a state the program can reach. *)

Definition A_above (s : ScriptA.State) : Prop :=
  ScriptA.PLAYER_HEIGHT <= Vector3.y (ScriptA.position s).

Definition B_above (s : ScriptB.State) : Prop :=
  ScriptB.currentHeight s <= Vector3.y (ScriptB.position s).

Definition G_above (s : Game.State) : Prop :=
  Game.currentHeight s <= Vector3.y (Game.position s).

(** [a <= x <= b] *)
Definition inRange (a b x : R) : bool :=
  if Rle_dec a x then (if Rle_dec x b then true else false) else false.

(** The direction [(0, -1, 0)] of the ground ray. *)
Definition pointsDown (d : Vec3) : bool :=
  if Req_dec_T (Vector3.x d) 0
  then if Req_dec_T (Vector3.y d) (-1)
       then (if Req_dec_T (Vector3.z d) 0 then true else false)
       else false
  else false.

(** The climbing box [createBox(-10, 1, -10, 3, 2, 3, ..)] of game.js, as
    the ground ray of [checkCollisions] sees it: a ray that points straight
    down from above the 3 x 3 footprint meets the top face ([y = 2]); the
    bottom face is turned away from the ray and is not reported. *)
Definition climbingBox : World :=
  fun r =>
    let o := origin r in
    if pointsDown (rayDirection r)
       && inRange (-115 / 10) (-85 / 10) (Vector3.x o)
       && inRange (-115 / 10) (-85 / 10) (Vector3.z o)
       && inRange 2 1000 (Vector3.y o)
    then [Vector3.y o - 2]
    else [].

(** The player of game.js at the top of a jump over the climbing box:
    airborne at [(-10, 3.4, -10)], at rest, nothing pressed. *)
Definition overTheBox : Game.State :=
  Game.mkState (Vector3.mk (-10) (34 / 10) (-10)) (Vector3.mk 0 0 (-1))
    Vector3.zero Vector3.zero false false false false false false false.

(** A level without solids: no ray hits anything. *)
Definition emptyWorld : World := fun _ => [].

(** No directional key is held (first variant of script.js). *)
Definition A_noInput (s : ScriptA.State) : Prop :=
  ScriptA.moveForward s = false /\ ScriptA.moveBackward s = false /\
  ScriptA.moveLeft s = false /\ ScriptA.moveRight s = false.

(** A state of the first variant of script.js moving at [(vx, 0, vz)] on the
    floor, controls locked, nothing pressed, camera along the world axes. *)
Definition A_sliding (vx vz : R) : ScriptA.State :=
  ScriptA.mkState (Vector3.mk 0 (18 / 10) 0) (Vector3.mk 1 0 0) true
    (Vector3.mk vx 0 vz) Vector3.zero false false false false true false 0.

(** The intent vector of [animate] before [direction.normalize()]:
    [direction.x = Number(moveRight) - Number(moveLeft)],
    [direction.z = Number(moveForward) - Number(moveBackward)], and the
    [y] the vector had. *)
Definition intent (y : R) (forward backward left right : bool) : Vec3 :=
  Vector3.mk (Number right - Number left) y (Number forward - Number backward).

(** The ray [checkWallJump] casts for one entry of [directions]: from the
    camera position, along the entry rotated by [rotation.y]. *)
Definition wallRay (s : ScriptB.State) (dir : Vec3) : Raycaster :=
  ScriptB.raycaster_set (ScriptB.position s)
    (Vector3.applyAxisAngleY dir (ScriptB.rotationY s)).

(** The four rays of [checkWallJump], in the order of [directions]. *)
Definition wallRays (s : ScriptB.State) : list Raycaster :=
  map (wallRay s) ScriptB.directions.

(** The test [checkWallJump] applies to a ray:
    [intersects.length > 0 && intersects[0].distance < 2]. *)
Definition wallHit (w : World) (ray : Raycaster) : bool :=
  firstCloserThan (w ray) 2.

(** The state a granted wall jump leaves: only [velocity.y] is written. *)
Definition wallJumped (s : ScriptB.State) : ScriptB.State :=
  ScriptB.set_velocity s
    (Vector3.set_y (ScriptB.velocity s) ScriptB.WALL_JUMP_FORCE_UP).

(** A wall in reach of every ray: each ray meets it one unit away. *)
Definition wallEverywhere : World := fun _ => [1].

(** One press of Space followed by one frame of [delta] seconds. *)
Definition pressAndFrame (w : World) (delta : R) (s : ScriptB.State) : ScriptB.State :=
  ScriptB.tick delta (ScriptB.onKeyDown w Space s).

(** An actor of the second variant of script.js in the air at height [y],
    controls locked, nothing pressed, camera along the world axes. *)
Definition B_airborne (y : R) : ScriptB.State :=
  ScriptB.mkState (Vector3.mk 0 y 0) (Vector3.mk 1 0 0) 0 true
    Vector3.zero Vector3.zero false false false false false false false 0.

(** A wall in the plane [x = -1], seen from the side [x > -1]: a ray that
    heads toward negative [x] meets it, any other ray misses. *)
Definition wallAtMinusOne : World :=
  fun r =>
    if Rlt_dec (Vector3.x (rayDirection r)) 0
    then [(-1 - Vector3.x (origin r)) / Vector3.x (rayDirection r)]
    else [].

(** First variant of script.js, step 5: the state right after
    [controls.moveRight(-velocity.x * delta)], before the collision test. *)
Definition A_movedX (delta : R) (s : ScriptA.State) : ScriptA.State :=
  ScriptA.set_position s
    (pl_moveRight (ScriptA.camRight s) (ScriptA.position s)
       (- Vector3.x (ScriptA.velocity s) * delta)).

(** The same for [controls.moveForward(-velocity.z * delta)]. *)
Definition A_movedZ (delta : R) (s : ScriptA.State) : ScriptA.State :=
  ScriptA.set_position s
    (pl_moveForward (ScriptA.camRight s) (ScriptA.position s)
       (- Vector3.z (ScriptA.velocity s) * delta)).

(** The wall blocks the X move of the frame: the first collision test of
    step 5 answers true. *)
Definition A_blocksX (w : World) (delta : R) (s : ScriptA.State) : bool :=
  let a := ScriptA.accelerate delta s in
  ScriptA.detectCollision w (A_movedX delta a) (ScriptA.position (A_movedX delta a)).

(** The wall blocks the Z move of the frame: the second collision test of
    step 5 answers true. *)
Definition A_blocksZ (w : World) (delta : R) (s : ScriptA.State) : bool :=
  let a := ScriptA.moveAxisX w delta (ScriptA.accelerate delta s) in
  ScriptA.detectCollision w (A_movedZ delta a) (ScriptA.position (A_movedZ delta a)).

(** The first variant of script.js after [init], controls locked, camera
    along the world axes, with W and D held: a diagonal request from
    rest. *)
Definition A_diagonalFromRest : ScriptA.State :=
  ScriptA.onKeyDown KeyD
    (ScriptA.onKeyDown KeyW (ScriptA.init (Vector3.mk 1 0 0) true 0)).

(** The west face ([x = 19]) of the interior wall
    [createWall(20, 2.5, 0, 2, 5, 30, ..)] of game.js, extended to its whole
    plane and seen from the west: a ray that heads toward positive [x]
    meets it at [(19 - origin.x) / direction.x], any other ray misses. *)
Definition wallFace : World :=
  fun r =>
    if Rlt_dec 0 (Vector3.x (rayDirection r))
    then
      if Rle_dec (Vector3.x (origin r)) 19
      then [(19 - Vector3.x (origin r)) / Vector3.x (rayDirection r)]
      else []
    else [].

(** The player of game.js on the ground 0.3 west of that face, looking
    along -Z (so that the camera's right is +X), with W and D held. *)
Definition besideWall : Game.State :=
  Game.mkState (Vector3.mk (187 / 10) (18 / 10) 0) (Vector3.mk 0 0 (-1))
    Vector3.zero Vector3.zero true false false true true false false.

(** * The rest of the files: FPS counter, HUD, mouse look *)

(** ** script.js, first variant: [updateFPS] (lines 179-186) *)

Module Fps.

(** [String(n)] of a frame count, a non-negative integer: its decimal
    digits. *)
Definition decimal (n : nat) : String.string :=
  DecimalString.NilZero.string_of_uint (Nat.to_uint n).

(** The globals [frameCount] and [lastTimeFPS], and the text of the
    element [fpsElem]. *)
Record State : Type := mkState {
  frameCount : nat;
  lastTimeFPS : R;
  textContent : String.string
}.

(** [updateFPS(currentTime)].  The second component lists the texts the
    call writes to [fpsElem.textContent] (none or one). *)
Definition updateFPS (currentTime : R) (s : State) : State * list String.string :=
  let frameCount := S (frameCount s) in
  if Rge_dec (currentTime - lastTimeFPS s) 1000
  then
    let text := String.append "FPS: "%string (decimal frameCount) in
    (mkState 0 currentTime text, [text])
  else (mkState frameCount (lastTimeFPS s) (textContent s), []).

(** The calls of [updateFPS] of successive frames, with all the texts
    written, oldest first. *)
Fixpoint frames (times : list R) (s : State) : State * list String.string :=
  match times with
  | [] => (s, [])
  | t :: rest =>
      let '(s1, written1) := updateFPS t s in
      let '(s2, written2) := frames rest s1 in
      (s2, written1 ++ written2)
  end.

End Fps.

(** ** game.js: [updateHUD] (lines 348-361) *)

Module Hud.

(** The number [updateHUD] formats for the element [speed], before
    [.toFixed(2)]. *)
Definition currentSpeed (s : Game.State) : R :=
  sqrt (Vector3.x (Game.velocity s) * Vector3.x (Game.velocity s)
        + Vector3.z (Game.velocity s) * Vector3.z (Game.velocity s)).

(** The text [updateHUD] writes to the element [state]. *)
Definition stateText (s : Game.State) : String.string :=
  let state := "Standing"%string in
  let state :=
    if Game.isCrouching s then "Crouching"%string
    else if Game.isSprinting s then "Sprinting"%string
    else state in
  if negb (Game.canJump s)
  then String.append state " (Airborne)"%string
  else state.

End Hud.

(** ** game.js: [onMouseMove] (lines 236-251) *)

Module MouseLook.

(** [THREE.Euler], here always of order YXZ: [x] is the pitch, [y] the
    yaw. *)
Record Euler : Type := mkEuler { ex : R; ey : R; ez : R }.

Definition PI_2 : R := PI / 2.

(** [event.movementX || 0]: a missing movement counts as 0. *)
Definition orZero (movement : option R) : R :=
  match movement with
  | Some m => m
  | None => 0
  end.

(** [onMouseMove(event)], from the rotation that
    [euler.setFromQuaternion(camera.quaternion)] reads to the rotation
    that [camera.quaternion.setFromEuler(euler)] writes back. *)
Definition onMouseMove (movementX movementY : option R) (euler : Euler) : Euler :=
  let movementX := orZero movementX in
  let movementY := orZero movementY in
  let euler := mkEuler (ex euler) (ey euler - movementX * (2 / 1000)) (ez euler) in
  let euler := mkEuler (ex euler - movementY * (2 / 1000)) (ey euler) (ez euler) in
  mkEuler (Rmax (- PI_2) (Rmin PI_2 (ex euler))) (ey euler) (ez euler).

End MouseLook.

(** * States and frames used by the further properties *)

(** Standing still on the floor, nothing held (first variant of
    script.js). *)
Definition A_atRest (s : ScriptA.State) : Prop :=
  Vector3.y (ScriptA.position s) = ScriptA.PLAYER_HEIGHT /\
  ScriptA.velocity s = Vector3.zero /\
  ScriptA.direction s = Vector3.zero /\
  A_noInput s /\
  ScriptA.canJump s = true.

(** The same for the second variant, standing or crouching. *)
Definition B_atRest (s : ScriptB.State) : Prop :=
  Vector3.y (ScriptB.position s) = ScriptB.currentHeight s /\
  ScriptB.velocity s = Vector3.zero /\
  ScriptB.direction s = Vector3.zero /\
  (ScriptB.moveForward s = false /\ ScriptB.moveBackward s = false /\
   ScriptB.moveLeft s = false /\ ScriptB.moveRight s = false) /\
  ScriptB.canJump s = true.

(** The same for game.js. *)
Definition G_atRest (s : Game.State) : Prop :=
  Vector3.y (Game.position s) = Game.currentHeight s /\
  Game.velocity s = Vector3.zero /\
  Game.direction s = Vector3.zero /\
  (Game.moveForward s = false /\ Game.moveBackward s = false /\
   Game.moveLeft s = false /\ Game.moveRight s = false) /\
  Game.canJump s = true.

(** Second variant of script.js, "Determine Speed": [actualSpeed] of the
    frame. *)
Definition B_actualSpeed (s : ScriptB.State) : R :=
  let actualSpeed := ScriptB.MOVEMENT_SPEED in
  let actualSpeed :=
    if ScriptB.isSprinting s
    then actualSpeed * ScriptB.SPRINT_MULTIPLIER else actualSpeed in
  if ScriptB.isCrouching s then ScriptB.CROUCH_SPEED else actualSpeed.

(** The normalized direction the held keys ask for. *)
Definition B_heading (s : ScriptB.State) : Vec3 :=
  Vector3.normalize
    (intent 0 (ScriptB.moveForward s) (ScriptB.moveBackward s)
       (ScriptB.moveLeft s) (ScriptB.moveRight s)).

(** The velocity component at which damping and key acceleration
    balance, for a component [h] of the heading. *)
Definition B_terminal (s : ScriptB.State) (h : R) : R :=
  - (4 * B_actualSpeed s * h).

(** Mouse look without roll: the camera's right axis stays horizontal. *)
Definition A_levelLook (e : ScriptA.Event) : Prop :=
  match e with
  | ScriptA.Look r => Vector3.y r = 0
  | _ => True
  end.

Definition B_levelLook (e : ScriptB.Event) : Prop :=
  match e with
  | ScriptB.Look r _ => Vector3.y r = 0
  | _ => True
  end.

(** [canJump] tells the truth: the camera's right axis is horizontal, and
    when [canJump] is set the actor stands at the eye height with no
    vertical velocity. *)
Definition A_grounded_exact (s : ScriptA.State) : Prop :=
  Vector3.y (ScriptA.camRight s) = 0 /\
  (ScriptA.canJump s = true ->
   Vector3.y (ScriptA.position s) = ScriptA.PLAYER_HEIGHT /\
   Vector3.y (ScriptA.velocity s) = 0).

Definition B_grounded_exact (s : ScriptB.State) : Prop :=
  Vector3.y (ScriptB.camRight s) = 0 /\
  (ScriptB.canJump s = true ->
   Vector3.y (ScriptB.position s) = ScriptB.currentHeight s /\
   Vector3.y (ScriptB.velocity s) = 0).

(** The flag a key drives in the first variant of script.js and in
    game.js; [None] for a key without a flag of its own. *)
Definition A_flag (code : Key) (s : ScriptA.State) : option bool :=
  match code with
  | KeyW => Some (ScriptA.moveForward s)
  | KeyA => Some (ScriptA.moveLeft s)
  | KeyS => Some (ScriptA.moveBackward s)
  | KeyD => Some (ScriptA.moveRight s)
  | ShiftLeft => Some (ScriptA.isSprinting s)
  | _ => None
  end.

Definition G_flag (code : Key) (s : Game.State) : option bool :=
  match code with
  | KeyW => Some (Game.moveForward s)
  | KeyA => Some (Game.moveLeft s)
  | KeyS => Some (Game.moveBackward s)
  | KeyD => Some (Game.moveRight s)
  | ShiftLeft => Some (Game.isSprinting s)
  | ControlLeft => Some (Game.isCrouching s)
  | _ => None
  end.

(** game.js, [animate]: the movement vector of a frame, built from the
    input direction and the speed of the state the frame starts in. *)
Definition G_frameMove (delta : R) (s : Game.State) : Vec3 :=
  let s1 := Game.inputDirection (Game.applyGravity delta s) in
  Game.moveVector s1 (Game.direction s1) (Game.speedOf s1) delta.

(** game.js, [animate]: the state [checkCollisions] is called in, after
    the horizontal and the vertical move of the frame. *)
Definition G_afterMove (w : World) (delta : R) (s : Game.State) : Game.State :=
  Game.moveVertical delta
    (Game.moveHorizontal w delta
       (Game.inputDirection (Game.applyGravity delta s))).

(** The ground ray of [checkCollisions], cast from [p]: is the nearest
    solid below closer than the eye height plus 0.1? *)
Definition G_solidBelow (w : World) (p : Vec3) (s : Game.State) : bool :=
  firstCloserThan (w (Game.raycaster_set p (Vector3.mk 0 (-1) 0)))
    (Game.currentHeight s + 1 / 10).

(** * Solids of the levels and the rays of the wall tests *)

(** [near <= distance <= far] of a raycaster. *)
Definition withinReach (r : Raycaster) (distance : R) : bool :=
  (if Rle_dec (near r) distance then true else false)
  && match far r with
     | Some f => if Rle_dec distance f then true else false
     | None => true
     end.

(** A rectangular face of a box, in the plane [x = x0], spanning
    [ylo .. yhi] and [zlo .. zhi].  With [facesWest] its outward normal is
    -X, otherwise +X.  The boxes have the default one-sided material, so a
    ray meets the face only from the front: it must travel against the
    normal.  The ray [o + t d] crosses the plane at
    [t = (x0 - o.x) / d.x]; it hits when [t >= 0], the crossing point lies
    in the rectangle, and the distance [t |d|] is within the raycaster's
    range.  A ray without direction hits nothing. *)
Definition faceX (x0 : R) (facesWest : bool) (ylo yhi zlo zhi : R) : World :=
  fun r =>
    let o := origin r in
    let d := rayDirection r in
    if (if facesWest
        then (if Rlt_dec 0 (Vector3.x d) then true else false)
        else (if Rlt_dec (Vector3.x d) 0 then true else false))
    then
      let t := (x0 - Vector3.x o) / Vector3.x d in
      let distance := t * Vector3.length d in
      if (if Rle_dec 0 t then true else false)
         && inRange ylo yhi (Vector3.y o + t * Vector3.y d)
         && inRange zlo zhi (Vector3.z o + t * Vector3.z d)
         && withinReach r distance
      then [distance]
      else []
    else [].

(** script.js, first variant, [createWall(5, 2.5, 0, 10, 5, 1, ..)], the
    Red Wall: the box [0 <= x <= 10], [0 <= y <= 5], [-0.5 <= z <= 0.5].
    This is its west face. *)
Definition redWallWest : World := faceX 0 true 0 5 (-1 / 2) (1 / 2).

(** script.js, second variant, [createBox(10, 5, 0, 2, 10, 20, ..)], "a
    large wall to jump on": the box [9 <= x <= 11], [0 <= y <= 10],
    [-10 <= z <= 10].  This is its west face. *)
Definition largeWallWest : World := faceX 9 true 0 10 (-10) 10.

(** A world in which a ray without direction finds nothing. *)
Definition directionless_silent (w : World) : Prop :=
  forall (o : Vec3) (n : R) (f : option R), w (mkRay o Vector3.zero n f) = [].

(** The first variant of script.js with W and D held from rest, camera
    along the world axes, controls locked, the camera at [p]. *)
Definition A_diagonalAt (p : Vec3) : ScriptA.State :=
  ScriptA.set_position A_diagonalFromRest p.

(** The four cardinal directions +X, -X, +Z, -Z turned by [yaw] about the
    Y axis, as rays from [p] with the range 0 to 10 of the raycaster. *)
Definition yawRays (p : Vec3) (yaw : R) : list Raycaster :=
  [ mkRay p (Vector3.mk (cos yaw) 0 (- sin yaw)) 0 (Some 10);
    mkRay p (Vector3.mk (- cos yaw) 0 (sin yaw)) 0 (Some 10);
    mkRay p (Vector3.mk (sin yaw) 0 (cos yaw)) 0 (Some 10);
    mkRay p (Vector3.mk (- sin yaw) 0 (- cos yaw)) 0 (Some 10) ].

(** One of those rays meets a solid closer than 2. *)
Definition B_wallInReach (w : World) (p : Vec3) (yaw : R) : Prop :=
  exists ray d, In ray (yawRays p yaw) /\ In d (w ray) /\ d < 2.



(** An actor of the second variant of script.js in the air at [p], at
    rest, controls locked, nothing pressed, camera along the world axes. *)
Definition B_airborneAt (p : Vec3) : ScriptB.State :=
  ScriptB.mkState p (Vector3.mk 1 0 0) 0 true
    Vector3.zero Vector3.zero false false false false false false false 0.

(** No horizontal motion and no directional key held. *)
Definition B_horizontalRest (s : ScriptB.State) : Prop :=
  Vector3.x (ScriptB.velocity s) = 0 /\ Vector3.z (ScriptB.velocity s) = 0 /\
  ScriptB.moveForward s = false /\ ScriptB.moveBackward s = false /\
  ScriptB.moveLeft s = false /\ ScriptB.moveRight s = false.

(** The player at the keyboard: Space pressed, or a frame of [delta]
    seconds passing. *)
Inductive Climb : Type :=
| Press
| Wait (delta : R).

Definition climbStep (w : World) (c : Climb) (s : ScriptB.State) : ScriptB.State :=
  match c with
  | Press => ScriptB.onKeyDown w Space s
  | Wait delta => ScriptB.tick delta s
  end.

Definition climb (w : World) (cs : list Climb) (s : ScriptB.State) : ScriptB.State :=
  fold_left (fun s c => climbStep w c s) cs s.

(** Time does not run backwards. *)
Definition forwardInTime (cs : list Climb) : Prop :=
  Forall (fun c => match c with Press => True | Wait delta => 0 <= delta end) cs.

(** The height the actor can still reach in free flight: its height, plus
    [velocity.y^2 / (2 * 98)] while it is rising. *)
Definition B_apex (s : ScriptB.State) : R :=
  Vector3.y (ScriptB.position s)
  + (if Rlt_dec 0 (Vector3.y (ScriptB.velocity s))
     then Vector3.y (ScriptB.velocity s) * Vector3.y (ScriptB.velocity s) / 196
     else 0).
(** * Properties *)

(** Evaluation of the embedded functions on explicit states: unfolds the
    program and the vector operations, and nothing of the real numbers. *)
Ltac eval_vec :=
  cbv [Vector3.x Vector3.y Vector3.z Vector3.set_x Vector3.set_y Vector3.set_z
       Vector3.add Vector3.sub Vector3.multiplyScalar Vector3.divideScalar
       Vector3.addScaledVector Vector3.cross Vector3.up Vector3.zero
       pl_moveRight pl_moveForward Number orb andb negb nonEmpty
       firstCloserThan fst snd
       origin rayDirection near far].

Ltac eval_A :=
  cbv [ScriptA.tick ScriptA.integrate ScriptA.moveVertical ScriptA.moveAxisZ
       ScriptA.moveAxisX ScriptA.accelerate ScriptA.detectCollision
       ScriptA.onKeyDown ScriptA.onKeyUp ScriptA.init
       ScriptA.position ScriptA.camRight ScriptA.isLocked ScriptA.velocity
       ScriptA.direction ScriptA.moveForward ScriptA.moveBackward
       ScriptA.moveLeft ScriptA.moveRight ScriptA.canJump ScriptA.isSprinting
       ScriptA.prevTime
       ScriptA.set_position ScriptA.set_velocity ScriptA.set_direction
       ScriptA.set_moveForward ScriptA.set_moveBackward ScriptA.set_moveLeft
       ScriptA.set_moveRight ScriptA.set_canJump ScriptA.set_isSprinting
       ScriptA.set_prevTime ScriptA.set_camRight ScriptA.set_isLocked
       ScriptA.WALK_SPEED ScriptA.SPRINT_SPEED ScriptA.JUMP_FORCE
       ScriptA.GRAVITY ScriptA.PLAYER_HEIGHT ScriptA.PLAYER_RADIUS];
  eval_vec.

Ltac eval_B :=
  cbv [ScriptB.tick ScriptB.integrate ScriptB.animate
       ScriptB.onKeyDown ScriptB.onKeyUp ScriptB.init ScriptB.currentHeight
       ScriptB.position ScriptB.camRight ScriptB.rotationY ScriptB.isLocked
       ScriptB.velocity ScriptB.direction ScriptB.moveForward
       ScriptB.moveBackward ScriptB.moveLeft ScriptB.moveRight ScriptB.canJump
       ScriptB.isSprinting ScriptB.isCrouching ScriptB.prevTime
       ScriptB.set_position ScriptB.set_velocity ScriptB.set_direction
       ScriptB.set_moveForward ScriptB.set_moveBackward ScriptB.set_moveLeft
       ScriptB.set_moveRight ScriptB.set_canJump ScriptB.set_isSprinting
       ScriptB.set_isCrouching ScriptB.set_prevTime ScriptB.set_camera
       ScriptB.set_isLocked
       ScriptB.MOVEMENT_SPEED ScriptB.SPRINT_MULTIPLIER ScriptB.CROUCH_SPEED
       ScriptB.JUMP_FORCE ScriptB.WALL_JUMP_FORCE_UP ScriptB.GRAVITY
       ScriptB.PLAYER_HEIGHT ScriptB.CROUCH_HEIGHT];
  eval_vec.

Ltac eval_G :=
  cbv [Game.integrate Game.moveVertical Game.moveHorizontal
       Game.inputDirection Game.applyGravity Game.speedOf Game.moveVector
       Game.checkCollisions Game.checkWallCollision Game.raycaster_set
       Game.onKeyDown Game.onKeyUp Game.updateCameraHeight Game.init
       Game.currentHeight
       Game.position Game.worldDirection Game.velocity Game.direction
       Game.moveForward Game.moveBackward Game.moveLeft Game.moveRight
       Game.canJump Game.isSprinting Game.isCrouching
       Game.set_position Game.set_velocity Game.set_direction
       Game.set_moveForward Game.set_moveBackward Game.set_moveLeft
       Game.set_moveRight Game.set_canJump Game.set_isSprinting
       Game.set_isCrouching Game.set_worldDirection
       Game.NORMAL_SPEED Game.SPRINT_SPEED Game.CROUCH_SPEED
       Game.JUMP_VELOCITY Game.GRAVITY Game.NORMAL_HEIGHT Game.CROUCH_HEIGHT];
  eval_vec.


(** ** Vector3: length and normalize *)

Lemma lengthSq_nonneg (v : Vec3) : 0 <= Vector3.lengthSq v.
Proof. unfold Vector3.lengthSq. nra. Qed.

Lemma length_nonneg (v : Vec3) : 0 <= Vector3.length v.
Proof. apply sqrt_pos. Qed.

Lemma length_sqr (v : Vec3) :
  Vector3.length v * Vector3.length v = Vector3.lengthSq v.
Proof. apply sqrt_sqrt, lengthSq_nonneg. Qed.

Lemma length_zero_components (v : Vec3) :
  Vector3.length v = 0 ->
  Vector3.x v = 0 /\ Vector3.y v = 0 /\ Vector3.z v = 0.
Proof.
  intros H. apply sqrt_eq_0 in H; [|apply lengthSq_nonneg].
  unfold Vector3.lengthSq in H. repeat split; nra.
Qed.

Lemma lengthOr1_pos (v : Vec3) : 0 < Vector3.lengthOr1 v.
Proof.
  unfold Vector3.lengthOr1. destruct (Req_dec_T (Vector3.length v) 0) as [E|N].
  - lra.
  - pose proof (length_nonneg v). lra.
Qed.

Lemma normalize_zero_length (v : Vec3) :
  Vector3.length v = 0 -> Vector3.normalize v = Vector3.zero.
Proof.
  intros H. destruct (length_zero_components v H) as (Hx & Hy & Hz).
  unfold Vector3.normalize, Vector3.divideScalar, Vector3.multiplyScalar,
    Vector3.zero.
  rewrite Hx, Hy, Hz. f_equal; ring.
Qed.

Lemma lengthSq_multiplyScalar (v : Vec3) (k : R) :
  Vector3.lengthSq (Vector3.multiplyScalar v k) = Vector3.lengthSq v * (k * k).
Proof. unfold Vector3.lengthSq, Vector3.multiplyScalar; simpl. ring. Qed.

Lemma normalize_unit_length (v : Vec3) :
  Vector3.length v <> 0 -> Vector3.length (Vector3.normalize v) = 1.
Proof.
  intros H. unfold Vector3.normalize, Vector3.divideScalar, Vector3.lengthOr1.
  destruct (Req_dec_T (Vector3.length v) 0) as [E|_]; [contradiction|].
  unfold Vector3.length at 1. apply sqrt_lem_1.
  - apply lengthSq_nonneg.
  - lra.
  - rewrite lengthSq_multiplyScalar, <- length_sqr. field. exact H.
Qed.

Lemma normalize_length_le_1 (v : Vec3) :
  Vector3.length (Vector3.normalize v) <= 1.
Proof.
  destruct (Req_dec_T (Vector3.length v) 0) as [E|N].
  - rewrite (normalize_zero_length v E).
    unfold Vector3.length, Vector3.lengthSq, Vector3.zero; simpl.
    replace (0 * 0 + 0 * 0 + 0 * 0) with 0 by ring. rewrite sqrt_0. lra.
  - rewrite (normalize_unit_length v N). lra.
Qed.

(** ** C1: the jump scenario on the second variant of script.js *)

(** C1 (what the code computes).  In the second variant of script.js, with
    [JUMP_FORCE = 15] and [GRAVITY = 40] declared, the jump key sets
    [velocity.y] to 15; the next frame, 100 ms later ([delta = 0.1]), leaves
    [velocity.y = 5.2] and [position.y = 2.32], because the gravity step of
    [animate] subtracts [9.8 * 10.0 * delta] and never reads [GRAVITY].
    The values 11 and 2.9 of the scenario are not reached. *)
Theorem C1_jump_scenario_uses_literal_gravity (w : World) (right : Vec3) (rotY now : R) :
  let s1 := ScriptB.onKeyDown w Space (scenario right rotY now) in
  let s2 := ScriptB.animate (now + 100) s1 in
  ScriptB.JUMP_FORCE = 15 /\ ScriptB.GRAVITY = 40 /\
  Vector3.y (ScriptB.velocity s1) = 15 /\
  ScriptB.canJump s1 = false /\
  Vector3.y (ScriptB.velocity s2) = 52 / 10 /\
  Vector3.y (ScriptB.position s2) = 232 / 100 /\
  Vector3.y (ScriptB.velocity s2) <> 15 - ScriptB.GRAVITY * (1 / 10) /\
  Vector3.y (ScriptB.position s2) <> 29 / 10.
Proof.
  cbv zeta.
  assert (Hd : (now + 100 - now) / 1000 = 1 / 10) by field.
  unfold scenario. eval_B. rewrite Hd. unfold ScriptB.floorCheck. eval_B.
  destruct (Rlt_dec _ _) as [Hlt|Hge]; eval_B.
  - exfalso. lra.
  - repeat split; try lra.
Qed.

(** ** C3: the floor check *)

Lemma A_floorCheck_clamped (s : ScriptA.State) :
  Vector3.y (ScriptA.position s) < ScriptA.PLAYER_HEIGHT ->
  Vector3.y (ScriptA.position (ScriptA.floorCheck s)) = ScriptA.PLAYER_HEIGHT /\
  Vector3.y (ScriptA.velocity (ScriptA.floorCheck s)) = 0 /\
  ScriptA.canJump (ScriptA.floorCheck s) = true.
Proof.
  intros H. unfold ScriptA.floorCheck.
  destruct (Rlt_dec _ _) as [_|N]; [|contradiction]. simpl. auto.
Qed.

Lemma A_floorCheck_untouched (s : ScriptA.State) :
  ~ Vector3.y (ScriptA.position s) < ScriptA.PLAYER_HEIGHT ->
  ScriptA.floorCheck s = s.
Proof.
  intros H. unfold ScriptA.floorCheck.
  destruct (Rlt_dec _ _) as [L|_]; [contradiction|reflexivity].
Qed.

Lemma A_floorCheck_above (s : ScriptA.State) :
  ScriptA.PLAYER_HEIGHT <= Vector3.y (ScriptA.position (ScriptA.floorCheck s)).
Proof.
  unfold ScriptA.floorCheck. destruct (Rlt_dec _ _) as [L|N]; simpl; lra.
Qed.

Lemma A_integrate_canJump (w : World) (delta : R) (s : ScriptA.State) :
  ScriptA.canJump (ScriptA.integrate w delta s) = ScriptA.canJump s.
Proof.
  unfold ScriptA.integrate, ScriptA.moveVertical, ScriptA.moveAxisZ,
    ScriptA.moveAxisX.
  destruct (ScriptA.detectCollision _ _ _); simpl;
    destruct (ScriptA.detectCollision _ _ _); reflexivity.
Qed.

Lemma B_floorCheck_clamped (s : ScriptB.State) :
  Vector3.y (ScriptB.position s) < ScriptB.currentHeight s ->
  Vector3.y (ScriptB.position (ScriptB.floorCheck s)) = ScriptB.currentHeight s /\
  Vector3.y (ScriptB.velocity (ScriptB.floorCheck s)) = 0 /\
  ScriptB.canJump (ScriptB.floorCheck s) = true.
Proof.
  intros H. unfold ScriptB.floorCheck, ScriptB.currentHeight in *.
  destruct (Rlt_dec _ _) as [_|N]; [|contradiction]. simpl. auto.
Qed.

Lemma B_floorCheck_untouched (s : ScriptB.State) :
  ~ Vector3.y (ScriptB.position s) < ScriptB.currentHeight s ->
  ScriptB.floorCheck s = s.
Proof.
  intros H. unfold ScriptB.floorCheck, ScriptB.currentHeight in *.
  destruct (Rlt_dec _ _) as [L|_]; [contradiction|reflexivity].
Qed.

Lemma B_floorCheck_crouch (s : ScriptB.State) :
  ScriptB.isCrouching (ScriptB.floorCheck s) = ScriptB.isCrouching s.
Proof.
  unfold ScriptB.floorCheck. destruct (Rlt_dec _ _); reflexivity.
Qed.

Lemma B_floorCheck_above (s : ScriptB.State) :
  ScriptB.currentHeight (ScriptB.floorCheck s)
  <= Vector3.y (ScriptB.position (ScriptB.floorCheck s)).
Proof.
  unfold ScriptB.currentHeight. rewrite B_floorCheck_crouch.
  unfold ScriptB.floorCheck. destruct (Rlt_dec _ _) as [L|N]; simpl; lra.
Qed.

Lemma G_floorCheck_clamped (s : Game.State) :
  Vector3.y (Game.position s) < Game.currentHeight s ->
  Vector3.y (Game.position (Game.floorCheck s)) = Game.currentHeight s /\
  Vector3.y (Game.velocity (Game.floorCheck s)) = 0 /\
  Game.canJump (Game.floorCheck s) = true.
Proof.
  intros H. unfold Game.floorCheck, Game.currentHeight in *.
  destruct (Rlt_dec _ _) as [_|N]; [|contradiction]. simpl. auto.
Qed.

Lemma G_floorCheck_untouched (s : Game.State) :
  ~ Vector3.y (Game.position s) < Game.currentHeight s ->
  Game.floorCheck s = s.
Proof.
  intros H. unfold Game.floorCheck, Game.currentHeight in *.
  destruct (Rlt_dec _ _) as [L|_]; [contradiction|reflexivity].
Qed.

Lemma G_floorCheck_crouch (s : Game.State) :
  Game.isCrouching (Game.floorCheck s) = Game.isCrouching s.
Proof.
  unfold Game.floorCheck. destruct (Rlt_dec _ _); reflexivity.
Qed.

Lemma G_floorCheck_above (s : Game.State) :
  Game.currentHeight (Game.floorCheck s)
  <= Vector3.y (Game.position (Game.floorCheck s)).
Proof.
  unfold Game.currentHeight. rewrite G_floorCheck_crouch.
  unfold Game.floorCheck. destruct (Rlt_dec _ _) as [L|N]; simpl; lra.
Qed.

Lemma A_step_above (w : World) (e : ScriptA.Event) (s : ScriptA.State) :
  A_above s -> A_above (ScriptA.step w e s).
Proof.
  unfold A_above. intros H. destruct e as [k|k|t|b|r]; simpl.
  - destruct k; simpl; try exact H. destruct (ScriptA.canJump s); exact H.
  - destruct k; exact H.
  - unfold ScriptA.animate. destruct (ScriptA.isLocked s); simpl.
    + apply A_floorCheck_above.
    + exact H.
  - exact H.
  - exact H.
Qed.

Lemma A_run_above (w : World) (es : list ScriptA.Event) (s : ScriptA.State) :
  A_above s -> A_above (ScriptA.run w es s).
Proof.
  unfold ScriptA.run. revert s.
  induction es as [|e es IH]; intros s H; simpl.
  - exact H.
  - apply IH, A_step_above, H.
Qed.

Lemma B_wallJumpLoop_keeps (w : World) (s : ScriptB.State) (dirs : list Vec3) :
  ScriptB.position (fst (ScriptB.wallJumpLoop w s dirs)) = ScriptB.position s /\
  ScriptB.isCrouching (fst (ScriptB.wallJumpLoop w s dirs)) = ScriptB.isCrouching s /\
  ScriptB.canJump (fst (ScriptB.wallJumpLoop w s dirs)) = ScriptB.canJump s.
Proof.
  induction dirs as [|d dirs IH]; simpl.
  - auto.
  - destruct (firstCloserThan _ _); simpl.
    + auto.
    + destruct (ScriptB.wallJumpLoop w s dirs) as [s' rays]. exact IH.
Qed.

Lemma B_step_above (w : World) (e : ScriptB.Event) (s : ScriptB.State) :
  B_above s -> B_above (ScriptB.step w e s).
Proof.
  unfold B_above, ScriptB.currentHeight. intros H.
  destruct e as [k|k|t|b|r a]; simpl.
  - destruct k; simpl; try exact H.
    + destruct (ScriptB.canJump s); simpl; [exact H|].
      unfold ScriptB.checkWallJump.
      destruct (B_wallJumpLoop_keeps w s ScriptB.directions) as (-> & -> & _).
      exact H.
    + destruct (ScriptB.isCrouching s) eqn:E; simpl; rewrite ?E; [exact H|].
      unfold ScriptB.PLAYER_HEIGHT, ScriptB.CROUCH_HEIGHT in *. lra.
  - destruct k; simpl; try exact H.
    destruct (ScriptB.isCrouching s) eqn:E; simpl; rewrite ?E; [|exact H].
    unfold ScriptB.PLAYER_HEIGHT, ScriptB.CROUCH_HEIGHT in *. lra.
  - unfold ScriptB.animate. destruct (ScriptB.isLocked s); simpl.
    + apply B_floorCheck_above.
    + exact H.
  - exact H.
  - exact H.
Qed.

Lemma B_run_above (w : World) (es : list ScriptB.Event) (s : ScriptB.State) :
  B_above s -> B_above (ScriptB.run w es s).
Proof.
  unfold ScriptB.run. revert s.
  induction es as [|e es IH]; intros s H; simpl.
  - exact H.
  - apply IH, B_step_above, H.
Qed.

Lemma G_step_above (w : World) (e : Game.Event) (s : Game.State) :
  G_above s -> G_above (Game.step w e s).
Proof.
  unfold G_above, Game.currentHeight. intros H.
  destruct e as [k|k|t|d]; simpl.
  - destruct k; simpl; try exact H.
    + destruct (Game.canJump s); exact H.
    + lra.
  - destruct k; simpl; try exact H. lra.
  - apply G_floorCheck_above.
  - exact H.
Qed.

Lemma G_run_above (w : World) (es : list Game.Event) (s : Game.State) :
  G_above s -> G_above (Game.run w es s).
Proof.
  unfold Game.run. revert s.
  induction es as [|e es IH]; intros s H; simpl.
  - exact H.
  - apply IH, G_step_above, H.
Qed.

Lemma length_zero_vector : Vector3.length Vector3.zero = 0.
Proof.
  unfold Vector3.length, Vector3.lengthSq, Vector3.zero; simpl.
  replace (0 * 0 + 0 * 0 + 0 * 0) with 0 by ring. apply sqrt_0.
Qed.

(** Settles the comparisons of a concrete evaluation by linear arithmetic. *)
Ltac settle_comparisons :=
  repeat match goal with
         | |- context [Rlt_dec ?a ?b] =>
             destruct (Rlt_dec a b); try (exfalso; lra)
         | |- context [Rle_dec ?a ?b] =>
             destruct (Rle_dec a b); try (exfalso; lra)
         | |- context [Req_dec_T ?a ?b] =>
             destruct (Req_dec_T a b); try (exfalso; lra)
         end.

(** C3 (as stated, refuted).  In game.js a frame can end with [canJump]
    true although the floor test did not fire: over the climbing box the
    ground ray of [checkCollisions] sets [canJump], and the floor test that
    follows has no else branch that would clear it. *)
Lemma C3_counterexample_grounded_without_clamp :
  ~ (forall (w : World) (delta : R) (s : Game.State),
       let p := Game.integrate w delta s in
       ~ Vector3.y (Game.position p) < Game.currentHeight p ->
       Game.canJump (Game.animate w delta s) = false).
Proof.
  intros H. specialize (H climbingBox (1 / 10) overTheBox).
  cbv zeta in H.
  assert (E : Vector3.y (Game.position (Game.integrate climbingBox (1 / 10) overTheBox))
              = 32 / 10 /\
              Game.canJump (Game.integrate climbingBox (1 / 10) overTheBox) = true /\
              Game.isCrouching (Game.integrate climbingBox (1 / 10) overTheBox) = false).
  { unfold overTheBox. cbv [Game.integrate Game.moveHorizontal]. 
    assert (Hmv : Game.moveVector
                    (Game.inputDirection
                       (Game.applyGravity (1 / 10) overTheBox))
                    (Game.direction
                       (Game.inputDirection
                          (Game.applyGravity (1 / 10) overTheBox)))
                    (Game.speedOf
                       (Game.inputDirection
                          (Game.applyGravity (1 / 10) overTheBox)))
                    (1 / 10) = Vector3.zero) by reflexivity.
    unfold overTheBox in Hmv. rewrite Hmv, length_zero_vector.
    destruct (Rlt_dec 0 0) as [L|_]; [exfalso; lra|].
    unfold climbingBox, pointsDown, inRange. eval_G.
    settle_comparisons; cbv beta iota; eval_G; settle_comparisons;
      repeat split; lra. }
  destruct E as (Ey & Ec & Ek).
  assert (N : ~ Vector3.y (Game.position (Game.integrate climbingBox (1 / 10) overTheBox))
                < Game.currentHeight (Game.integrate climbingBox (1 / 10) overTheBox)).
  { unfold Game.currentHeight. rewrite Ey, Ek. unfold Game.NORMAL_HEIGHT. lra. }
  specialize (H N). unfold Game.animate in H.
  rewrite (G_floorCheck_untouched _ N), Ec in H. discriminate H.
Qed.

Lemma G_integrate_canJump (w : World) (delta : R) (s : Game.State) :
  Game.canJump s = true -> Game.canJump (Game.integrate w delta s) = true.
Proof.
  intros H.
  assert (Hm : Game.canJump
                 (Game.moveVertical delta
                    (Game.moveHorizontal w delta
                       (Game.inputDirection (Game.applyGravity delta s)))) = true).
  { unfold Game.moveVertical, Game.moveHorizontal.
    destruct (Rlt_dec _ _); [destruct (negb _)|]; exact H. }
  unfold Game.integrate, Game.checkCollisions.
  destruct (firstCloserThan _ _); simpl.
  - destruct (Rlt_dec _ _); reflexivity.
  - exact Hm.
Qed.

(** C3 (amended).  In all three variants the frame ends with the floor
    check: if [position.y] is below the current eye height, [position.y]
    becomes the eye height, [velocity.y] becomes 0 and [canJump] becomes
    true; otherwise the floor check changes nothing and [canJump] keeps its
    value (the one before the frame in script.js, the one [checkCollisions]
    left in game.js; a frame never clears it).  After every frame, and in
    every state reached from [init], [position.y] is at least the current
    eye height, so in particular whenever [canJump] is true. *)
Theorem C3_floor_clamp_sets_and_never_clears_canJump :
  (forall (w : World) (delta : R) (s : ScriptA.State),
     let p := ScriptA.integrate w delta s in
     let s' := ScriptA.tick w delta s in
     (Vector3.y (ScriptA.position p) < ScriptA.PLAYER_HEIGHT ->
      Vector3.y (ScriptA.position s') = ScriptA.PLAYER_HEIGHT /\
      Vector3.y (ScriptA.velocity s') = 0 /\
      ScriptA.canJump s' = true) /\
     (~ Vector3.y (ScriptA.position p) < ScriptA.PLAYER_HEIGHT ->
      s' = p /\ ScriptA.canJump s' = ScriptA.canJump s) /\
     ScriptA.PLAYER_HEIGHT <= Vector3.y (ScriptA.position s')) /\
  (forall (delta : R) (s : ScriptB.State),
     let p := ScriptB.integrate delta s in
     let s' := ScriptB.tick delta s in
     (Vector3.y (ScriptB.position p) < ScriptB.currentHeight s ->
      Vector3.y (ScriptB.position s') = ScriptB.currentHeight s /\
      Vector3.y (ScriptB.velocity s') = 0 /\
      ScriptB.canJump s' = true) /\
     (~ Vector3.y (ScriptB.position p) < ScriptB.currentHeight s ->
      s' = p /\ ScriptB.canJump s' = ScriptB.canJump s) /\
     ScriptB.currentHeight s' <= Vector3.y (ScriptB.position s')) /\
  (forall (w : World) (delta : R) (s : Game.State),
     let p := Game.integrate w delta s in
     let s' := Game.animate w delta s in
     (Vector3.y (Game.position p) < Game.currentHeight p ->
      Vector3.y (Game.position s') = Game.currentHeight p /\
      Vector3.y (Game.velocity s') = 0 /\
      Game.canJump s' = true) /\
     (~ Vector3.y (Game.position p) < Game.currentHeight p -> s' = p) /\
     (Game.canJump s = true -> Game.canJump s' = true) /\
     Game.currentHeight s' <= Vector3.y (Game.position s')) /\
  (forall (w : World) (es : list ScriptA.Event) (right : Vec3) (locked : bool) (now : R),
     A_above (ScriptA.run w es (ScriptA.init right locked now))) /\
  (forall (w : World) (es : list ScriptB.Event) (right : Vec3) (rotY : R)
          (locked : bool) (now : R),
     B_above (ScriptB.run w es (ScriptB.init right rotY locked now))) /\
  (forall (w : World) (es : list Game.Event) (worldDir : Vec3),
     G_above (Game.run w es (Game.init worldDir))).
Proof.
  repeat apply conj.
  - intros w delta s p s'. subst p s'. unfold ScriptA.tick.
    split; [|split].
    + apply A_floorCheck_clamped.
    + intros N. rewrite (A_floorCheck_untouched _ N).
      split; [reflexivity|apply A_integrate_canJump].
    + apply A_floorCheck_above.
  - intros delta s p s'. subst p s'. unfold ScriptB.tick.
    assert (Hc : ScriptB.currentHeight (ScriptB.integrate delta s)
                 = ScriptB.currentHeight s) by reflexivity.
    split; [|split].
    + intros L. rewrite <- Hc in *. apply B_floorCheck_clamped, L.
    + intros N. rewrite <- Hc in N. rewrite (B_floorCheck_untouched _ N).
      split; reflexivity.
    + apply B_floorCheck_above.
  - intros w delta s p s'. subst p s'. unfold Game.animate.
    split; [|split; [|split]].
    + apply G_floorCheck_clamped.
    + apply G_floorCheck_untouched.
    + intros Hc. pose proof (G_integrate_canJump w delta s Hc) as Hp.
      unfold Game.floorCheck. destruct (Rlt_dec _ _); simpl; auto.
    + apply G_floorCheck_above.
  - intros. apply A_run_above. unfold A_above, ScriptA.init; simpl. lra.
  - intros. apply B_run_above.
    unfold B_above, ScriptB.init, ScriptB.currentHeight; simpl. lra.
  - intros. apply G_run_above.
    unfold G_above, Game.init, Game.currentHeight; simpl. lra.
Qed.

(** The first frame of 0.1 s of the first variant of script.js ends below
    the eye height before the floor check. *)
Lemma A_first_frame_below :
  Vector3.y (ScriptA.position
               (ScriptA.integrate emptyWorld (1 / 10)
                  (ScriptA.init (Vector3.mk 1 0 0) true 0)))
  < ScriptA.PLAYER_HEIGHT.
Proof. unfold emptyWorld. eval_A. lra. Qed.

(** C3, witness: the first variant of script.js standing at rest on the
    floor, one frame of 0.1 s. *)
Lemma C3_floor_clamp_witness :
  let s := ScriptA.init (Vector3.mk 1 0 0) true 0 in
  Vector3.y (ScriptA.position (ScriptA.integrate emptyWorld (1 / 10) s))
  < ScriptA.PLAYER_HEIGHT /\
  Vector3.y (ScriptA.position (ScriptA.tick emptyWorld (1 / 10) s))
  = ScriptA.PLAYER_HEIGHT /\
  Vector3.y (ScriptA.velocity (ScriptA.tick emptyWorld (1 / 10) s)) = 0 /\
  ScriptA.canJump (ScriptA.tick emptyWorld (1 / 10) s) = true.
Proof.
  cbv zeta. pose proof A_first_frame_below as L.
  split; [exact L|].
  destruct C3_floor_clamp_sets_and_never_clears_canJump as (HA & _).
  destruct (HA emptyWorld (1 / 10) (ScriptA.init (Vector3.mk 1 0 0) true 0))
    as (Hclamp & _).
  exact (Hclamp L).
Defined.

(** ** C4: damping of the horizontal velocity (first variant of script.js) *)

Lemma A_floorCheck_velocity_xz (s : ScriptA.State) :
  Vector3.x (ScriptA.velocity (ScriptA.floorCheck s)) = Vector3.x (ScriptA.velocity s) /\
  Vector3.z (ScriptA.velocity (ScriptA.floorCheck s)) = Vector3.z (ScriptA.velocity s).
Proof.
  unfold ScriptA.floorCheck. destruct (Rlt_dec _ _); split; reflexivity.
Qed.

Lemma A_moveAxisX_velocity (w : World) (delta : R) (s : ScriptA.State) :
  (Vector3.x (ScriptA.velocity (ScriptA.moveAxisX w delta s)) = Vector3.x (ScriptA.velocity s)
   \/ Vector3.x (ScriptA.velocity (ScriptA.moveAxisX w delta s)) = 0) /\
  Vector3.z (ScriptA.velocity (ScriptA.moveAxisX w delta s)) = Vector3.z (ScriptA.velocity s).
Proof.
  unfold ScriptA.moveAxisX. destruct (ScriptA.detectCollision _ _ _); simpl; auto.
Qed.

Lemma A_moveAxisZ_velocity (w : World) (delta : R) (s : ScriptA.State) :
  Vector3.x (ScriptA.velocity (ScriptA.moveAxisZ w delta s)) = Vector3.x (ScriptA.velocity s) /\
  (Vector3.z (ScriptA.velocity (ScriptA.moveAxisZ w delta s)) = Vector3.z (ScriptA.velocity s)
   \/ Vector3.z (ScriptA.velocity (ScriptA.moveAxisZ w delta s)) = 0).
Proof.
  unfold ScriptA.moveAxisZ. destruct (ScriptA.detectCollision _ _ _); simpl; auto.
Qed.

Lemma A_accelerate_noInput (delta : R) (s : ScriptA.State) :
  A_noInput s ->
  Vector3.x (ScriptA.velocity (ScriptA.accelerate delta s))
  = Vector3.x (ScriptA.velocity s) * (1 - 10 * delta) /\
  Vector3.z (ScriptA.velocity (ScriptA.accelerate delta s))
  = Vector3.z (ScriptA.velocity s) * (1 - 10 * delta).
Proof.
  intros (Hf & Hb & Hl & Hr). unfold ScriptA.accelerate.
  rewrite Hf, Hb, Hl, Hr. simpl. split; ring.
Qed.

Lemma A_tick_velocity_noInput (w : World) (delta : R) (s : ScriptA.State) :
  A_noInput s ->
  (Vector3.x (ScriptA.velocity (ScriptA.tick w delta s))
   = Vector3.x (ScriptA.velocity s) * (1 - 10 * delta)
   \/ Vector3.x (ScriptA.velocity (ScriptA.tick w delta s)) = 0) /\
  (Vector3.z (ScriptA.velocity (ScriptA.tick w delta s))
   = Vector3.z (ScriptA.velocity s) * (1 - 10 * delta)
   \/ Vector3.z (ScriptA.velocity (ScriptA.tick w delta s)) = 0).
Proof.
  intros H. unfold ScriptA.tick, ScriptA.integrate.
  destruct (A_floorCheck_velocity_xz
              (ScriptA.moveVertical delta
                 (ScriptA.moveAxisZ w delta
                    (ScriptA.moveAxisX w delta (ScriptA.accelerate delta s)))))
    as (-> & ->).
  change (ScriptA.velocity (ScriptA.moveVertical delta ?t))
    with (ScriptA.velocity t).
  destruct (A_moveAxisZ_velocity w delta
              (ScriptA.moveAxisX w delta (ScriptA.accelerate delta s)))
    as (-> & Hz).
  destruct (A_moveAxisX_velocity w delta (ScriptA.accelerate delta s))
    as (Hx & Hz').
  rewrite Hz' in Hz.
  destruct (A_accelerate_noInput delta s H) as (Ex & Ez).
  rewrite Ex in Hx. rewrite Ez in Hz. split; assumption.
Qed.

Lemma A_moveAxisX_noInput (w : World) (delta : R) (s : ScriptA.State) :
  A_noInput s -> A_noInput (ScriptA.moveAxisX w delta s).
Proof.
  unfold A_noInput, ScriptA.moveAxisX.
  destruct (ScriptA.detectCollision _ _ _); intros H; exact H.
Qed.

Lemma A_moveAxisZ_noInput (w : World) (delta : R) (s : ScriptA.State) :
  A_noInput s -> A_noInput (ScriptA.moveAxisZ w delta s).
Proof.
  unfold A_noInput, ScriptA.moveAxisZ.
  destruct (ScriptA.detectCollision _ _ _); intros H; exact H.
Qed.

Lemma A_floorCheck_noInput (s : ScriptA.State) :
  A_noInput s -> A_noInput (ScriptA.floorCheck s).
Proof.
  unfold A_noInput, ScriptA.floorCheck.
  destruct (Rlt_dec _ _); intros H; exact H.
Qed.

Lemma A_tick_noInput (w : World) (delta : R) (s : ScriptA.State) :
  A_noInput s -> A_noInput (ScriptA.tick w delta s).
Proof.
  intros H. unfold ScriptA.tick, ScriptA.integrate.
  apply A_floorCheck_noInput.
  assert (Hm : forall t, A_noInput t -> A_noInput (ScriptA.moveVertical delta t))
    by (intros t Ht; exact Ht).
  apply Hm, A_moveAxisZ_noInput, A_moveAxisX_noInput. exact H.
Qed.

Lemma A_iter_noInput (w : World) (delta : R) (s : ScriptA.State) (n : nat) :
  A_noInput s -> A_noInput (Nat.iter n (ScriptA.tick w delta) s).
Proof.
  intros H. induction n as [|n IH]; simpl.
  - exact H.
  - apply A_tick_noInput, IH.
Qed.

(** The component after [n] frames is the geometric term or has been
    zeroed by a collision. *)
Lemma A_iter_velocity_noInput (w : World) (delta : R) (s : ScriptA.State) (n : nat) :
  A_noInput s ->
  (Vector3.x (ScriptA.velocity (Nat.iter n (ScriptA.tick w delta) s))
   = Vector3.x (ScriptA.velocity s) * (1 - 10 * delta) ^ n
   \/ Vector3.x (ScriptA.velocity (Nat.iter n (ScriptA.tick w delta) s)) = 0) /\
  (Vector3.z (ScriptA.velocity (Nat.iter n (ScriptA.tick w delta) s))
   = Vector3.z (ScriptA.velocity s) * (1 - 10 * delta) ^ n
   \/ Vector3.z (ScriptA.velocity (Nat.iter n (ScriptA.tick w delta) s)) = 0).
Proof.
  intros H. induction n as [|n (IHx & IHz)].
  - simpl. split; left; ring.
  - pose proof (A_tick_velocity_noInput w delta _ (A_iter_noInput w delta s n H))
      as (Hx & Hz).
    simpl Nat.iter. split.
    + destruct Hx as [Hx|Hx]; [|right; exact Hx].
      rewrite Hx. destruct IHx as [IHx|IHx]; rewrite IHx.
      * left. simpl. ring.
      * right. ring.
    + destruct Hz as [Hz|Hz]; [|right; exact Hz].
      rewrite Hz. destruct IHz as [IHz|IHz]; rewrite IHz.
      * left. simpl. ring.
      * right. ring.
Qed.

(** A geometric sequence with ratio in [0, 1) falls below every bound. *)
Lemma geometric_vanishes (a q eps : R) :
  0 <= q < 1 -> 0 < eps ->
  exists N : nat, forall n : nat, (N <= n)%nat -> Rabs (a * q ^ n) < eps.
Proof.
  intros Hq He.
  destruct (Req_dec_T a 0) as [Ea|Na].
  - exists 0%nat. intros n _. rewrite Ea, Rmult_0_l, Rabs_R0. exact He.
  - assert (Ha : 0 < Rabs a) by (apply Rabs_pos_lt; exact Na).
    assert (Hq' : Rabs q < 1) by (rewrite Rabs_pos_eq; lra).
    assert (Hy : 0 < eps / Rabs a) by (apply Rdiv_lt_0_compat; assumption).
    destruct (pow_lt_1_zero q Hq' (eps / Rabs a) Hy) as (N & HN).
    exists N. intros n Hn. rewrite Rabs_mult.
    specialize (HN n Hn).
    apply (Rmult_lt_compat_l (Rabs a)) in HN; [|exact Ha].
    replace (Rabs a * (eps / Rabs a)) with eps in HN by (field; lra).
    exact HN.
Qed.

(** C4 (as stated, refuted).  With no key held, a frame of 250 ms turns the
    horizontal velocity [(1, 0, 1)] into [(-3/2, 0, -3/2)]: the damping
    step multiplies by [1 - 10 * delta], which is negative when
    [delta > 1/10], so the sign is reversed (and here the speed grows). *)
Lemma C4_counterexample_long_frame_reverses_sign :
  ~ (forall (w : World) (delta : R) (s : ScriptA.State),
       0 < delta -> A_noInput s ->
       0 <= Vector3.x (ScriptA.velocity s)
            * Vector3.x (ScriptA.velocity (ScriptA.tick w delta s))).
Proof.
  intros H.
  assert (Hd : 0 < 1 / 4) by lra.
  assert (Hn : A_noInput (A_sliding 1 1)) by (repeat split).
  specialize (H emptyWorld (1 / 4) (A_sliding 1 1) Hd Hn).
  assert (E : Vector3.x (ScriptA.velocity (ScriptA.tick emptyWorld (1 / 4) (A_sliding 1 1)))
              = - (3 / 2)).
  { destruct (A_floorCheck_velocity_xz
                (ScriptA.integrate emptyWorld (1 / 4) (A_sliding 1 1))) as (Ex & _).
    unfold ScriptA.tick. rewrite Ex.
    unfold A_sliding, emptyWorld. eval_A. lra. }
  rewrite E in H. unfold A_sliding in H. simpl in H. lra.
Qed.

(** C4 (amended).  First variant of script.js, no directional key held,
    every frame of the same length [delta] with [0 < delta <= 1/10]: each
    frame multiplies [velocity.x] and [velocity.z] by [1 - 10 * delta], a
    factor in [[0, 1)], or zeroes the component on a collision.  So after
    [n] frames the component is [v0 * (1 - 10 * delta) ^ n] or 0, it never
    changes sign, its absolute value never grows, and it falls below every
    positive bound.  For [delta > 1/10] the factor is negative and, without
    a collision, a nonzero component changes sign in every frame. *)
Theorem C4_damping_decays_for_short_frames (w : World) (delta : R) (s : ScriptA.State) :
  0 < delta <= 1 / 10 -> A_noInput s ->
  let v := fun n : nat => ScriptA.velocity (Nat.iter n (ScriptA.tick w delta) s) in
  (forall n : nat,
     (Vector3.x (v n) = Vector3.x (v 0%nat) * (1 - 10 * delta) ^ n \/ Vector3.x (v n) = 0) /\
     (Vector3.z (v n) = Vector3.z (v 0%nat) * (1 - 10 * delta) ^ n \/ Vector3.z (v n) = 0)) /\
  (forall n : nat,
     0 <= Vector3.x (v n) * Vector3.x (v (S n)) /\
     0 <= Vector3.z (v n) * Vector3.z (v (S n)) /\
     0 <= Vector3.x (v 0%nat) * Vector3.x (v n) /\
     0 <= Vector3.z (v 0%nat) * Vector3.z (v n)) /\
  (forall n : nat,
     Rabs (Vector3.x (v (S n))) <= Rabs (Vector3.x (v n)) /\
     Rabs (Vector3.z (v (S n))) <= Rabs (Vector3.z (v n))) /\
  (forall eps : R, 0 < eps ->
     exists N : nat, forall n : nat, (N <= n)%nat ->
       Rabs (Vector3.x (v n)) < eps /\ Rabs (Vector3.z (v n)) < eps) /\
  (forall (delta' : R) (s' : ScriptA.State),
     1 / 10 < delta' -> A_noInput s' ->
     Vector3.x (ScriptA.velocity s') <> 0 ->
     Vector3.x (ScriptA.velocity s')
     * Vector3.x (ScriptA.velocity (ScriptA.tick emptyWorld delta' s')) < 0).
Proof.
  intros Hd Hin v.
  assert (Hq : 0 <= 1 - 10 * delta < 1) by lra.
  assert (Hpow : forall n : nat, 0 <= (1 - 10 * delta) ^ n)
    by (intros n; apply pow_le; lra).
  assert (Hgeo : forall n : nat,
             (Vector3.x (v n) = Vector3.x (v 0%nat) * (1 - 10 * delta) ^ n
              \/ Vector3.x (v n) = 0) /\
             (Vector3.z (v n) = Vector3.z (v 0%nat) * (1 - 10 * delta) ^ n
              \/ Vector3.z (v n) = 0))
    by (intros n; exact (A_iter_velocity_noInput w delta s n Hin)).
  assert (Hstep : forall n : nat,
             (Vector3.x (v (S n)) = Vector3.x (v n) * (1 - 10 * delta)
              \/ Vector3.x (v (S n)) = 0) /\
             (Vector3.z (v (S n)) = Vector3.z (v n) * (1 - 10 * delta)
              \/ Vector3.z (v (S n)) = 0)).
  { intros n. subst v. cbv beta. simpl Nat.iter.
    apply A_tick_velocity_noInput, A_iter_noInput, Hin. }
  repeat apply conj.
  - exact Hgeo.
  - intros n. destruct (Hstep n) as (Hx & Hz). destruct (Hgeo n) as (Gx & Gz).
    specialize (Hpow n).
    repeat apply conj.
    + destruct Hx as [->| ->]; nra.
    + destruct Hz as [->| ->]; nra.
    + destruct Gx as [->| ->]; nra.
    + destruct Gz as [->| ->]; nra.
  - intros n. destruct (Hstep n) as (Hx & Hz). split.
    + destruct Hx as [->| ->].
      * rewrite Rabs_mult, (Rabs_pos_eq (1 - 10 * delta)) by lra.
        pose proof (Rabs_pos (Vector3.x (v n))). nra.
      * rewrite Rabs_R0. apply Rabs_pos.
    + destruct Hz as [->| ->].
      * rewrite Rabs_mult, (Rabs_pos_eq (1 - 10 * delta)) by lra.
        pose proof (Rabs_pos (Vector3.z (v n))). nra.
      * rewrite Rabs_R0. apply Rabs_pos.
  - intros eps He.
    destruct (geometric_vanishes (Vector3.x (v 0%nat)) _ eps Hq He) as (Nx & HNx).
    destruct (geometric_vanishes (Vector3.z (v 0%nat)) _ eps Hq He) as (Nz & HNz).
    exists (Nat.max Nx Nz). intros n Hn.
    destruct (Hgeo n) as (Gx & Gz). split.
    + destruct Gx as [->| ->]; [apply HNx; lia|rewrite Rabs_R0; exact He].
    + destruct Gz as [->| ->]; [apply HNz; lia|rewrite Rabs_R0; exact He].
  - intros delta' s' Hd' Hin' Hv.
    destruct (A_floorCheck_velocity_xz (ScriptA.integrate emptyWorld delta' s'))
      as (Ex & _).
    unfold ScriptA.tick. rewrite Ex.
    unfold ScriptA.integrate.
    change (ScriptA.velocity (ScriptA.moveVertical delta' ?t))
      with (ScriptA.velocity t).
    destruct (A_moveAxisZ_velocity emptyWorld delta'
                (ScriptA.moveAxisX emptyWorld delta' (ScriptA.accelerate delta' s')))
      as (-> & _).
    assert (Ex' : Vector3.x (ScriptA.velocity
                     (ScriptA.moveAxisX emptyWorld delta' (ScriptA.accelerate delta' s')))
                  = Vector3.x (ScriptA.velocity (ScriptA.accelerate delta' s')))
      by reflexivity.
    rewrite Ex'.
    destruct (A_accelerate_noInput delta' s' Hin') as (-> & _).
    assert (Hsq : 0 < Vector3.x (ScriptA.velocity s') * Vector3.x (ScriptA.velocity s')).
    { destruct (Rtotal_order (Vector3.x (ScriptA.velocity s')) 0) as [L|[E|G]];
        [nra|contradiction|nra]. }
    nra.
Qed.

(** C4, witness: frames of 50 ms from the horizontal velocity [(1, 0, 1)];
    after three frames [velocity.x] is [1/8]. *)
Lemma C4_damping_witness :
  0 < 1 / 20 <= 1 / 10 /\ A_noInput (A_sliding 1 1) /\
  (Vector3.x (ScriptA.velocity
                (Nat.iter 3 (ScriptA.tick emptyWorld (1 / 20)) (A_sliding 1 1)))
   = 1 / 8
   \/ Vector3.x (ScriptA.velocity
                   (Nat.iter 3 (ScriptA.tick emptyWorld (1 / 20)) (A_sliding 1 1)))
      = 0).
Proof.
  assert (Hd : 0 < 1 / 20 <= 1 / 10) by lra.
  assert (Hn : A_noInput (A_sliding 1 1)) by (repeat split).
  split; [exact Hd|]. split; [exact Hn|].
  destruct (C4_damping_decays_for_short_frames emptyWorld (1 / 20)
              (A_sliding 1 1) Hd Hn) as (Hgeo & _).
  destruct (Hgeo 3%nat) as ([Hx|Hx] & _).
  - left. rewrite Hx. simpl. lra.
  - right. exact Hx.
Defined.

(** ** C8: the normalized intent vector *)

Lemma A_tick_direction (w : World) (delta : R) (s : ScriptA.State) :
  ScriptA.direction (ScriptA.tick w delta s)
  = Vector3.normalize
      (intent (Vector3.y (ScriptA.direction s))
         (ScriptA.moveForward s) (ScriptA.moveBackward s)
         (ScriptA.moveLeft s) (ScriptA.moveRight s)).
Proof.
  unfold ScriptA.tick, ScriptA.floorCheck, ScriptA.integrate,
    ScriptA.moveVertical.
  destruct (Rlt_dec _ _); simpl;
    unfold ScriptA.moveAxisZ; destruct (ScriptA.detectCollision _ _ _); simpl;
    unfold ScriptA.moveAxisX; destruct (ScriptA.detectCollision _ _ _); simpl;
    reflexivity.
Qed.

Lemma G_animate_direction (w : World) (delta : R) (s : Game.State) :
  Game.direction (Game.animate w delta s)
  = Vector3.normalize
      (intent (Vector3.y (Game.direction s))
         (Game.moveForward s) (Game.moveBackward s)
         (Game.moveLeft s) (Game.moveRight s)).
Proof.
  assert (Hm : Game.direction
                 (Game.moveVertical delta
                    (Game.moveHorizontal w delta
                       (Game.inputDirection (Game.applyGravity delta s))))
               = Vector3.normalize
                   (intent (Vector3.y (Game.direction s))
                      (Game.moveForward s) (Game.moveBackward s)
                      (Game.moveLeft s) (Game.moveRight s))).
  { unfold Game.moveVertical, Game.moveHorizontal.
    destruct (Rlt_dec _ _); [destruct (negb _)|]; reflexivity. }
  unfold Game.animate, Game.floorCheck, Game.integrate, Game.checkCollisions.
  destruct (firstCloserThan _ _); simpl.
  - destruct (Rlt_dec _ 0); simpl; destruct (Rlt_dec _ _); simpl; exact Hm.
  - destruct (Rlt_dec _ _); simpl; exact Hm.
Qed.

Lemma intent_lengthSq (f b l r : bool) :
  Vector3.lengthSq (intent 0 f b l r)
  = (Number r - Number l) * (Number r - Number l)
    + (Number f - Number b) * (Number f - Number b).
Proof. unfold Vector3.lengthSq, intent; simpl. ring. Qed.

Lemma intent_balanced_zero (f b l r : bool) :
  f = b -> l = r -> Vector3.length (intent 0 f b l r) = 0.
Proof.
  intros -> ->. unfold Vector3.length. rewrite intent_lengthSq.
  replace ((Number r - Number r) * (Number r - Number r)
           + (Number b - Number b) * (Number b - Number b)) with 0 by ring.
  apply sqrt_0.
Qed.

Lemma intent_unbalanced_nonzero (f b l r : bool) :
  f <> b \/ l <> r -> Vector3.length (intent 0 f b l r) <> 0.
Proof.
  intros H.
  assert (Hpos : 0 < Vector3.lengthSq (intent 0 f b l r)).
  { rewrite intent_lengthSq.
    destruct f, b, l, r; unfold Number;
      try lra; destruct H as [H|H]; exfalso; apply H; reflexivity. }
  unfold Vector3.length. pose proof (sqrt_lt_R0 _ Hpos). lra.
Qed.

(** The intent vector of the sixteen key combinations, normalized. *)
Lemma intent_normalized (f b l r : bool) :
  let d := Vector3.normalize (intent 0 f b l r) in
  Vector3.length d <= 1 /\
  (f = b -> l = r -> d = Vector3.zero /\ Vector3.lengthOr1 (intent 0 f b l r) = 1) /\
  (f <> b \/ l <> r -> Vector3.length d = 1) /\
  Vector3.y d = 0.
Proof.
  cbv zeta. repeat apply conj.
  - apply normalize_length_le_1.
  - intros Hfb Hlr. pose proof (intent_balanced_zero f b l r Hfb Hlr) as H0.
    split.
    + apply normalize_zero_length, H0.
    + unfold Vector3.lengthOr1.
      destruct (Req_dec_T _ 0) as [_|N]; [reflexivity|contradiction].
  - intros H. apply normalize_unit_length, intent_unbalanced_nonzero, H.
  - unfold Vector3.normalize, Vector3.divideScalar, Vector3.multiplyScalar,
      intent; simpl. ring.
Qed.

(** C8.  In the first variant of script.js and in game.js, for every
    combination of the four directional flags, the direction that [animate]
    leaves in [direction] has length at most 1: it is the zero vector when
    all keys are released or only opposing pairs are held, and has length
    exactly 1 otherwise (so never sqrt 2 on a diagonal).  The divisor of
    [normalize] is [length() || 1], which is positive for every vector and
    is 1 for the zero intent: nothing is divided by zero.  [direction.y] is
    0 from [init] on and stays 0. *)
Theorem C8_intent_vector_normalized :
  (forall v : Vec3, 0 < Vector3.lengthOr1 v) /\
  (forall (w : World) (delta : R) (s : ScriptA.State),
     let d := ScriptA.direction (ScriptA.tick w delta s) in
     Vector3.length d <= 1 /\
     (Vector3.y (ScriptA.direction s) = 0 ->
      (ScriptA.moveForward s = ScriptA.moveBackward s ->
       ScriptA.moveLeft s = ScriptA.moveRight s -> d = Vector3.zero) /\
      (ScriptA.moveForward s <> ScriptA.moveBackward s \/
       ScriptA.moveLeft s <> ScriptA.moveRight s -> Vector3.length d = 1) /\
      Vector3.y d = 0)) /\
  (forall (w : World) (delta : R) (s : Game.State),
     let d := Game.direction (Game.animate w delta s) in
     Vector3.length d <= 1 /\
     (Vector3.y (Game.direction s) = 0 ->
      (Game.moveForward s = Game.moveBackward s ->
       Game.moveLeft s = Game.moveRight s -> d = Vector3.zero) /\
      (Game.moveForward s <> Game.moveBackward s \/
       Game.moveLeft s <> Game.moveRight s -> Vector3.length d = 1) /\
      Vector3.y d = 0)) /\
  (forall (right : Vec3) (locked : bool) (now : R),
     Vector3.y (ScriptA.direction (ScriptA.init right locked now)) = 0) /\
  (forall worldDir : Vec3, Vector3.y (Game.direction (Game.init worldDir)) = 0) /\
  (forall f b l r : bool,
     f = b -> l = r -> Vector3.lengthOr1 (intent 0 f b l r) = 1).
Proof.
  repeat apply conj.
  - exact lengthOr1_pos.
  - intros w delta s. cbv zeta. rewrite A_tick_direction. split.
    + apply normalize_length_le_1.
    + intros ->.
      destruct (intent_normalized (ScriptA.moveForward s) (ScriptA.moveBackward s)
                  (ScriptA.moveLeft s) (ScriptA.moveRight s)) as (_ & Hz & Hu & Hy).
      repeat apply conj.
      * intros Hfb Hlr. apply (Hz Hfb Hlr).
      * exact Hu.
      * exact Hy.
  - intros w delta s. cbv zeta. rewrite G_animate_direction. split.
    + apply normalize_length_le_1.
    + intros ->.
      destruct (intent_normalized (Game.moveForward s) (Game.moveBackward s)
                  (Game.moveLeft s) (Game.moveRight s)) as (_ & Hz & Hu & Hy).
      repeat apply conj.
      * intros Hfb Hlr. apply (Hz Hfb Hlr).
      * exact Hu.
      * exact Hy.
  - reflexivity.
  - reflexivity.
  - intros f b l r Hfb Hlr.
    apply (intent_normalized f b l r); assumption.
Qed.

(** C8, witness: W and D held in the first variant of script.js; the
    diagonal direction has length 1. *)
Lemma C8_intent_vector_witness :
  let s := ScriptA.onKeyDown KeyD
             (ScriptA.onKeyDown KeyW (ScriptA.init (Vector3.mk 1 0 0) true 0)) in
  Vector3.y (ScriptA.direction s) = 0 /\
  (ScriptA.moveForward s <> ScriptA.moveBackward s \/
   ScriptA.moveLeft s <> ScriptA.moveRight s) /\
  Vector3.length (ScriptA.direction (ScriptA.tick emptyWorld (1 / 10) s)) = 1.
Proof.
  cbv zeta.
  assert (Hy : Vector3.y (ScriptA.direction
                 (ScriptA.onKeyDown KeyD
                    (ScriptA.onKeyDown KeyW (ScriptA.init (Vector3.mk 1 0 0) true 0))))
               = 0) by reflexivity.
  assert (Hk : ScriptA.moveForward
                 (ScriptA.onKeyDown KeyD
                    (ScriptA.onKeyDown KeyW (ScriptA.init (Vector3.mk 1 0 0) true 0)))
               <> ScriptA.moveBackward
                    (ScriptA.onKeyDown KeyD
                       (ScriptA.onKeyDown KeyW (ScriptA.init (Vector3.mk 1 0 0) true 0)))
               \/ ScriptA.moveLeft
                    (ScriptA.onKeyDown KeyD
                       (ScriptA.onKeyDown KeyW (ScriptA.init (Vector3.mk 1 0 0) true 0)))
                  <> ScriptA.moveRight
                       (ScriptA.onKeyDown KeyD
                          (ScriptA.onKeyDown KeyW (ScriptA.init (Vector3.mk 1 0 0) true 0))))
    by (left; simpl; discriminate).
  split; [exact Hy|]. split; [exact Hk|].
  destruct C8_intent_vector_normalized as (_ & HA & _).
  destruct (HA emptyWorld (1 / 10)
              (ScriptA.onKeyDown KeyD
                 (ScriptA.onKeyDown KeyW (ScriptA.init (Vector3.mk 1 0 0) true 0))))
    as (_ & H).
  destruct (H Hy) as (_ & Hu & _).
  exact (Hu Hk).
Defined.

(** ** C7: the normal jump *)

(** C7.  In the first variant of script.js and in game.js, a Space key-down
    grants the jump impulse if and only if [canJump] is true at that
    moment: then [velocity.y] becomes the jump force and [canJump] becomes
    false, with position and horizontal velocity untouched; when [canJump]
    is false the handler changes nothing.  One key-down grants at most one
    impulse: a second Space key-down right after the first changes
    nothing, and releasing Space changes nothing. *)
Theorem C7_jump_only_when_canJump :
  (forall s : ScriptA.State,
     let s' := ScriptA.onKeyDown Space s in
     (ScriptA.canJump s = true ->
      Vector3.y (ScriptA.velocity s') = ScriptA.JUMP_FORCE /\
      ScriptA.canJump s' = false /\
      Vector3.x (ScriptA.velocity s') = Vector3.x (ScriptA.velocity s) /\
      Vector3.z (ScriptA.velocity s') = Vector3.z (ScriptA.velocity s) /\
      ScriptA.position s' = ScriptA.position s) /\
     (ScriptA.canJump s = false -> s' = s) /\
     ScriptA.onKeyDown Space s' = s' /\
     ScriptA.onKeyUp Space s = s) /\
  (forall s : Game.State,
     let s' := Game.onKeyDown Space s in
     (Game.canJump s = true ->
      Vector3.y (Game.velocity s') = Game.JUMP_VELOCITY /\
      Game.canJump s' = false /\
      Vector3.x (Game.velocity s') = Vector3.x (Game.velocity s) /\
      Vector3.z (Game.velocity s') = Vector3.z (Game.velocity s) /\
      Game.position s' = Game.position s) /\
     (Game.canJump s = false -> s' = s) /\
     Game.onKeyDown Space s' = s' /\
     Game.onKeyUp Space s = s).
Proof.
  split; intros s; cbv zeta; simpl.
  - destruct (ScriptA.canJump s) eqn:E; simpl.
    + repeat split; try reflexivity. discriminate.
    + rewrite E. repeat split; try reflexivity. discriminate.
  - destruct (Game.canJump s) eqn:E; simpl.
    + repeat split; try reflexivity. discriminate.
    + rewrite E. repeat split; try reflexivity. discriminate.
Qed.

(** C7, witness: Space pressed on the floor in the first variant of
    script.js, after the first frame has grounded the actor. *)
Lemma C7_jump_witness :
  let s := ScriptA.tick emptyWorld (1 / 10) (ScriptA.init (Vector3.mk 1 0 0) true 0) in
  ScriptA.canJump s = true /\
  Vector3.y (ScriptA.velocity (ScriptA.onKeyDown Space s)) = ScriptA.JUMP_FORCE /\
  ScriptA.canJump (ScriptA.onKeyDown Space s) = false.
Proof.
  cbv zeta.
  destruct (A_floorCheck_clamped _ A_first_frame_below) as (_ & _ & Hc).
  change (ScriptA.floorCheck (ScriptA.integrate ?w ?d ?s))
    with (ScriptA.tick w d s) in Hc.
  split; [exact Hc|].
  destruct C7_jump_only_when_canJump as (HA & _).
  destruct (HA (ScriptA.tick emptyWorld (1 / 10)
                  (ScriptA.init (Vector3.mk 1 0 0) true 0))) as (Hjump & _).
  destruct (Hjump Hc) as (Hv & Hj & _).
  split; assumption.
Defined.

(** ** C5 and C9: crouch *)

(** C5.  Second variant of script.js: from a standing state, C down then C
    up gives back the very same state, so the eye height and
    [camera.position.y] return exactly to their values; the key-down
    handler itself lowers [camera.position.y] by
    [PLAYER_HEIGHT - CROUCH_HEIGHT] and makes the eye height
    [CROUCH_HEIGHT], no frame is needed.  game.js: from a standing state,
    ControlLeft down then up returns the eye height to [NORMAL_HEIGHT];
    the handlers write [camera.position.y] at once ([CROUCH_HEIGHT], then
    [NORMAL_HEIGHT]), and the whole state returns when the actor stood at
    [NORMAL_HEIGHT]. *)
Theorem C5_crouch_round_trip :
  (forall (w : World) (s : ScriptB.State),
     ScriptB.isCrouching s = false ->
     let s1 := ScriptB.onKeyDown w KeyC s in
     let s2 := ScriptB.onKeyUp KeyC s1 in
     ScriptB.currentHeight s1 = ScriptB.CROUCH_HEIGHT /\
     Vector3.y (ScriptB.position s1)
     = Vector3.y (ScriptB.position s) - (ScriptB.PLAYER_HEIGHT - ScriptB.CROUCH_HEIGHT) /\
     ScriptB.currentHeight s2 = ScriptB.currentHeight s /\
     Vector3.y (ScriptB.position s2) = Vector3.y (ScriptB.position s) /\
     s2 = s) /\
  (forall s : Game.State,
     Game.isCrouching s = false ->
     let s1 := Game.onKeyDown ControlLeft s in
     let s2 := Game.onKeyUp ControlLeft s1 in
     Game.currentHeight s1 = Game.CROUCH_HEIGHT /\
     Vector3.y (Game.position s1) = Game.CROUCH_HEIGHT /\
     Game.currentHeight s2 = Game.currentHeight s /\
     Vector3.y (Game.position s2) = Game.NORMAL_HEIGHT /\
     (Vector3.y (Game.position s) = Game.NORMAL_HEIGHT -> s2 = s)).
Proof.
  split.
  - intros w s Hc. cbv zeta.
    assert (E : ScriptB.onKeyUp KeyC (ScriptB.onKeyDown w KeyC s) = s).
    { destruct s as [[px py pz] cr ry lk v d f b l r cj sp ck pt].
      simpl in Hc. subst ck. eval_B. f_equal. f_equal. ring. }
    rewrite E. unfold ScriptB.currentHeight. simpl. rewrite Hc. simpl.
    repeat split; reflexivity.
  - intros s Hc. cbv zeta. unfold Game.currentHeight. simpl. rewrite Hc.
    repeat split; try reflexivity.
    intros Hy. destruct s as [[px py pz] wd v d f b l r cj sp ck].
    simpl in *. subst ck py. reflexivity.
Qed.

(** C5, witness: crouching from the state after [init] in both files. *)
Lemma C5_crouch_witness :
  ScriptB.isCrouching (ScriptB.init (Vector3.mk 1 0 0) 0 true 0) = false /\
  ScriptB.onKeyUp KeyC
    (ScriptB.onKeyDown emptyWorld KeyC (ScriptB.init (Vector3.mk 1 0 0) 0 true 0))
  = ScriptB.init (Vector3.mk 1 0 0) 0 true 0 /\
  Game.isCrouching (Game.init (Vector3.mk 0 0 (-1))) = false /\
  Vector3.y (Game.position (Game.onKeyDown ControlLeft (Game.init (Vector3.mk 0 0 (-1)))))
  = Game.CROUCH_HEIGHT.
Proof.
  destruct C5_crouch_round_trip as (HB & HG).
  split; [reflexivity|]. split.
  - apply (HB emptyWorld (ScriptB.init (Vector3.mk 1 0 0) 0 true 0)). reflexivity.
  - split; [reflexivity|].
    apply (HG (Game.init (Vector3.mk 0 0 (-1)))). reflexivity.
Defined.

(** C9.  In game.js both crouch handlers assign [camera.position.y] the
    target constant whatever the altitude: after ControlLeft down it is
    [CROUCH_HEIGHT], after ControlLeft up it is [NORMAL_HEIGHT], and
    neither [x], [z] nor the velocity is touched.  So for an actor in the
    air above the eye height the key event moves [position.y] down to the
    ground-level eye height at once; the altitude of the jump is lost. *)
Theorem C9_crouch_discards_altitude (s : Game.State) :
  Game.NORMAL_HEIGHT < Vector3.y (Game.position s) ->
  let down := Game.onKeyDown ControlLeft s in
  let up := Game.onKeyUp ControlLeft s in
  Vector3.y (Game.position down) = Game.CROUCH_HEIGHT /\
  Vector3.y (Game.position up) = Game.NORMAL_HEIGHT /\
  Vector3.y (Game.position down) < Vector3.y (Game.position s) /\
  Vector3.y (Game.position up) < Vector3.y (Game.position s) /\
  Vector3.x (Game.position down) = Vector3.x (Game.position s) /\
  Vector3.z (Game.position down) = Vector3.z (Game.position s) /\
  Vector3.x (Game.position up) = Vector3.x (Game.position s) /\
  Vector3.z (Game.position up) = Vector3.z (Game.position s) /\
  Game.velocity down = Game.velocity s /\
  Game.velocity up = Game.velocity s /\
  Game.canJump down = Game.canJump s /\
  Game.canJump up = Game.canJump s.
Proof.
  intros H. cbv zeta. simpl.
  unfold Game.NORMAL_HEIGHT, Game.CROUCH_HEIGHT in *.
  repeat split; try reflexivity; lra.
Qed.

(** C9, witness: the actor at the top of a jump, 3.4 above the ground. *)
Lemma C9_crouch_witness :
  Game.NORMAL_HEIGHT < Vector3.y (Game.position overTheBox) /\
  Vector3.y (Game.position (Game.onKeyDown ControlLeft overTheBox)) = Game.CROUCH_HEIGHT /\
  Vector3.y (Game.position (Game.onKeyUp ControlLeft overTheBox)) = Game.NORMAL_HEIGHT.
Proof.
  assert (H : Game.NORMAL_HEIGHT < Vector3.y (Game.position overTheBox))
    by (unfold Game.NORMAL_HEIGHT, overTheBox; simpl; lra).
  split; [exact H|].
  destruct (C9_crouch_discards_altitude overTheBox H) as (Hd & Hu & _).
  split; assumption.
Defined.

(** ** C6 and C10: the wall jump (second variant of script.js) *)

Lemma wallJumpLoop_first_hit (w : World) (s : ScriptB.State) (dirs : list Vec3) :
  forall (pre : list Raycaster) (ray : Raycaster) (post : list Raycaster),
    map (wallRay s) dirs = pre ++ ray :: post ->
    Forall (fun r => wallHit w r = false) pre ->
    wallHit w ray = true ->
    ScriptB.wallJumpLoop w s dirs = (wallJumped s, pre ++ [ray]).
Proof.
  induction dirs as [|d dirs IH]; intros pre ray post Hsplit Hpre Hhit.
  - destruct pre; discriminate Hsplit.
  - simpl in Hsplit. cbn [ScriptB.wallJumpLoop].
    fold (wallRay s d). fold (wallHit w (wallRay s d)).
    destruct pre as [|r0 pre].
    + simpl in Hsplit. injection Hsplit as Hr _. rewrite Hr, Hhit. reflexivity.
    + simpl in Hsplit. injection Hsplit as Hr Hrest.
      inversion Hpre as [|? ? Hr0 Hpre']; subst.
      rewrite Hr0. rewrite (IH pre ray post Hrest Hpre' Hhit). reflexivity.
Qed.


(** The rays of [checkWallJump] are the four cardinal directions turned by
    [rotation.y] about the Y axis. *)
Lemma wallRays_yawRays (s : ScriptB.State) :
  wallRays s = yawRays (ScriptB.position s) (ScriptB.rotationY s).
Proof.
  assert (E : forall (x z a : R),
             Vector3.applyAxisAngleY (Vector3.mk x 0 z) a
             = Vector3.mk (x * cos a + z * sin a) 0 (z * cos a - x * sin a))
    by reflexivity.
  unfold wallRays, wallRay, ScriptB.directions, ScriptB.raycaster_set, yawRays.
  cbn [map]. rewrite !E.
  repeat (f_equal; try (f_equal; ring)).
Qed.




Lemma nearest_first_hit (w : World) (ray : Raycaster) (d : R) :
  nearest_first w -> In d (w ray) -> d < 2 -> wallHit w ray = true.
Proof.
  intros Hs Hin Hd. unfold wallHit, firstCloserThan.
  specialize (Hs ray). destruct (w ray) as [|d0 l].
  - destruct Hin.
  - assert (Hle : d0 <= d).
    { destruct Hin as [->|Hin]; [lra|].
      apply Sorted_StronglySorted in Hs.
      - inversion Hs as [|? ? _ Hall]; subst.
        rewrite Forall_forall in Hall. apply Hall, Hin.
      - intros a b c Hab Hbc. lra. }
    destruct (Rlt_dec d0 2) as [_|N]; [reflexivity|exfalso; lra].
Qed.

Lemma first_hit_split (w : World) (rays : list Raycaster) :
  (exists ray, In ray rays /\ wallHit w ray = true) ->
  exists pre ray post,
    rays = pre ++ ray :: post /\
    Forall (fun r => wallHit w r = false) pre /\
    wallHit w ray = true.
Proof.
  induction rays as [|r rays IH]; intros (ray & Hin & Hhit).
  - destruct Hin.
  - destruct (wallHit w r) eqn:E.
    + exists [], r, rays. repeat split; [constructor|exact E].
    + destruct Hin as [->|Hin]; [congruence|].
      destruct IH as (pre & ray' & post & -> & Hpre & Hhit').
      { exists ray. split; assumption. }
      exists (r :: pre), ray', post. repeat split.
      * constructor; assumption.
      * exact Hhit'.
Qed.

Lemma wall_in_reach_jumps (w : World) (s : ScriptB.State) :
  nearest_first w ->
  ScriptB.canJump s = false ->
  (exists ray d, In ray (wallRays s) /\ In d (w ray) /\ d < 2) ->
  ScriptB.onKeyDown w Space s = wallJumped s.
Proof.
  intros Hs Hc (ray & d & Hin & Hd & Hlt).
  destruct (first_hit_split w (wallRays s)) as (pre & r & post & Hsplit & Hpre & Hhit).
  { exists ray. split; [exact Hin|]. apply (nearest_first_hit w ray d); assumption. }
  simpl. rewrite Hc. unfold ScriptB.checkWallJump.
  rewrite (wallJumpLoop_first_hit w s ScriptB.directions pre r post Hsplit Hpre Hhit).
  reflexivity.
Qed.

(** One frame of 0.1 s after a granted wall jump lifts the actor by 1.02
    and leaves it ready for the next one. *)
Lemma wallJumped_frame (s : ScriptB.State) :
  Vector3.y (ScriptB.camRight s) = 0 ->
  ScriptB.currentHeight s <= Vector3.y (ScriptB.position s) ->
  let s' := ScriptB.tick (1 / 10) (wallJumped s) in
  ScriptB.canJump s' = ScriptB.canJump s /\
  ScriptB.camRight s' = ScriptB.camRight s /\
  ScriptB.isCrouching s' = ScriptB.isCrouching s /\
  Vector3.y (ScriptB.position s') = Vector3.y (ScriptB.position s) + 102 / 100.
Proof.
  intros Hr Hh. cbv zeta.
  assert (Hy : Vector3.y (ScriptB.position (ScriptB.integrate (1 / 10) (wallJumped s)))
               = Vector3.y (ScriptB.position s) + 102 / 100).
  { destruct s as [[px py pz] [rx ry rz] rot lk [vx vy vz] d f b l r cj sp ck pt].
    simpl in Hr. subst ry. unfold wallJumped.
    destruct f, b, l, r; eval_B; lra. }
  assert (N : ~ Vector3.y (ScriptB.position (ScriptB.integrate (1 / 10) (wallJumped s)))
                < ScriptB.currentHeight (ScriptB.integrate (1 / 10) (wallJumped s))).
  { rewrite Hy.
    change (ScriptB.currentHeight (ScriptB.integrate (1 / 10) (wallJumped s)))
      with (ScriptB.currentHeight s). lra. }
  unfold ScriptB.tick. rewrite (B_floorCheck_untouched _ N).
  repeat split; try reflexivity. exact Hy.
Qed.

(** ** C2: sliding along a wall *)

Lemma A_moveAxisX_blocked (w : World) (delta : R) (a : ScriptA.State) :
  ScriptA.detectCollision w (A_movedX delta a) (ScriptA.position (A_movedX delta a)) = true ->
  ScriptA.moveAxisX w delta a
  = ScriptA.set_velocity
      (ScriptA.set_position (A_movedX delta a)
         (pl_moveRight (ScriptA.camRight a) (ScriptA.position (A_movedX delta a))
            (Vector3.x (ScriptA.velocity a) * delta)))
      (Vector3.set_x (ScriptA.velocity a) 0).
Proof.
  intros H. unfold ScriptA.moveAxisX. fold (A_movedX delta a).
  cbv zeta. rewrite H. reflexivity.
Qed.

Lemma A_moveAxisX_free (w : World) (delta : R) (a : ScriptA.State) :
  ScriptA.detectCollision w (A_movedX delta a) (ScriptA.position (A_movedX delta a)) = false ->
  ScriptA.moveAxisX w delta a = A_movedX delta a.
Proof.
  intros H. unfold ScriptA.moveAxisX. fold (A_movedX delta a).
  cbv zeta. rewrite H. reflexivity.
Qed.

Lemma A_moveAxisZ_blocked (w : World) (delta : R) (a : ScriptA.State) :
  ScriptA.detectCollision w (A_movedZ delta a) (ScriptA.position (A_movedZ delta a)) = true ->
  ScriptA.moveAxisZ w delta a
  = ScriptA.set_velocity
      (ScriptA.set_position (A_movedZ delta a)
         (pl_moveForward (ScriptA.camRight a) (ScriptA.position (A_movedZ delta a))
            (Vector3.z (ScriptA.velocity a) * delta)))
      (Vector3.set_z (ScriptA.velocity a) 0).
Proof.
  intros H. unfold ScriptA.moveAxisZ. fold (A_movedZ delta a).
  cbv zeta. rewrite H. reflexivity.
Qed.

Lemma A_moveAxisZ_free (w : World) (delta : R) (a : ScriptA.State) :
  ScriptA.detectCollision w (A_movedZ delta a) (ScriptA.position (A_movedZ delta a)) = false ->
  ScriptA.moveAxisZ w delta a = A_movedZ delta a.
Proof.
  intros H. unfold ScriptA.moveAxisZ. fold (A_movedZ delta a).
  cbv zeta. rewrite H. reflexivity.
Qed.

Lemma A_floorCheck_position_xz (s : ScriptA.State) :
  Vector3.x (ScriptA.position (ScriptA.floorCheck s)) = Vector3.x (ScriptA.position s) /\
  Vector3.z (ScriptA.position (ScriptA.floorCheck s)) = Vector3.z (ScriptA.position s).
Proof.
  unfold ScriptA.floorCheck. destruct (Rlt_dec _ _); split; reflexivity.
Qed.

(** [detectCollision] is called with the live position after the move, so
    the ray it casts starts at that position and has the zero vector for
    its direction: the answer depends on the position alone. *)
Lemma A_detectCollision_ray (w : World) (s : ScriptA.State) :
  ScriptA.detectCollision w s (ScriptA.position s)
  = nonEmpty (w (mkRay (ScriptA.position s) Vector3.zero 0 (Some ScriptA.PLAYER_RADIUS))).
Proof.
  unfold ScriptA.detectCollision.
  assert (E : Vector3.normalize (Vector3.sub (ScriptA.position s) (ScriptA.position s))
              = Vector3.zero).
  { apply normalize_zero_length.
    unfold Vector3.length, Vector3.lengthSq, Vector3.sub; simpl.
    match goal with |- sqrt ?e = 0 => replace e with 0 by ring end.
    apply sqrt_0. }
  rewrite E. reflexivity.
Qed.

(** The normalized intent has a nonzero [z] as soon as exactly one of
    forward and backward is held. *)
Lemma intent_z_nonzero (f b l r : bool) :
  f <> b -> Vector3.z (Vector3.normalize (intent 0 f b l r)) <> 0.
Proof.
  intros H.
  unfold Vector3.normalize, Vector3.divideScalar, Vector3.multiplyScalar, intent; simpl.
  pose proof (lengthOr1_pos
                (Vector3.mk (Number r - Number l) 0 (Number f - Number b))) as Hp.
  assert (Hi : 0 < 1 / Vector3.lengthOr1
                         (Vector3.mk (Number r - Number l) 0 (Number f - Number b))).
  { apply Rdiv_lt_0_compat; lra. }
  destruct f, b; try (exfalso; apply H; reflexivity);
    unfold Number in *; intros E; nra.
Qed.

Lemma A_accelerate_velocity_z (delta : R) (s : ScriptA.State) :
  ScriptA.moveForward s <> ScriptA.moveBackward s ->
  Vector3.z (ScriptA.velocity (ScriptA.accelerate delta s))
  = Vector3.z (ScriptA.velocity s) - Vector3.z (ScriptA.velocity s) * 10 * delta
    - Vector3.z (Vector3.normalize
                   (intent (Vector3.y (ScriptA.direction s))
                      (ScriptA.moveForward s) (ScriptA.moveBackward s)
                      (ScriptA.moveLeft s) (ScriptA.moveRight s)))
      * (if ScriptA.isSprinting s then ScriptA.SPRINT_SPEED else ScriptA.WALK_SPEED)
      * delta.
Proof.
  intros H. unfold ScriptA.accelerate.
  assert (Hor : ScriptA.moveForward s || ScriptA.moveBackward s = true).
  { destruct (ScriptA.moveForward s), (ScriptA.moveBackward s);
      try reflexivity. exfalso. apply H. reflexivity. }
  rewrite Hor. destruct (ScriptA.moveLeft s || ScriptA.moveRight s); reflexivity.
Qed.

Lemma lengthOr1_sqr (v : Vec3) :
  0 < Vector3.lengthSq v ->
  Vector3.lengthOr1 v * Vector3.lengthOr1 v = Vector3.lengthSq v.
Proof.
  intros H. unfold Vector3.lengthOr1.
  destruct (Req_dec_T (Vector3.length v) 0) as [E|N].
  - exfalso. pose proof (length_sqr v) as Hs. rewrite E in Hs. lra.
  - apply length_sqr.
Qed.

(** The reciprocal of a positive number whose square is 2. *)
Lemma recip_sqrt2_bounds (L : R) :
  0 < L -> L * L = 2 -> 7 / 10 < 1 / L < 3 / 4.
Proof.
  intros Hp Hs.
  assert (Hl : 4 / 3 < L < 10 / 7) by (split; nra).
  assert (Ht : 1 / L * L = 1) by (field; lra).
  assert (Hi : 0 < 1 / L) by (apply Rdiv_lt_0_compat; lra).
  split; nra.
Qed.

(** The normalized diagonal intent: both components scaled by the same
    factor, which lies between 0.7 and 0.75. *)
Lemma diag_normalize (f b l r : bool) :
  f <> b -> l <> r ->
  exists t : R,
    7 / 10 < t < 3 / 4 /\
    Vector3.normalize (intent 0 f b l r)
    = Vector3.mk ((Number r - Number l) * t) (0 * t) ((Number f - Number b) * t).
Proof.
  intros Hfb Hlr.
  exists (1 / Vector3.lengthOr1 (intent 0 f b l r)). split.
  - apply recip_sqrt2_bounds.
    + apply lengthOr1_pos.
    + rewrite lengthOr1_sqr; rewrite intent_lengthSq;
        destruct f, b, l, r; unfold Number; try lra;
        exfalso; (apply Hfb; reflexivity) || (apply Hlr; reflexivity).
  - reflexivity.
Qed.

Lemma A_accelerate_velocity_x (delta : R) (s : ScriptA.State) :
  ScriptA.moveLeft s <> ScriptA.moveRight s ->
  Vector3.x (ScriptA.velocity (ScriptA.accelerate delta s))
  = Vector3.x (ScriptA.velocity s) - Vector3.x (ScriptA.velocity s) * 10 * delta
    - Vector3.x (Vector3.normalize
                   (intent (Vector3.y (ScriptA.direction s))
                      (ScriptA.moveForward s) (ScriptA.moveBackward s)
                      (ScriptA.moveLeft s) (ScriptA.moveRight s)))
      * (if ScriptA.isSprinting s then ScriptA.SPRINT_SPEED else ScriptA.WALK_SPEED)
      * delta.
Proof.
  intros H. unfold ScriptA.accelerate.
  assert (Hor : ScriptA.moveLeft s || ScriptA.moveRight s = true).
  { destruct (ScriptA.moveLeft s), (ScriptA.moveRight s);
      try reflexivity. exfalso. apply H. reflexivity. }
  rewrite Hor. destruct (ScriptA.moveForward s || ScriptA.moveBackward s); reflexivity.
Qed.

(** The diagonal request from rest, one frame of 0.1 s: the velocity after
    step 4 is [(-5 t, -6, -5 t)] with [t] the normalizing factor. *)
Lemma A_diagonalFromRest_accelerate :
  exists t : R,
    7 / 10 < t < 3 / 4 /\
    Vector3.x (ScriptA.velocity (ScriptA.accelerate (1 / 10) A_diagonalFromRest))
    = - (5 * t) /\
    Vector3.z (ScriptA.velocity (ScriptA.accelerate (1 / 10) A_diagonalFromRest))
    = - (5 * t).
Proof.
  assert (Hfb : ScriptA.moveForward A_diagonalFromRest
                <> ScriptA.moveBackward A_diagonalFromRest)
    by (simpl; discriminate).
  assert (Hlr : ScriptA.moveLeft A_diagonalFromRest
                <> ScriptA.moveRight A_diagonalFromRest)
    by (simpl; discriminate).
  destruct (diag_normalize true false false true) as (t & Ht & En);
    try discriminate.
  exists t. split; [exact Ht|].
  rewrite (A_accelerate_velocity_x _ _ Hlr), (A_accelerate_velocity_z _ _ Hfb).
  change (Vector3.normalize
            (intent (Vector3.y (ScriptA.direction A_diagonalFromRest))
               (ScriptA.moveForward A_diagonalFromRest)
               (ScriptA.moveBackward A_diagonalFromRest)
               (ScriptA.moveLeft A_diagonalFromRest)
               (ScriptA.moveRight A_diagonalFromRest)))
    with (Vector3.normalize (intent 0 true false false true)).
  rewrite En.
  unfold A_diagonalFromRest, Number. eval_A. split; lra.
Qed.

(** The same with the camera at [p]: the velocity after step 4 does not
    depend on the position. *)
Lemma A_diagonalAt_accelerate (p : Vec3) :
  exists t : R,
    7 / 10 < t < 3 / 4 /\
    Vector3.x (ScriptA.velocity (ScriptA.accelerate (1 / 10) (A_diagonalAt p)))
    = - (5 * t) /\
    Vector3.z (ScriptA.velocity (ScriptA.accelerate (1 / 10) (A_diagonalAt p)))
    = - (5 * t).
Proof.
  destruct A_diagonalFromRest_accelerate as (t & Ht & Evx & Evz).
  exists t. split; [exact Ht|]. split; [exact Evx|exact Evz].
Qed.

Lemma faceX_directionless (x0 : R) (facesWest : bool) (ylo yhi zlo zhi : R) :
  directionless_silent (faceX x0 facesWest ylo yhi zlo zhi).
Proof.
  intros o n f. unfold faceX. cbn [rayDirection Vector3.zero Vector3.x].
  destruct facesWest; destruct (Rlt_dec 0 0) as [L|_];
    try (exfalso; lra); reflexivity.
Qed.

Lemma length_unit_x : Vector3.length (Vector3.mk 1 0 0) = 1.
Proof.
  unfold Vector3.length, Vector3.lengthSq; simpl.
  replace (1 * 1 + 0 * 0 + 0 * 0) with 1 by ring. apply sqrt_1.
Qed.

Lemma normalize_along_x (h : R) :
  0 < h -> Vector3.normalize (Vector3.mk h 0 0) = Vector3.mk 1 0 0.
Proof.
  intros Hh.
  assert (El : Vector3.length (Vector3.mk h 0 0) = h).
  { unfold Vector3.length, Vector3.lengthSq; simpl.
    replace (h * h + 0 * 0 + 0 * 0) with (Rsqr h) by (unfold Rsqr; ring).
    apply sqrt_Rsqr. lra. }
  unfold Vector3.normalize, Vector3.divideScalar, Vector3.multiplyScalar,
    Vector3.lengthOr1.
  rewrite El. destruct (Req_dec_T h 0) as [E|_]; [exfalso; lra|].
  simpl. f_equal; field; lra.
Qed.

(** In a world in which a ray without direction finds nothing, neither
    collision test of step 5 ever answers true, and the frame is both bare
    moves followed by the vertical move. *)
Lemma A_integrate_free (w : World) (delta : R) (s : ScriptA.State) :
  directionless_silent w ->
  A_blocksX w delta s = false /\
  A_blocksZ w delta s = false /\
  ScriptA.integrate w delta s
  = ScriptA.moveVertical delta
      (A_movedZ delta (A_movedX delta (ScriptA.accelerate delta s))).
Proof.
  intros Hw.
  assert (Hfree : forall t : ScriptA.State,
             ScriptA.detectCollision w t (ScriptA.position t) = false).
  { intros t. rewrite A_detectCollision_ray, Hw. reflexivity. }
  assert (Ex : ScriptA.moveAxisX w delta (ScriptA.accelerate delta s)
               = A_movedX delta (ScriptA.accelerate delta s))
    by (apply A_moveAxisX_free, Hfree).
  assert (Ez : ScriptA.moveAxisZ w delta (A_movedX delta (ScriptA.accelerate delta s))
               = A_movedZ delta (A_movedX delta (ScriptA.accelerate delta s)))
    by (apply A_moveAxisZ_free, Hfree).
  split; [apply Hfree|]. split; [apply Hfree|].
  unfold ScriptA.integrate. rewrite Ex, Ez. reflexivity.
Qed.

Lemma A_free_frame_position (delta : R) (s : ScriptA.State) :
  let a := ScriptA.accelerate delta s in
  let s' := ScriptA.floorCheck
              (ScriptA.moveVertical delta (A_movedZ delta (A_movedX delta a))) in
  Vector3.x (ScriptA.position s')
  = Vector3.x (ScriptA.position s)
    + Vector3.x (ScriptA.camRight s) * (- Vector3.x (ScriptA.velocity a) * delta)
    + Vector3.x (Vector3.cross Vector3.up (ScriptA.camRight s))
      * (- Vector3.z (ScriptA.velocity a) * delta) /\
  Vector3.z (ScriptA.position s')
  = Vector3.z (ScriptA.position s)
    + Vector3.z (ScriptA.camRight s) * (- Vector3.x (ScriptA.velocity a) * delta)
    + Vector3.z (Vector3.cross Vector3.up (ScriptA.camRight s))
      * (- Vector3.z (ScriptA.velocity a) * delta).
Proof.
  cbv zeta.
  destruct (A_floorCheck_position_xz
              (ScriptA.moveVertical delta
                 (A_movedZ delta (A_movedX delta (ScriptA.accelerate delta s)))))
    as (-> & ->).
  assert (Pa : ScriptA.position (ScriptA.accelerate delta s) = ScriptA.position s)
    by reflexivity.
  assert (Ca : ScriptA.camRight (ScriptA.accelerate delta s) = ScriptA.camRight s)
    by reflexivity.
  rewrite <- Pa, <- Ca.
  generalize (ScriptA.accelerate delta s). intros a.
  destruct a as [[px py pz] [rx ry rz] lk [vx vy vz] d f b l r cj sp pt].
  unfold A_movedZ, A_movedX, ScriptA.moveVertical. eval_A.
  split; ring.
Qed.

(** C2.  First variant of script.js, step 5 of [animate].  The horizontal
    move is written one axis at a time, each axis with its own collision
    test, its own undo and its own zeroing of the velocity component.  But
    both calls hand [detectCollision] the live camera position, after the
    move, so its ray starts where it points to and has no direction.  In
    a world in which a ray without direction finds nothing, the X test and
    the Z test answer false in every frame, no move is ever undone, and
    the frame is the frame of a level without any wall: walls do not block
    the actor, and there is nothing to slide along. *)
Theorem C2_wall_blocks_no_axis (w : World) (delta : R) (s : ScriptA.State) :
  directionless_silent w ->
  A_blocksX w delta s = false /\
  A_blocksZ w delta s = false /\
  ScriptA.moveAxisX w delta (ScriptA.accelerate delta s)
  = A_movedX delta (ScriptA.accelerate delta s) /\
  ScriptA.tick w delta s = ScriptA.tick emptyWorld delta s.
Proof.
  intros Hw.
  destruct (A_integrate_free w delta s Hw) as (HX & HZ & Ei).
  assert (He : directionless_silent emptyWorld) by (intros o n f; reflexivity).
  destruct (A_integrate_free emptyWorld delta s He) as (_ & _ & Ee).
  split; [exact HX|]. split; [exact HZ|]. split.
  - apply A_moveAxisX_free. exact HX.
  - unfold ScriptA.tick. rewrite Ei, Ee. reflexivity.
Qed.

(** C2, witness: the actor 0.3 west of the Red Wall, camera along the
    world axes, W and D held from rest, one frame of 0.1 s.  A collision
    test from where the actor stands toward where the X move takes it
    finds the wall, 0.3 away and within [PLAYER_RADIUS].  The frame is
    nevertheless the frame of an empty level, and it ends inside the
    wall. *)
Lemma C2_wall_blocks_no_axis_witness :
  let s := A_diagonalAt (Vector3.mk (-3 / 10) (18 / 10) 0) in
  let a := ScriptA.accelerate (1 / 10) s in
  directionless_silent redWallWest /\
  ScriptA.detectCollision redWallWest a (ScriptA.position (A_movedX (1 / 10) a)) = true /\
  ScriptA.tick redWallWest (1 / 10) s = ScriptA.tick emptyWorld (1 / 10) s /\
  0 < Vector3.x (ScriptA.position (ScriptA.tick redWallWest (1 / 10) s)) < 10 /\
  -1 / 2 < Vector3.z (ScriptA.position (ScriptA.tick redWallWest (1 / 10) s)) < 1 / 2.
Proof.
  cbv zeta.
  set (s := A_diagonalAt (Vector3.mk (-3 / 10) (18 / 10) 0)).
  assert (Hw : directionless_silent redWallWest) by apply faceX_directionless.
  destruct (A_diagonalAt_accelerate (Vector3.mk (-3 / 10) (18 / 10) 0))
    as (t & Ht & Evx & Evz).
  fold s in Evx, Evz.
  split; [exact Hw|].
  split.
  { unfold ScriptA.detectCollision.
    assert (Ep : ScriptA.position (ScriptA.accelerate (1 / 10) s)
                 = Vector3.mk (-3 / 10) (18 / 10) 0) by reflexivity.
    assert (Ed : Vector3.sub
                   (ScriptA.position (A_movedX (1 / 10) (ScriptA.accelerate (1 / 10) s)))
                   (ScriptA.position (ScriptA.accelerate (1 / 10) s))
                 = Vector3.mk (t / 2) 0 0).
    { assert (Em : ScriptA.position
                     (A_movedX (1 / 10) (ScriptA.accelerate (1 / 10) s))
                   = Vector3.mk
                       (-3 / 10
                        + 1 * (- Vector3.x (ScriptA.velocity
                                              (ScriptA.accelerate (1 / 10) s))
                               * (1 / 10)))
                       (18 / 10
                        + 0 * (- Vector3.x (ScriptA.velocity
                                              (ScriptA.accelerate (1 / 10) s))
                               * (1 / 10)))
                       (0
                        + 0 * (- Vector3.x (ScriptA.velocity
                                              (ScriptA.accelerate (1 / 10) s))
                               * (1 / 10)))) by reflexivity.
      rewrite Em, Ep, Evx. unfold Vector3.sub; simpl. f_equal; field. }
    rewrite Ed, Ep, normalize_along_x by lra.
    unfold redWallWest, faceX, withinReach, inRange, ScriptA.PLAYER_RADIUS.
    cbn [origin rayDirection near far Vector3.x Vector3.y Vector3.z].
    rewrite length_unit_x.
    replace ((0 - -3 / 10) / 1) with (3 / 10) by field.
    repeat (settle_comparisons; cbn [andb nonEmpty]).
    reflexivity. }
  destruct (C2_wall_blocks_no_axis redWallWest (1 / 10) s Hw) as (_ & _ & _ & Et).
  split; [exact Et|].
  rewrite Et.
  assert (He : directionless_silent emptyWorld) by (intros o n f; reflexivity).
  destruct (A_integrate_free emptyWorld (1 / 10) s He) as (_ & _ & Ee).
  unfold ScriptA.tick. rewrite Ee.
  destruct (A_free_frame_position (1 / 10) s) as (Px & Pz).
  cbv zeta in Px, Pz. rewrite Px, Pz, Evx, Evz.
  change (ScriptA.position s) with (Vector3.mk (-3 / 10) (18 / 10) 0).
  change (ScriptA.camRight s) with (Vector3.mk 1 0 0).
  unfold Vector3.cross, Vector3.up.
  cbn [Vector3.x Vector3.y Vector3.z].
  split; split; lra.
Defined.

Lemma G_animate_position_xz (w : World) (delta : R) (s : Game.State) :
  Vector3.x (Game.position (Game.animate w delta s))
  = Vector3.x (Game.position
                 (Game.moveHorizontal w delta
                    (Game.inputDirection (Game.applyGravity delta s)))) /\
  Vector3.z (Game.position (Game.animate w delta s))
  = Vector3.z (Game.position
                 (Game.moveHorizontal w delta
                    (Game.inputDirection (Game.applyGravity delta s)))).
Proof.
  unfold Game.animate, Game.floorCheck, Game.integrate, Game.checkCollisions.
  destruct (firstCloserThan _ _); simpl.
  - destruct (Rlt_dec _ 0); simpl; destruct (Rlt_dec _ _); simpl; split; reflexivity.
  - destruct (Rlt_dec _ _); simpl; split; reflexivity.
Qed.

Lemma normalize_of_unit (v : Vec3) :
  Vector3.lengthSq v = 1 -> Vector3.normalize v = Vector3.multiplyScalar v (1 / 1).
Proof.
  intros H. unfold Vector3.normalize, Vector3.divideScalar, Vector3.lengthOr1.
  assert (E : Vector3.length v = 1).
  { unfold Vector3.length. rewrite H. apply sqrt_1. }
  rewrite E. destruct (Req_dec_T 1 0) as [F|_]; [exfalso; lra|reflexivity].
Qed.

(** The movement vector of the player beside the wall in a frame of 0.1 s:
    [(t/2, 0, -t/2)], with [t] the normalizing factor of the diagonal. *)
Lemma besideWall_moveVector :
  let s1 := Game.inputDirection (Game.applyGravity (1 / 10) besideWall) in
  exists t : R,
    7 / 10 < t < 3 / 4 /\
    Game.moveVector s1 (Game.direction s1) (Game.speedOf s1) (1 / 10)
    = Vector3.mk (t / 2) 0 (- (t / 2)).
Proof.
  cbv zeta.
  destruct (diag_normalize true false false true) as (t & Ht & En);
    try discriminate.
  exists t. split; [exact Ht|].
  assert (Ed : Game.direction (Game.inputDirection (Game.applyGravity (1 / 10) besideWall))
               = Vector3.normalize (intent 0 true false false true)) by reflexivity.
  rewrite Ed, En.
  assert (Ef : Vector3.normalize (Vector3.set_y (Vector3.mk 0 0 (-1)) 0)
               = Vector3.mk 0 0 (-1)).
  { rewrite normalize_of_unit.
    - unfold Vector3.multiplyScalar; simpl. f_equal; field.
    - unfold Vector3.lengthSq; simpl. ring. }
  assert (Er : Vector3.normalize
                 (Vector3.set_y (Vector3.cross (Vector3.mk 0 0 (-1)) Vector3.up) 0)
               = Vector3.mk 1 0 0).
  { rewrite normalize_of_unit.
    - unfold Vector3.multiplyScalar, Vector3.cross, Vector3.up; simpl. f_equal; field.
    - unfold Vector3.lengthSq, Vector3.cross, Vector3.up; simpl. ring. }
  unfold Game.moveVector, besideWall.
  cbn [Game.moveForward Game.moveBackward Game.moveLeft Game.moveRight
       Game.inputDirection Game.applyGravity Game.set_direction Game.set_velocity
       Game.worldDirection Game.speedOf Game.isSprinting Game.isCrouching
       orb andb negb].
  rewrite Ef, Er.
  unfold Game.NORMAL_SPEED, Number, Vector3.add, Vector3.multiplyScalar,
    Vector3.zero; simpl.
  f_equal; field.
Qed.

(** The diagonal [(h, 0, -h)] with [h > 0], normalized, has an [x] above
    3/5. *)
Lemma half_diag_normalize_x (h : R) :
  0 < h -> 3 / 5 < Vector3.x (Vector3.normalize (Vector3.mk h 0 (- h))).
Proof.
  intros Hh.
  assert (Hsq : Vector3.lengthSq (Vector3.mk h 0 (- h)) = 2 * (h * h))
    by (unfold Vector3.lengthSq; simpl; ring).
  assert (Hpos : 0 < Vector3.lengthSq (Vector3.mk h 0 (- h))) by (rewrite Hsq; nra).
  pose proof (lengthOr1_pos (Vector3.mk h 0 (- h))) as HM.
  pose proof (lengthOr1_sqr _ Hpos) as HMM. rewrite Hsq in HMM.
  unfold Vector3.normalize, Vector3.divideScalar, Vector3.multiplyScalar; simpl.
  set (M := Vector3.lengthOr1 (Vector3.mk h 0 (- h))) in *.
  assert (Hu : 0 < 1 / M) by (apply Rdiv_lt_0_compat; lra).
  assert (HuM : 1 / M * M = 1) by (field; lra).
  set (u := 1 / M) in *.
  assert (Hhu : 0 < h * u) by nra.
  assert (Hsq2 : (h * u) * (h * u) * 2 = 1).
  { replace ((h * u) * (h * u) * 2) with ((2 * (h * h)) * (u * u)) by ring.
    rewrite <- HMM. replace (M * M * (u * u)) with ((u * M) * (u * M)) by ring.
    rewrite HuM. ring. }
  nra.
Qed.

(** game.js does not resolve the horizontal move one axis at a time
    either.  The player stands 0.3 west of a wall face and holds W and D;
    a ray along the camera's right axis is blocked within 0.5, a ray along
    its forward axis is not, so the wall blocks only the X displacement.
    [animate] casts a single ray along the whole movement vector, finds
    the wall 0.3 * sqrt 2 away, and applies no horizontal move at all: the
    Z displacement of the frame is zero. *)
Lemma G_wall_cancels_whole_move :
  Game.checkWallCollision wallFace besideWall (Vector3.mk 1 0 0) (5 / 10) = true /\
  Game.checkWallCollision wallFace besideWall (Vector3.mk 0 0 (-1)) (5 / 10) = false /\
  Game.moveForward besideWall = true /\ Game.moveBackward besideWall = false /\
  Game.moveRight besideWall = true /\ Game.moveLeft besideWall = false /\
  Vector3.x (Game.position (Game.animate wallFace (1 / 10) besideWall))
  = Vector3.x (Game.position besideWall) /\
  Vector3.z (Game.position (Game.animate wallFace (1 / 10) besideWall))
  = Vector3.z (Game.position besideWall).
Proof.
  split.
  { unfold wallFace, besideWall. eval_G.
    repeat (settle_comparisons; eval_vec). reflexivity. }
  split.
  { unfold wallFace, besideWall. eval_G.
    repeat (settle_comparisons; eval_vec). reflexivity. }
  repeat (split; [reflexivity|]).
  destruct (G_animate_position_xz wallFace (1 / 10) besideWall) as (-> & ->).
  destruct besideWall_moveVector as (t & Ht & Emv). cbv zeta in Emv.
  unfold Game.moveHorizontal. rewrite Emv.
  destruct (Rlt_dec 0 _) as [Hl|Hn]; [|split; reflexivity].
  destruct (Game.checkWallCollision _ _ _ _) eqn:E; [split; reflexivity|].
  exfalso.
  assert (Hx : 3 / 5 < Vector3.x (Vector3.normalize (Vector3.mk (t / 2) 0 (- (t / 2)))))
    by (apply half_diag_normalize_x; lra).
  unfold Game.checkWallCollision, wallFace, Game.raycaster_set in E.
  cbn [origin rayDirection] in E.
  change (Vector3.x (Game.position
                       (Game.inputDirection (Game.applyGravity (1 / 10) besideWall))))
    with (187 / 10) in E.
  set (xd := Vector3.x (Vector3.normalize (Vector3.mk (t / 2) 0 (- (t / 2))))) in *.
  destruct (Rlt_dec 0 xd) as [_|N]; [|lra].
  destruct (Rle_dec (187 / 10) 19) as [_|N]; [|lra].
  unfold firstCloserThan in E.
  destruct (Rlt_dec ((19 - 187 / 10) / xd) (5 / 10)) as [_|N]; [discriminate E|].
  apply N. apply (Rmult_lt_reg_r xd); [lra|].
  unfold Rdiv. rewrite Rmult_assoc, Rinv_l; lra.
Qed.

(** * Further properties of the three controllers *)

(** ** Frames while the controls are unlocked *)

Lemma last_cons_default {A : Type} (t : A) (ts : list A) (d : A) :
  last (t :: ts) d = last ts t.
Proof.
  revert t d. induction ts as [|u ts IH]; intros t d.
  - reflexivity.
  - change (last (t :: u :: ts) d) with (last (u :: ts) d).
    rewrite (IH u d), (IH u t). reflexivity.
Qed.

Lemma A_run_unlocked_frames (w : World) (ts : list R) (s : ScriptA.State) :
  ScriptA.isLocked s = false ->
  ScriptA.run w (map ScriptA.Frame ts) s
  = match ts with
    | [] => s
    | _ :: _ => ScriptA.set_prevTime s (last ts (ScriptA.prevTime s))
    end.
Proof.
  unfold ScriptA.run. revert s.
  induction ts as [|t ts IH]; intros s Hl.
  - reflexivity.
  - cbn [map fold_left ScriptA.step]. unfold ScriptA.animate at 1. rewrite Hl.
    rewrite (IH (ScriptA.set_prevTime s t) Hl).
    rewrite last_cons_default. destruct ts as [|u ts]; reflexivity.
Qed.

Lemma B_run_unlocked_frames (w : World) (ts : list R) (s : ScriptB.State) :
  ScriptB.isLocked s = false ->
  ScriptB.run w (map ScriptB.Frame ts) s
  = match ts with
    | [] => s
    | _ :: _ => ScriptB.set_prevTime s (last ts (ScriptB.prevTime s))
    end.
Proof.
  unfold ScriptB.run. revert s.
  induction ts as [|t ts IH]; intros s Hl.
  - reflexivity.
  - cbn [map fold_left ScriptB.step]. unfold ScriptB.animate at 1. rewrite Hl.
    rewrite (IH (ScriptB.set_prevTime s t) Hl).
    rewrite last_cons_default. destruct ts as [|u ts]; reflexivity.
Qed.

(** X1.  Both variants of script.js: while the controls are unlocked,
    frames change nothing but [prevTime], which follows the clock.  So when
    the lock is taken after a pause of any length, the first frame
    integrates the frozen position and velocity over the time since the
    last frame only, not over the pause. *)
Theorem X1_unlocked_frames_freeze_physics :
  (forall (w : World) (s : ScriptA.State) (t0 : R) (ts : list R) (t : R),
     ScriptA.isLocked s = false ->
     let paused := ScriptA.run w (map ScriptA.Frame (t0 :: ts)) s in
     paused = ScriptA.set_prevTime s (last ts t0) /\
     ScriptA.run w (map ScriptA.Frame (t0 :: ts)
                    ++ [ScriptA.Lock true; ScriptA.Frame t]) s
     = ScriptA.set_prevTime
         (ScriptA.tick w ((t - last ts t0) / 1000) (ScriptA.set_isLocked paused true))
         t) /\
  (forall (w : World) (s : ScriptB.State) (t0 : R) (ts : list R) (t : R),
     ScriptB.isLocked s = false ->
     let paused := ScriptB.run w (map ScriptB.Frame (t0 :: ts)) s in
     paused = ScriptB.set_prevTime s (last ts t0) /\
     ScriptB.run w (map ScriptB.Frame (t0 :: ts)
                    ++ [ScriptB.Lock true; ScriptB.Frame t]) s
     = ScriptB.set_prevTime
         (ScriptB.tick ((t - last ts t0) / 1000) (ScriptB.set_isLocked paused true))
         t).
Proof.
  split.
  - intros w s t0 ts t Hl. cbv zeta.
    pose proof (A_run_unlocked_frames w (t0 :: ts) s Hl) as E.
    rewrite last_cons_default in E. split; [exact E|].
    unfold ScriptA.run in *. rewrite fold_left_app, E. reflexivity.
  - intros w s t0 ts t Hl. cbv zeta.
    pose proof (B_run_unlocked_frames w (t0 :: ts) s Hl) as E.
    rewrite last_cons_default in E. split; [exact E|].
    unfold ScriptB.run in *. rewrite fold_left_app, E. reflexivity.
Qed.

(** X1, witness: the state after [init] of the first variant, unlocked,
    two frames at 16 and 5000 ms, then the lock and a frame at 5016 ms. *)
Lemma X1_unlocked_frames_witness :
  ScriptA.isLocked (ScriptA.init (Vector3.mk 1 0 0) false 0) = false /\
  ScriptA.run emptyWorld (map ScriptA.Frame [16; 5000])
    (ScriptA.init (Vector3.mk 1 0 0) false 0)
  = ScriptA.set_prevTime (ScriptA.init (Vector3.mk 1 0 0) false 0) 5000.
Proof.
  split; [reflexivity|].
  destruct X1_unlocked_frames_freeze_physics as (HA & _).
  destruct (HA emptyWorld (ScriptA.init (Vector3.mk 1 0 0) false 0) 16 [5000] 5016
              eq_refl) as (E & _).
  exact E.
Defined.

(** ** The FPS counter of the first variant of script.js *)

Lemma Fps_frames_snoc (ts : list R) (t : R) (s : Fps.State) :
  Fps.frames (ts ++ [t]) s
  = (fst (Fps.updateFPS t (fst (Fps.frames ts s))),
     snd (Fps.frames ts s) ++ snd (Fps.updateFPS t (fst (Fps.frames ts s)))).
Proof.
  revert s. induction ts as [|u ts IH]; intros s.
  - simpl. destruct (Fps.updateFPS t s) as [s1 l1]. simpl.
    rewrite app_nil_r. reflexivity.
  - simpl. destruct (Fps.updateFPS u s) as [s1 l1]. rewrite IH.
    destruct (Fps.frames ts s1) as [s2 l2]. simpl.
    rewrite app_assoc. reflexivity.
Qed.

Lemma Fps_updateFPS_recent (t : R) (s : Fps.State) :
  t - Fps.lastTimeFPS (fst (Fps.updateFPS t s)) < 1000.
Proof.
  unfold Fps.updateFPS. destruct (Rge_dec _ _) as [G|N]; simpl; lra.
Qed.

Lemma Fps_frames_cons (t : R) (ts : list R) (s : Fps.State) :
  fst (Fps.frames (t :: ts) s) = fst (Fps.frames ts (fst (Fps.updateFPS t s))) /\
  snd (Fps.frames (t :: ts) s)
  = snd (Fps.updateFPS t s) ++ snd (Fps.frames ts (fst (Fps.updateFPS t s))).
Proof.
  simpl. destruct (Fps.updateFPS t s) as [s1 l1]. simpl.
  destruct (Fps.frames ts s1) as [s2 l2]. split; reflexivity.
Qed.

Lemma Fps_updateFPS_cases (t : R) (s : Fps.State) :
  (Fps.frameCount (fst (Fps.updateFPS t s)) = 0%nat /\
   Fps.textContent (fst (Fps.updateFPS t s))
   = String.append "FPS: "%string (Fps.decimal (S (Fps.frameCount s))) /\
   snd (Fps.updateFPS t s)
   = [String.append "FPS: "%string (Fps.decimal (S (Fps.frameCount s)))])
  \/
  (Fps.frameCount (fst (Fps.updateFPS t s)) = S (Fps.frameCount s) /\
   Fps.textContent (fst (Fps.updateFPS t s)) = Fps.textContent s /\
   snd (Fps.updateFPS t s) = []).
Proof.
  unfold Fps.updateFPS. destruct (Rge_dec _ _); [left|right]; repeat split.
Qed.

(** X2.  [updateFPS] loses no frame and counts none twice: over any
    sequence of frames, the texts written to the counter element are
    ["FPS: n"] for counts [n >= 1], and these counts together with the
    pending [frameCount] add up to the initial [frameCount] plus the
    number of frames.  The element always shows the last text written, and
    after each call less than 1000 ms lie between the call and
    [lastTimeFPS]. *)
Theorem X2_fps_counter_conserves_frames (ts : list R) (s : Fps.State) :
  (exists counts : list nat,
     snd (Fps.frames ts s)
     = map (fun n => String.append "FPS: "%string (Fps.decimal n)) counts /\
     Forall (fun n => (1 <= n)%nat) counts /\
     (list_sum counts + Fps.frameCount (fst (Fps.frames ts s))
      = Fps.frameCount s + Datatypes.length ts)%nat) /\
  Fps.textContent (fst (Fps.frames ts s))
  = last (snd (Fps.frames ts s)) (Fps.textContent s) /\
  (forall t : R,
     t - Fps.lastTimeFPS (fst (Fps.frames (ts ++ [t]) s)) < 1000).
Proof.
  repeat apply conj.
  - revert s. induction ts as [|t ts IH]; intros s.
    + exists []. simpl. repeat split; [constructor|lia].
    + destruct (Fps_frames_cons t ts s) as (-> & ->).
      destruct (IH (fst (Fps.updateFPS t s))) as (counts & Hlog & Hpos & Hsum).
      rewrite Hlog.
      destruct (Fps_updateFPS_cases t s) as [(Hc & _ & Hw)|(Hc & _ & Hw)];
        rewrite Hw; rewrite Hc in Hsum.
      * exists (S (Fps.frameCount s) :: counts). repeat split.
        -- constructor; [lia|exact Hpos].
        -- unfold list_sum in *. cbn [fold_right Datatypes.length]. lia.
      * exists counts. repeat split.
        -- exact Hpos.
        -- cbn [Datatypes.length]. lia.
  - revert s. induction ts as [|t ts IH]; intros s.
    + reflexivity.
    + destruct (Fps_frames_cons t ts s) as (-> & ->).
      rewrite (IH (fst (Fps.updateFPS t s))).
      destruct (Fps_updateFPS_cases t s) as [(_ & Ht & Hw)|(_ & Ht & Hw)];
        rewrite Hw, Ht.
      * cbn [app]. rewrite last_cons_default. reflexivity.
      * reflexivity.
  - intros t. rewrite Fps_frames_snoc. simpl. apply Fps_updateFPS_recent.
Qed.

(** ** Standing still is a fixed point of the frame *)

Lemma normalize_no_intent :
  Vector3.normalize (Vector3.mk (0 - 0) 0 (0 - 0)) = Vector3.mk 0 0 0.
Proof.
  apply normalize_zero_length.
  unfold Vector3.length, Vector3.lengthSq; simpl.
  match goal with |- sqrt ?e = 0 => replace e with 0 by ring end.
  apply sqrt_0.
Qed.

Lemma A_tick_at_rest (w : World) (delta : R) (s : ScriptA.State) :
  A_atRest s -> ScriptA.tick w delta s = s.
Proof.
  destruct s as [[px py pz] [rx ry rz] lk [vx vy vz] [dx dy dz] f b l r cj sp pt].
  unfold A_atRest, A_noInput. simpl.
  intros (Hy & Hv & Hd & (Hf & Hb & Hl & Hr) & Hc).
  injection Hv as -> -> ->. injection Hd as -> -> ->. subst.
  unfold ScriptA.tick, ScriptA.integrate.
  assert (Ea : ScriptA.accelerate delta
                 (ScriptA.mkState (Vector3.mk px ScriptA.PLAYER_HEIGHT pz)
                    (Vector3.mk rx ry rz) lk (Vector3.mk 0 0 0) (Vector3.mk 0 0 0)
                    false false false false true sp pt)
               = ScriptA.mkState (Vector3.mk px ScriptA.PLAYER_HEIGHT pz)
                   (Vector3.mk rx ry rz) lk
                   (Vector3.mk 0 (0 - ScriptA.GRAVITY * delta) 0) (Vector3.mk 0 0 0)
                   false false false false true sp pt).
  { cbv [ScriptA.accelerate ScriptA.velocity ScriptA.direction
         ScriptA.moveForward ScriptA.moveBackward ScriptA.moveLeft
         ScriptA.moveRight ScriptA.isSprinting ScriptA.set_velocity
         ScriptA.set_direction ScriptA.position ScriptA.camRight
         ScriptA.isLocked ScriptA.canJump ScriptA.prevTime]; eval_vec.
    rewrite normalize_no_intent. f_equal. f_equal; ring. }
  rewrite Ea. clear Ea.
  set (a := ScriptA.mkState _ _ _ _ _ _ _ _ _ _ _ _).
  assert (Ex : ScriptA.moveAxisX w delta a = a).
  { unfold ScriptA.moveAxisX. cbv zeta.
    destruct (ScriptA.detectCollision _ _ _); subst a; eval_A;
      f_equal; f_equal; ring. }
  rewrite Ex.
  assert (Ez : ScriptA.moveAxisZ w delta a = a).
  { unfold ScriptA.moveAxisZ. cbv zeta.
    destruct (ScriptA.detectCollision _ _ _); subst a; eval_A;
      f_equal; f_equal; ring. }
  rewrite Ez. subst a.
  unfold ScriptA.floorCheck, ScriptA.moveVertical. eval_A.
  destruct (Rlt_dec _ _) as [L|N]; eval_A.
  - reflexivity.
  - assert (E0 : delta = 0) by nra. subst delta.
    f_equal; f_equal; ring.
Qed.

Lemma B_tick_at_rest (delta : R) (s : ScriptB.State) :
  B_atRest s -> ScriptB.tick delta s = s.
Proof.
  destruct s as [[px py pz] [rx ry rz] rot lk [vx vy vz] [dx dy dz] f b l r cj sp ck pt].
  unfold B_atRest, ScriptB.currentHeight. simpl.
  intros (Hy & Hv & Hd & (Hf & Hb & Hl & Hr) & Hc).
  injection Hv as -> -> ->. injection Hd as -> -> ->. subst.
  unfold ScriptB.tick, ScriptB.floorCheck. eval_B.
  rewrite normalize_no_intent.
  destruct ck; eval_B;
    (destruct (Rlt_dec _ _) as [L|N]; eval_vec;
     [f_equal; f_equal; ring
     |assert (E0 : delta = 0) by nra; subst delta; f_equal; f_equal; ring]).
Qed.

Lemma G_animate_at_rest (w : World) (delta : R) (s : Game.State) :
  G_atRest s -> Game.animate w delta s = s.
Proof.
  destruct s as [[px py pz] wd [vx vy vz] [dx dy dz] f b l r cj sp ck].
  unfold G_atRest, Game.currentHeight. simpl.
  intros (Hy & Hv & Hd & (Hf & Hb & Hl & Hr) & Hc).
  injection Hv as -> -> ->. injection Hd as -> -> ->. subst.
  unfold Game.animate, Game.floorCheck, Game.integrate, Game.moveHorizontal.
  assert (Emv : forall st d sp' dl,
             Game.moveForward st = false -> Game.moveBackward st = false ->
             Game.moveLeft st = false -> Game.moveRight st = false ->
             Game.moveVector st d sp' dl = Vector3.zero).
  { intros st d sp' dl H1 H2 H3 H4. unfold Game.moveVector.
    rewrite H1, H2, H3, H4. reflexivity. }
  rewrite Emv by reflexivity. rewrite length_zero_vector.
  destruct (Rlt_dec 0 0) as [F|_]; [exfalso; lra|].
  unfold Game.checkCollisions. eval_G.
  rewrite normalize_no_intent.
  destruct ck;
    repeat (match goal with
            | |- context [match ?l with [] => _ | _ :: _ => _ end] => destruct l
            | |- context [Rlt_dec ?a ?b] => destruct (Rlt_dec a b)
            end; eval_G);
    try (f_equal; f_equal; ring);
    try (exfalso; nra);
    (assert (E0 : delta = 0) by nra; subst delta; f_equal; f_equal; ring).
Qed.

(** X3.  Standing still is a fixed point of the frame in all three
    variants: at the eye height, with zero velocity, nothing held and
    [canJump] true, a frame of any length [delta], against any world,
    returns the very same state.  Gravity pulls the actor below the eye
    height and the floor check puts it back. *)
Theorem X3_rest_is_fixed_point :
  (forall (w : World) (delta : R) (s : ScriptA.State),
     A_atRest s -> ScriptA.tick w delta s = s) /\
  (forall (delta : R) (s : ScriptB.State),
     B_atRest s -> ScriptB.tick delta s = s) /\
  (forall (w : World) (delta : R) (s : Game.State),
     G_atRest s -> Game.animate w delta s = s).
Proof.
  repeat apply conj.
  - exact A_tick_at_rest.
  - exact B_tick_at_rest.
  - exact G_animate_at_rest.
Qed.

(** X3, witness: the first variant of script.js standing on the floor. *)
Lemma X3_rest_witness :
  A_atRest (A_sliding 0 0) /\
  ScriptA.tick emptyWorld (1 / 60) (A_sliding 0 0) = A_sliding 0 0.
Proof.
  assert (H : A_atRest (A_sliding 0 0)).
  { unfold A_atRest, A_noInput, A_sliding; simpl. repeat split. }
  split; [exact H|].
  destruct X3_rest_is_fixed_point as (HA & _).
  exact (HA emptyWorld (1 / 60) (A_sliding 0 0) H).
Defined.

(** ** Vertical motion in the second variant of script.js *)

Lemma B_integrate_vertical (delta : R) (s : ScriptB.State) :
  Vector3.y (ScriptB.camRight s) = 0 ->
  Vector3.y (ScriptB.velocity (ScriptB.integrate delta s))
  = Vector3.y (ScriptB.velocity s) - 98 * delta /\
  Vector3.y (ScriptB.position (ScriptB.integrate delta s))
  = Vector3.y (ScriptB.position s)
    + (Vector3.y (ScriptB.velocity s) - 98 * delta) * delta.
Proof.
  destruct s as [[px py pz] [rx ry rz] rot lk [vx vy vz] d f b l r cj sp ck pt].
  simpl. intros ->.
  destruct f, b, l, r; eval_B; split; lra.
Qed.

Lemma B_tick_keeps (delta : R) (s : ScriptB.State) :
  ScriptB.camRight (ScriptB.tick delta s) = ScriptB.camRight s /\
  ScriptB.isCrouching (ScriptB.tick delta s) = ScriptB.isCrouching s /\
  (ScriptB.canJump s = true -> ScriptB.canJump (ScriptB.tick delta s) = true).
Proof.
  unfold ScriptB.tick, ScriptB.floorCheck.
  destruct (Rlt_dec _ _); repeat split; try reflexivity.
  intros H. exact H.
Qed.

(** A frame that leaves [canJump] false did not clamp: it is the plain
    integration step. *)
Lemma B_tick_airborne (delta : R) (s : ScriptB.State) :
  ScriptB.canJump (ScriptB.tick delta s) = false ->
  ScriptB.tick delta s = ScriptB.integrate delta s.
Proof.
  unfold ScriptB.tick, ScriptB.floorCheck.
  destruct (Rlt_dec _ _); [simpl; discriminate|reflexivity].
Qed.

(** A frame that turns [canJump] from false to true clamped to the
    floor. *)
Lemma B_tick_lands (delta : R) (s : ScriptB.State) :
  ScriptB.canJump s = false ->
  ScriptB.canJump (ScriptB.tick delta s) = true ->
  Vector3.y (ScriptB.position (ScriptB.tick delta s))
  = ScriptB.currentHeight (ScriptB.tick delta s) /\
  Vector3.y (ScriptB.velocity (ScriptB.tick delta s)) = 0.
Proof.
  unfold ScriptB.tick, ScriptB.floorCheck, ScriptB.currentHeight.
  destruct (Rlt_dec _ _); simpl.
  - intros _ _. split; reflexivity.
  - intros H1 H2. rewrite H1 in H2. discriminate H2.
Qed.

Lemma B_iter_keeps (delta : R) (s : ScriptB.State) (n : nat) :
  ScriptB.camRight (Nat.iter n (ScriptB.tick delta) s) = ScriptB.camRight s /\
  ScriptB.isCrouching (Nat.iter n (ScriptB.tick delta) s) = ScriptB.isCrouching s.
Proof.
  induction n as [|n (IHr & IHk)]; simpl.
  - split; reflexivity.
  - destruct (B_tick_keeps delta (Nat.iter n (ScriptB.tick delta) s))
      as (Hr & Hk & _).
    rewrite Hr, Hk. split; assumption.
Qed.

(** The vertical motion of the second variant of script.js while the
    actor stays in the air. *)
Lemma B_free_flight (delta : R) (s : ScriptB.State) (n : nat) :
  Vector3.y (ScriptB.camRight s) = 0 ->
  ScriptB.canJump (Nat.iter n (ScriptB.tick delta) s) = false ->
  Vector3.y (ScriptB.velocity (Nat.iter n (ScriptB.tick delta) s))
  = Vector3.y (ScriptB.velocity s) - 98 * INR n * delta /\
  Vector3.y (ScriptB.position (Nat.iter n (ScriptB.tick delta) s))
  = Vector3.y (ScriptB.position s)
    + INR n * delta * Vector3.y (ScriptB.velocity s)
    - 49 * delta * delta * INR n * (INR n + 1).
Proof.
  intros Hr. induction n as [|n IH]; intros Hc.
  - simpl. split; ring.
  - simpl Nat.iter in *.
    set (sn := Nat.iter n (ScriptB.tick delta) s) in *.
    assert (Hcn : ScriptB.canJump sn = false).
    { destruct (B_tick_keeps delta sn) as (_ & _ & Hk).
      destruct (ScriptB.canJump sn); [|reflexivity].
      rewrite (Hk eq_refl) in Hc. discriminate Hc. }
    destruct (IH Hcn) as (IHv & IHy).
    rewrite (B_tick_airborne delta sn Hc).
    assert (Hrn : Vector3.y (ScriptB.camRight sn) = 0).
    { subst sn. destruct (B_iter_keeps delta s n) as (-> & _). exact Hr. }
    destruct (B_integrate_vertical delta sn Hrn) as (-> & ->).
    rewrite IHv, IHy, S_INR. split; ring.
Qed.

(** X4.  Second variant of script.js, camera without roll
    ([camRight.y = 0]): as long as the actor has not landed, that is while
    [canJump] is still false after [n] frames of length [delta], its
    vertical motion is the closed form of the gravity-then-integrate
    scheme: [velocity.y = v0 - 98 n delta] and
    [position.y = y0 + n delta v0 - 49 delta^2 n (n + 1)], whatever keys
    are held. *)
Theorem X4_free_flight_closed_form (delta : R) (s : ScriptB.State) (n : nat) :
  Vector3.y (ScriptB.camRight s) = 0 ->
  ScriptB.canJump (Nat.iter n (ScriptB.tick delta) s) = false ->
  Vector3.y (ScriptB.velocity (Nat.iter n (ScriptB.tick delta) s))
  = Vector3.y (ScriptB.velocity s) - 98 * INR n * delta /\
  Vector3.y (ScriptB.position (Nat.iter n (ScriptB.tick delta) s))
  = Vector3.y (ScriptB.position s)
    + INR n * delta * Vector3.y (ScriptB.velocity s)
    - 49 * delta * delta * INR n * (INR n + 1).
Proof. apply B_free_flight. Qed.

Lemma B_tick_no_clamp (delta : R) (s : ScriptB.State) :
  ~ Vector3.y (ScriptB.position (ScriptB.integrate delta s)) < ScriptB.currentHeight s ->
  ScriptB.tick delta s = ScriptB.integrate delta s.
Proof.
  intros N. unfold ScriptB.tick. apply B_floorCheck_untouched. exact N.
Qed.

(** The jump of the scenario: after two frames of 0.1 s the actor is
    still in the air. *)
Lemma B_scenario_two_frames :
  ScriptB.canJump
    (Nat.iter 2 (ScriptB.tick (1 / 10))
       (ScriptB.onKeyDown emptyWorld Space (scenario (Vector3.mk 1 0 0) 0 0)))
  = false.
Proof.
  set (s0 := ScriptB.onKeyDown emptyWorld Space (scenario (Vector3.mk 1 0 0) 0 0)).
  assert (Hr0 : Vector3.y (ScriptB.camRight s0) = 0) by reflexivity.
  assert (Hv0 : Vector3.y (ScriptB.velocity s0) = 15) by reflexivity.
  assert (Hy0 : Vector3.y (ScriptB.position s0) = 18 / 10) by reflexivity.
  assert (Hh0 : ScriptB.currentHeight s0 = 18 / 10) by reflexivity.
  assert (Hc0 : ScriptB.canJump s0 = false) by reflexivity.
  destruct (B_integrate_vertical (1 / 10) s0 Hr0) as (Ev1 & Ey1).
  rewrite Hv0 in Ev1. rewrite Hv0, Hy0 in Ey1.
  assert (E1 : ScriptB.tick (1 / 10) s0 = ScriptB.integrate (1 / 10) s0).
  { apply B_tick_no_clamp. rewrite Ey1, Hh0. lra. }
  set (s1 := ScriptB.integrate (1 / 10) s0) in *.
  assert (Hr1 : Vector3.y (ScriptB.camRight s1) = 0) by exact Hr0.
  assert (Hh1 : ScriptB.currentHeight s1 = 18 / 10) by exact Hh0.
  destruct (B_integrate_vertical (1 / 10) s1 Hr1) as (Ev2 & Ey2).
  rewrite Ev1 in Ev2. rewrite Ev1, Ey1 in Ey2.
  assert (E2 : ScriptB.tick (1 / 10) s1 = ScriptB.integrate (1 / 10) s1).
  { apply B_tick_no_clamp. rewrite Ey2, Hh1. lra. }
  simpl Nat.iter. rewrite E1, E2. exact Hc0.
Qed.

(** X4, witness: the jump of the scenario, two frames of 0.1 s. *)
Lemma X4_free_flight_witness :
  let s := ScriptB.onKeyDown emptyWorld Space (scenario (Vector3.mk 1 0 0) 0 0) in
  Vector3.y (ScriptB.camRight s) = 0 /\
  ScriptB.canJump (Nat.iter 2 (ScriptB.tick (1 / 10)) s) = false /\
  Vector3.y (ScriptB.position (Nat.iter 2 (ScriptB.tick (1 / 10)) s))
  = 18 / 10 + INR 2 * (1 / 10) * 15 - 49 * (1 / 10) * (1 / 10) * INR 2 * (INR 2 + 1).
Proof.
  cbv zeta.
  assert (Hr : Vector3.y (ScriptB.camRight
                 (ScriptB.onKeyDown emptyWorld Space (scenario (Vector3.mk 1 0 0) 0 0)))
               = 0) by reflexivity.
  split; [exact Hr|]. split; [exact B_scenario_two_frames|].
  destruct (X4_free_flight_closed_form (1 / 10) _ 2 Hr B_scenario_two_frames)
    as (_ & Hy).
  exact Hy.
Defined.

Lemma bool_first_switch (f : nat -> bool) (N : nat) :
  f 0%nat = false -> f N = true ->
  exists n : nat, (n < N)%nat /\ f n = false /\ f (S n) = true.
Proof.
  intros H0. induction N as [|N IH]; intros HN.
  - rewrite H0 in HN. discriminate HN.
  - destruct (f N) eqn:E.
    + destruct (IH eq_refl) as (n & Hlt & Hn & HSn).
      exists n. repeat split; [lia|exact Hn|exact HSn].
    + exists N. repeat split; [lia|exact E|exact HN].
Qed.

(** A parabola that opens downward falls below every level. *)
Lemma parabola_falls (y0 v0 c delta : R) :
  0 < delta ->
  exists N : nat,
    (1 <= N)%nat /\
    y0 + INR N * delta * v0 - 49 * delta * delta * INR N * (INR N + 1) < c.
Proof.
  intros Hd.
  set (A := Rabs v0). set (B := Rabs (y0 - c)). set (K := 49 * delta * delta).
  assert (HK : 0 < K) by (unfold K; nra).
  assert (HA : - A <= v0 <= A).
  { unfold A. split.
    - pose proof (Rle_abs (- v0)) as H. rewrite Rabs_Ropp in H. lra.
    - apply Rle_abs. }
  assert (HB : y0 - c <= B /\ 0 <= B).
  { unfold B. split; [apply Rle_abs|apply Rabs_pos]. }
  assert (HA0 : 0 <= A) by (unfold A; apply Rabs_pos).
  destruct (INR_unbounded (1 + (A * delta + B + 1) / K)) as (N & HN).
  apply Rgt_lt in HN.
  assert (Hq : 0 <= (A * delta + B + 1) / K).
  { apply Rmult_le_pos; [nra|]. apply Rlt_le, Rinv_0_lt_compat, HK. }
  assert (Hx1 : 1 < INR N) by lra.
  exists N. split.
  - destruct N as [|N]; [simpl in Hx1; lra|lia].
  - set (x := INR N) in *.
    assert (HKx : A * delta + B + 1 < K * x).
    { assert (H1 : (A * delta + B + 1) / K < x - 1) by lra.
      apply (Rmult_lt_compat_r K) in H1; [|exact HK].
      replace ((A * delta + B + 1) / K * K) with (A * delta + B + 1) in H1
        by (field; lra).
      nra. }
    assert (H2 : (A * delta + B + 1) * x <= K * x * x) by nra.
    assert (H3 : B + 1 <= (B + 1) * x) by nra.
    assert (Hxd : 0 <= x * delta) by nra.
    assert (H4 : x * delta * v0 <= x * delta * A)
      by (apply Rmult_le_compat_l; [exact Hxd|apply HA]).
    replace (49 * delta * delta * x * (x + 1)) with (K * x * x + K * x)
      by (unfold K; ring).
    nra.
Qed.

(** X5.  Second variant of script.js, camera without roll, frames of a
    fixed length [delta > 0], Space not pressed again: an actor in the air
    always lands.  Whatever its height and vertical velocity, there is a
    frame that turns [canJump] from false to true, and at the end of that
    frame the actor stands at the eye height with [velocity.y = 0]. *)
Theorem X5_every_flight_lands (delta : R) (s : ScriptB.State) :
  0 < delta ->
  Vector3.y (ScriptB.camRight s) = 0 ->
  ScriptB.canJump s = false ->
  exists n : nat,
    ScriptB.canJump (Nat.iter n (ScriptB.tick delta) s) = false /\
    ScriptB.canJump (Nat.iter (S n) (ScriptB.tick delta) s) = true /\
    Vector3.y (ScriptB.position (Nat.iter (S n) (ScriptB.tick delta) s))
    = ScriptB.currentHeight s /\
    Vector3.y (ScriptB.velocity (Nat.iter (S n) (ScriptB.tick delta) s)) = 0.
Proof.
  intros Hd Hr Hc.
  destruct (parabola_falls (Vector3.y (ScriptB.position s))
              (Vector3.y (ScriptB.velocity s)) (ScriptB.currentHeight s) delta Hd)
    as (N & HN1 & HNy).
  assert (HcN : ScriptB.canJump (Nat.iter N (ScriptB.tick delta) s) = true).
  { destruct (ScriptB.canJump (Nat.iter N (ScriptB.tick delta) s)) eqn:E;
      [reflexivity|exfalso].
    destruct (B_free_flight delta s N Hr E) as (_ & Ey).
    destruct N as [|N]; [lia|].
    pose proof (B_floorCheck_above
                  (ScriptB.integrate delta (Nat.iter N (ScriptB.tick delta) s)))
      as Habove.
    change (ScriptB.floorCheck
              (ScriptB.integrate delta (Nat.iter N (ScriptB.tick delta) s)))
      with (Nat.iter (S N) (ScriptB.tick delta) s) in Habove.
    assert (Hk : ScriptB.currentHeight (Nat.iter (S N) (ScriptB.tick delta) s)
                 = ScriptB.currentHeight s).
    { unfold ScriptB.currentHeight.
      destruct (B_iter_keeps delta s (S N)) as (_ & ->). reflexivity. }
    rewrite Hk, Ey in Habove. lra. }
  destruct (bool_first_switch
              (fun n => ScriptB.canJump (Nat.iter n (ScriptB.tick delta) s)) N Hc HcN)
    as (n & _ & Hn & HSn).
  exists n. split; [exact Hn|]. split; [exact HSn|].
  simpl Nat.iter in *.
  destruct (B_tick_lands delta _ Hn HSn) as (Hy & Hv).
  split; [|exact Hv].
  rewrite Hy. unfold ScriptB.currentHeight.
  destruct (B_tick_keeps delta (Nat.iter n (ScriptB.tick delta) s)) as (_ & -> & _).
  destruct (B_iter_keeps delta s n) as (_ & ->). reflexivity.
Qed.

(** X5, witness: the actor of the wall-jump examples, in the air at height
    5; frames of 0.1 s. *)
Lemma X5_every_flight_lands_witness :
  0 < 1 / 10 /\
  Vector3.y (ScriptB.camRight (B_airborne 5)) = 0 /\
  ScriptB.canJump (B_airborne 5) = false /\
  exists n : nat,
    ScriptB.canJump (Nat.iter (S n) (ScriptB.tick (1 / 10)) (B_airborne 5)) = true.
Proof.
  assert (Hd : 0 < 1 / 10) by lra.
  split; [exact Hd|]. split; [reflexivity|]. split; [reflexivity|].
  destruct (X5_every_flight_lands (1 / 10) (B_airborne 5) Hd eq_refl eq_refl)
    as (n & _ & H & _).
  exists n. exact H.
Defined.

(** ** Horizontal velocity under held keys (second variant of script.js) *)

Lemma B_floorCheck_keeps (s : ScriptB.State) :
  Vector3.x (ScriptB.velocity (ScriptB.floorCheck s)) = Vector3.x (ScriptB.velocity s) /\
  Vector3.z (ScriptB.velocity (ScriptB.floorCheck s)) = Vector3.z (ScriptB.velocity s) /\
  ScriptB.direction (ScriptB.floorCheck s) = ScriptB.direction s /\
  ScriptB.moveForward (ScriptB.floorCheck s) = ScriptB.moveForward s /\
  ScriptB.moveBackward (ScriptB.floorCheck s) = ScriptB.moveBackward s /\
  ScriptB.moveLeft (ScriptB.floorCheck s) = ScriptB.moveLeft s /\
  ScriptB.moveRight (ScriptB.floorCheck s) = ScriptB.moveRight s /\
  ScriptB.isSprinting (ScriptB.floorCheck s) = ScriptB.isSprinting s /\
  ScriptB.isCrouching (ScriptB.floorCheck s) = ScriptB.isCrouching s.
Proof.
  unfold ScriptB.floorCheck. destruct (Rlt_dec _ _); repeat split; reflexivity.
Qed.

Lemma B_tick_horizontal (delta : R) (s : ScriptB.State) :
  Vector3.y (ScriptB.direction s) = 0 ->
  Vector3.x (ScriptB.velocity (ScriptB.tick delta s)) - B_terminal s (Vector3.x (B_heading s))
  = (1 - 10 * delta)
    * (Vector3.x (ScriptB.velocity s) - B_terminal s (Vector3.x (B_heading s))) /\
  Vector3.z (ScriptB.velocity (ScriptB.tick delta s)) - B_terminal s (Vector3.z (B_heading s))
  = (1 - 10 * delta)
    * (Vector3.z (ScriptB.velocity s) - B_terminal s (Vector3.z (B_heading s))) /\
  ScriptB.direction (ScriptB.tick delta s) = B_heading s.
Proof.
  intros Hy.
  destruct (B_floorCheck_keeps (ScriptB.integrate delta s)) as (Ex & Ez & Ed & _).
  unfold ScriptB.tick. rewrite Ex, Ez, Ed. clear Ex Ez Ed.
  destruct s as [[px py pz] [rx ry rz] rot lk [vx vy vz] [dx dy dz] f b l r cj sp ck pt].
  simpl in Hy. subst dy.
  unfold B_terminal, B_actualSpeed, B_heading, intent.
  cbv [ScriptB.integrate ScriptB.velocity ScriptB.direction
       ScriptB.moveForward ScriptB.moveBackward ScriptB.moveLeft
       ScriptB.moveRight ScriptB.isSprinting ScriptB.isCrouching
       ScriptB.position ScriptB.camRight
       ScriptB.set_position ScriptB.set_velocity ScriptB.set_direction
       ScriptB.MOVEMENT_SPEED ScriptB.SPRINT_MULTIPLIER ScriptB.CROUCH_SPEED
       Vector3.set_x Vector3.set_y Vector3.set_z
       Vector3.normalize Vector3.divideScalar Vector3.multiplyScalar].
  destruct f, b, l, r, sp, ck;
    cbv [orb Number Vector3.x Vector3.y Vector3.z];
    repeat split; try (field; apply Rgt_not_eq, lengthOr1_pos).
Qed.

Lemma B_tick_inputs (delta : R) (s : ScriptB.State) :
  B_heading (ScriptB.tick delta s) = B_heading s /\
  B_actualSpeed (ScriptB.tick delta s) = B_actualSpeed s.
Proof.
  destruct (B_floorCheck_keeps (ScriptB.integrate delta s))
    as (_ & _ & _ & Hf & Hb & Hl & Hr & Hs & Hk).
  unfold B_heading, B_actualSpeed, ScriptB.tick.
  rewrite Hf, Hb, Hl, Hr, Hs, Hk. split; reflexivity.
Qed.

(** X6.  Second variant of script.js, [direction.y = 0] as after [init],
    keys, sprint and crouch held unchanged over [n] frames of length
    [delta]: each horizontal velocity component approaches the terminal
    value [-4 * actualSpeed * heading] geometrically, the distance to it
    being multiplied by [1 - 10 * delta] per frame.  The terminal value
    does not depend on [delta].  [actualSpeed] is 5 when crouching (also
    when sprinting), else 18 when sprinting, else 10. *)
Theorem X6_velocity_approaches_terminal (delta : R) (s : ScriptB.State) (n : nat) :
  Vector3.y (ScriptB.direction s) = 0 ->
  let sn := Nat.iter n (ScriptB.tick delta) s in
  Vector3.x (ScriptB.velocity sn) - B_terminal s (Vector3.x (B_heading s))
  = (1 - 10 * delta) ^ n
    * (Vector3.x (ScriptB.velocity s) - B_terminal s (Vector3.x (B_heading s))) /\
  Vector3.z (ScriptB.velocity sn) - B_terminal s (Vector3.z (B_heading s))
  = (1 - 10 * delta) ^ n
    * (Vector3.z (ScriptB.velocity s) - B_terminal s (Vector3.z (B_heading s))) /\
  (ScriptB.isCrouching s = true -> B_actualSpeed s = 5) /\
  (ScriptB.isCrouching s = false -> ScriptB.isSprinting s = true ->
   B_actualSpeed s = 18) /\
  (ScriptB.isCrouching s = false -> ScriptB.isSprinting s = false ->
   B_actualSpeed s = 10).
Proof.
  intros Hy. cbv zeta.
  assert (Hinv : Vector3.y (ScriptB.direction (Nat.iter n (ScriptB.tick delta) s)) = 0 /\
                 B_heading (Nat.iter n (ScriptB.tick delta) s) = B_heading s /\
                 B_actualSpeed (Nat.iter n (ScriptB.tick delta) s) = B_actualSpeed s /\
                 Vector3.x (ScriptB.velocity (Nat.iter n (ScriptB.tick delta) s))
                 - B_terminal s (Vector3.x (B_heading s))
                 = (1 - 10 * delta) ^ n
                   * (Vector3.x (ScriptB.velocity s)
                      - B_terminal s (Vector3.x (B_heading s))) /\
                 Vector3.z (ScriptB.velocity (Nat.iter n (ScriptB.tick delta) s))
                 - B_terminal s (Vector3.z (B_heading s))
                 = (1 - 10 * delta) ^ n
                   * (Vector3.z (ScriptB.velocity s)
                      - B_terminal s (Vector3.z (B_heading s)))).
  { induction n as [|n (IHy & IHh & IHs & IHx & IHz)].
    - simpl. repeat split; try reflexivity; try assumption; ring.
    - simpl Nat.iter. set (sn := Nat.iter n (ScriptB.tick delta) s) in *.
      destruct (B_tick_horizontal delta sn IHy) as (Hx & Hz & Hd).
      destruct (B_tick_inputs delta sn) as (Hh & Hs).
      assert (Ht : forall h, B_terminal sn h = B_terminal s h)
        by (intros h; unfold B_terminal; rewrite IHs; reflexivity).
      rewrite IHh in Hx, Hz. rewrite !Ht in Hx, Hz.
      repeat split.
      + rewrite Hd. unfold B_heading, Vector3.normalize, Vector3.divideScalar,
          Vector3.multiplyScalar, intent; simpl. ring.
      + rewrite Hh. exact IHh.
      + rewrite Hs. exact IHs.
      + rewrite Hx, IHx. simpl. ring.
      + rewrite Hz, IHz. simpl. ring. }
  destruct Hinv as (_ & _ & _ & Hx & Hz).
  split; [exact Hx|]. split; [exact Hz|].
  unfold B_actualSpeed, ScriptB.MOVEMENT_SPEED, ScriptB.SPRINT_MULTIPLIER,
    ScriptB.CROUCH_SPEED.
  repeat split.
  - intros ->. reflexivity.
  - intros -> ->. field.
  - intros -> ->. reflexivity.
Qed.

(** X6, witness: W held from rest, frames of 50 ms; the forward velocity
    is halfway to the terminal value -40 after one frame. *)
Lemma X6_velocity_witness :
  let s := ScriptB.onKeyDown emptyWorld KeyW (scenario (Vector3.mk 1 0 0) 0 0) in
  Vector3.y (ScriptB.direction s) = 0 /\
  Vector3.z (ScriptB.velocity (Nat.iter 1 (ScriptB.tick (1 / 20)) s))
  - B_terminal s (Vector3.z (B_heading s))
  = (1 - 10 * (1 / 20)) ^ 1
    * (Vector3.z (ScriptB.velocity s) - B_terminal s (Vector3.z (B_heading s))).
Proof.
  cbv zeta. split; [reflexivity|].
  apply (X6_velocity_approaches_terminal (1 / 20)
           (ScriptB.onKeyDown emptyWorld KeyW (scenario (Vector3.mk 1 0 0) 0 0)) 1).
  reflexivity.
Defined.

(** ** [canJump] is exact in script.js *)

Lemma B_wallJumpLoop_camRight (w : World) (s : ScriptB.State) (dirs : list Vec3) :
  ScriptB.camRight (fst (ScriptB.wallJumpLoop w s dirs)) = ScriptB.camRight s.
Proof.
  induction dirs as [|d dirs IH]; simpl.
  - reflexivity.
  - destruct (firstCloserThan _ _); simpl.
    + reflexivity.
    + destruct (ScriptB.wallJumpLoop w s dirs) as [s' rays]. exact IH.
Qed.

Lemma B_tick_grounded_exact (delta : R) (s : ScriptB.State) :
  B_grounded_exact s -> B_grounded_exact (ScriptB.tick delta s).
Proof.
  intros (Hr & Hg). unfold B_grounded_exact.
  destruct (B_tick_keeps delta s) as (Er & Ek & _).
  split; [rewrite Er; exact Hr|].
  intros Hc.
  destruct (ScriptB.canJump s) eqn:E.
  - destruct (Hg eq_refl) as (Hy & Hv).
    destruct (B_integrate_vertical delta s Hr) as (Iv & Iy).
    rewrite Hv, Hy in Iy. rewrite Hv in Iv.
    assert (Eh : ScriptB.currentHeight (ScriptB.tick delta s) = ScriptB.currentHeight s)
      by (unfold ScriptB.currentHeight; rewrite Ek; reflexivity).
    rewrite Eh.
    destruct (Rlt_dec (Vector3.y (ScriptB.position (ScriptB.integrate delta s)))
                (ScriptB.currentHeight s)) as [L|N].
    + destruct (B_floorCheck_clamped (ScriptB.integrate delta s) L) as (Cy & Cv & _).
      unfold ScriptB.tick. rewrite Cy, Cv. split; reflexivity.
    + rewrite (B_tick_no_clamp delta s N), Iy, Iv.
      rewrite Iy in N.
      assert (E0 : delta = 0) by nra. subst delta.
      split; ring.
  - apply (B_tick_lands delta s E Hc).
Qed.

Lemma B_step_grounded_exact (w : World) (e : ScriptB.Event) (s : ScriptB.State) :
  B_levelLook e -> B_grounded_exact s -> B_grounded_exact (ScriptB.step w e s).
Proof.
  intros Hl Hg. destruct e as [k|k|t|b|r a]; simpl.
  - destruct Hg as (Hr & Hg). unfold B_grounded_exact, ScriptB.currentHeight in *.
    destruct k; simpl; try (split; assumption).
    + destruct (ScriptB.canJump s) eqn:E; simpl.
      * split; [exact Hr|discriminate].
      * unfold ScriptB.checkWallJump.
        rewrite B_wallJumpLoop_camRight.
        destruct (B_wallJumpLoop_keeps w s ScriptB.directions) as (_ & _ & ->).
        split; [exact Hr|]. rewrite E. discriminate.
    + destruct (ScriptB.isCrouching s) eqn:E; simpl; rewrite ?E;
        [split; assumption|].
      split; [exact Hr|]. intros Hc. destruct (Hg Hc) as (Hy & Hv).
      split; [|exact Hv].
      rewrite Hy. unfold ScriptB.PLAYER_HEIGHT, ScriptB.CROUCH_HEIGHT. lra.
  - destruct Hg as (Hr & Hg). unfold B_grounded_exact, ScriptB.currentHeight in *.
    destruct k; simpl; try (split; assumption).
    destruct (ScriptB.isCrouching s) eqn:E; simpl; rewrite ?E;
      [|split; assumption].
    split; [exact Hr|]. intros Hc. destruct (Hg Hc) as (Hy & Hv).
    split; [|exact Hv].
    rewrite Hy. unfold ScriptB.PLAYER_HEIGHT, ScriptB.CROUCH_HEIGHT. lra.
  - unfold ScriptB.animate. destruct (ScriptB.isLocked s).
    + pose proof (B_tick_grounded_exact ((t - ScriptB.prevTime s) / 1000) s Hg) as H.
      exact H.
    + exact Hg.
  - exact Hg.
  - destruct Hg as (_ & Hg). split; [exact Hl|exact Hg].
Qed.

Lemma A_integrate_vertical (w : World) (delta : R) (s : ScriptA.State) :
  Vector3.y (ScriptA.camRight s) = 0 ->
  Vector3.y (ScriptA.velocity (ScriptA.integrate w delta s))
  = Vector3.y (ScriptA.velocity s) - ScriptA.GRAVITY * delta /\
  Vector3.y (ScriptA.position (ScriptA.integrate w delta s))
  = Vector3.y (ScriptA.position s)
    + (Vector3.y (ScriptA.velocity s) - ScriptA.GRAVITY * delta) * delta.
Proof.
  intros Hr.
  assert (Ha : Vector3.y (ScriptA.velocity (ScriptA.accelerate delta s))
               = Vector3.y (ScriptA.velocity s) - ScriptA.GRAVITY * delta /\
               ScriptA.position (ScriptA.accelerate delta s) = ScriptA.position s /\
               ScriptA.camRight (ScriptA.accelerate delta s) = ScriptA.camRight s).
  { unfold ScriptA.accelerate.
    destruct (ScriptA.moveForward s || ScriptA.moveBackward s),
             (ScriptA.moveLeft s || ScriptA.moveRight s); repeat split. }
  destruct Ha as (Hv & Hp & Hc).
  rewrite <- Hv, <- Hp. rewrite <- Hc in Hr.
  unfold ScriptA.integrate.
  generalize dependent (ScriptA.accelerate delta s). intros a Hr _ _ _.
  destruct a as [[px py pz] [rx ry rz] lk [vx vy vz] d f b l r cj sp pt].
  simpl in Hr. subst ry.
  unfold ScriptA.moveVertical, ScriptA.moveAxisZ, ScriptA.moveAxisX. cbv zeta.
  destruct (ScriptA.detectCollision _ _ _);
    cbv [ScriptA.set_velocity ScriptA.set_position ScriptA.position
         ScriptA.camRight ScriptA.velocity ScriptA.isLocked ScriptA.direction
         ScriptA.moveForward ScriptA.moveBackward ScriptA.moveLeft
         ScriptA.moveRight ScriptA.canJump ScriptA.isSprinting ScriptA.prevTime];
    destruct (ScriptA.detectCollision _ _ _); eval_A; split; ring.
Qed.

Lemma A_tick_grounded_exact (w : World) (delta : R) (s : ScriptA.State) :
  A_grounded_exact s -> A_grounded_exact (ScriptA.tick w delta s).
Proof.
  intros (Hr & Hg). unfold A_grounded_exact.
  assert (Er : ScriptA.camRight (ScriptA.tick w delta s) = ScriptA.camRight s).
  { unfold ScriptA.tick, ScriptA.floorCheck, ScriptA.integrate,
      ScriptA.moveVertical, ScriptA.moveAxisZ, ScriptA.moveAxisX. cbv zeta.
    destruct (Rlt_dec _ _); simpl;
      destruct (ScriptA.detectCollision _ _ _); simpl;
      destruct (ScriptA.detectCollision _ _ _); reflexivity. }
  split; [rewrite Er; exact Hr|].
  intros Hc.
  destruct (A_integrate_vertical w delta s Hr) as (Iv & Iy).
  destruct (Rlt_dec (Vector3.y (ScriptA.position (ScriptA.integrate w delta s)))
              ScriptA.PLAYER_HEIGHT) as [L|N].
  - destruct (A_floorCheck_clamped _ L) as (Cy & Cv & _).
    unfold ScriptA.tick. rewrite Cy, Cv. split; reflexivity.
  - unfold ScriptA.tick in *. rewrite (A_floorCheck_untouched _ N) in *.
    rewrite A_integrate_canJump in Hc.
    destruct (Hg Hc) as (Hy & Hv).
    rewrite Iy, Iv, Hy, Hv. rewrite Iy, Hy, Hv in N.
    unfold ScriptA.GRAVITY in *.
    assert (E0 : delta = 0) by nra. subst delta. split; ring.
Qed.

Lemma A_step_grounded_exact (w : World) (e : ScriptA.Event) (s : ScriptA.State) :
  A_levelLook e -> A_grounded_exact s -> A_grounded_exact (ScriptA.step w e s).
Proof.
  intros Hl Hg. destruct e as [k|k|t|b|r]; simpl.
  - destruct Hg as (Hr & Hg). unfold A_grounded_exact in *.
    destruct k; simpl; try (split; assumption).
    destruct (ScriptA.canJump s) eqn:E; simpl.
    + split; [exact Hr|discriminate].
    + split; [exact Hr|]. rewrite E. discriminate.
  - destruct Hg as (Hr & Hg). unfold A_grounded_exact in *.
    destruct k; simpl; split; assumption.
  - unfold ScriptA.animate. destruct (ScriptA.isLocked s).
    + exact (A_tick_grounded_exact w ((t - ScriptA.prevTime s) / 1000) s Hg).
    + exact Hg.
  - exact Hg.
  - destruct Hg as (_ & Hg). split; [exact Hl|exact Hg].
Qed.

(** X7.  Both variants of script.js, mouse look without roll: in every
    state reached from [init], [canJump] is true only when the actor
    stands exactly at the current eye height with [velocity.y = 0].  So a
    normal jump always starts from the floor, and in the air [canJump] is
    false. *)
Theorem X7_canJump_means_on_the_floor :
  (forall (w : World) (es : list ScriptA.Event) (right : Vec3) (locked : bool) (now : R),
     Vector3.y right = 0 -> Forall A_levelLook es ->
     let s := ScriptA.run w es (ScriptA.init right locked now) in
     ScriptA.canJump s = true ->
     Vector3.y (ScriptA.position s) = ScriptA.PLAYER_HEIGHT /\
     Vector3.y (ScriptA.velocity s) = 0) /\
  (forall (w : World) (es : list ScriptB.Event) (right : Vec3) (rotY : R)
          (locked : bool) (now : R),
     Vector3.y right = 0 -> Forall B_levelLook es ->
     let s := ScriptB.run w es (ScriptB.init right rotY locked now) in
     ScriptB.canJump s = true ->
     Vector3.y (ScriptB.position s) = ScriptB.currentHeight s /\
     Vector3.y (ScriptB.velocity s) = 0).
Proof.
  split.
  - intros w es right locked now Hr Hes. cbv zeta.
    assert (H : A_grounded_exact (ScriptA.run w es (ScriptA.init right locked now))).
    { unfold ScriptA.run.
      assert (H0 : A_grounded_exact (ScriptA.init right locked now)).
      { split; [exact Hr|]. simpl. discriminate. }
      revert H0. generalize (ScriptA.init right locked now).
      induction Hes as [|e es He _ IH]; intros s Hs; simpl.
      - exact Hs.
      - apply IH, A_step_grounded_exact; assumption. }
    apply H.
  - intros w es right rotY locked now Hr Hes. cbv zeta.
    assert (H : B_grounded_exact (ScriptB.run w es (ScriptB.init right rotY locked now))).
    { unfold ScriptB.run.
      assert (H0 : B_grounded_exact (ScriptB.init right rotY locked now)).
      { split; [exact Hr|]. simpl. discriminate. }
      revert H0. generalize (ScriptB.init right rotY locked now).
      induction Hes as [|e es He _ IH]; intros s Hs; simpl.
      - exact Hs.
      - apply IH, B_step_grounded_exact; assumption. }
    apply H.
Qed.

(** X7, witness: the first frame of the first variant of script.js,
    100 ms after [init], grounds the actor. *)
Lemma X7_canJump_witness :
  Vector3.y (Vector3.mk 1 0 0) = 0 /\
  Forall A_levelLook [ScriptA.Frame 100] /\
  ScriptA.canJump
    (ScriptA.run emptyWorld [ScriptA.Frame 100] (ScriptA.init (Vector3.mk 1 0 0) true 0))
  = true /\
  Vector3.y (ScriptA.position
               (ScriptA.run emptyWorld [ScriptA.Frame 100]
                  (ScriptA.init (Vector3.mk 1 0 0) true 0)))
  = ScriptA.PLAYER_HEIGHT.
Proof.
  assert (Hr : Vector3.y (Vector3.mk 1 0 0) = 0) by reflexivity.
  assert (Hl : Forall A_levelLook [ScriptA.Frame 100])
    by (constructor; [exact I|constructor]).
  assert (Hc : ScriptA.canJump
                 (ScriptA.run emptyWorld [ScriptA.Frame 100]
                    (ScriptA.init (Vector3.mk 1 0 0) true 0)) = true).
  { set (s0 := ScriptA.init (Vector3.mk 1 0 0) true 0).
    change (ScriptA.canJump
              (ScriptA.floorCheck
                 (ScriptA.integrate emptyWorld ((100 - 0) / 1000) s0)) = true).
    destruct (A_integrate_vertical emptyWorld ((100 - 0) / 1000) s0 eq_refl)
      as (_ & Ey).
    apply A_floorCheck_clamped. rewrite Ey.
    unfold s0, ScriptA.PLAYER_HEIGHT, ScriptA.GRAVITY.
    cbv [ScriptA.init ScriptA.position ScriptA.velocity Vector3.y Vector3.zero
         ScriptA.PLAYER_HEIGHT].
    lra. }
  split; [exact Hr|]. split; [exact Hl|]. split; [exact Hc|].
  destruct X7_canJump_means_on_the_floor as (HA & _).
  exact (proj1 (HA emptyWorld [ScriptA.Frame 100] (Vector3.mk 1 0 0) true 0 Hr Hl Hc)).
Defined.

(** ** Key handlers *)

(** X8.  Second variant of script.js, intersections reported nearest
    first: for a grounded actor with a wall in reach of one of the four
    rays, the first Space key-down grants the normal jump
    ([velocity.y = JUMP_FORCE = 15]) and a second Space key-down before the
    next frame, as keyboard auto-repeat sends it, grants the wall jump on
    top: [velocity.y] becomes [WALL_JUMP_FORCE_UP = 20], with the actor still
    at floor level. *)
Theorem X8_second_keydown_wall_jumps_from_floor (w : World) (s : ScriptB.State) :
  nearest_first w ->
  ScriptB.canJump s = true ->
  (exists ray d, In ray (wallRays s) /\ In d (w ray) /\ d < 2) ->
  let s1 := ScriptB.onKeyDown w Space s in
  let s2 := ScriptB.onKeyDown w Space s1 in
  Vector3.y (ScriptB.velocity s1) = 15 /\
  Vector3.y (ScriptB.velocity s2) = 20 /\
  ScriptB.position s2 = ScriptB.position s /\
  ScriptB.canJump s2 = false.
Proof.
  intros Hs Hc Hwall. cbv zeta.
  assert (E1 : ScriptB.onKeyDown w Space s
               = ScriptB.set_canJump
                   (ScriptB.set_velocity s
                      (Vector3.set_y (ScriptB.velocity s) ScriptB.JUMP_FORCE)) false).
  { simpl. rewrite Hc. reflexivity. }
  rewrite E1.
  set (s1 := ScriptB.set_canJump
               (ScriptB.set_velocity s
                  (Vector3.set_y (ScriptB.velocity s) ScriptB.JUMP_FORCE)) false).
  assert (Hc1 : ScriptB.canJump s1 = false) by reflexivity.
  assert (Hwall1 : exists ray d, In ray (wallRays s1) /\ In d (w ray) /\ d < 2)
    by exact Hwall.
  rewrite (wall_in_reach_jumps w s1 Hs Hc1 Hwall1).
  unfold ScriptB.JUMP_FORCE, ScriptB.WALL_JUMP_FORCE_UP.
  repeat split.
Qed.

(** X8, witness: the grounded actor of the scenario beside a wall that is
    in reach of every ray. *)
Lemma X8_second_keydown_witness :
  nearest_first wallEverywhere /\
  ScriptB.canJump (scenario (Vector3.mk 1 0 0) 0 0) = true /\
  (exists ray d,
     In ray (wallRays (scenario (Vector3.mk 1 0 0) 0 0)) /\
     In d (wallEverywhere ray) /\ d < 2) /\
  Vector3.y (ScriptB.velocity
               (ScriptB.onKeyDown wallEverywhere Space
                  (ScriptB.onKeyDown wallEverywhere Space
                     (scenario (Vector3.mk 1 0 0) 0 0)))) = 20.
Proof.
  assert (Hs : nearest_first wallEverywhere).
  { intros r. unfold wallEverywhere. repeat constructor. }
  assert (Hw : exists ray d,
             In ray (wallRays (scenario (Vector3.mk 1 0 0) 0 0)) /\
             In d (wallEverywhere ray) /\ d < 2).
  { exists (wallRay (scenario (Vector3.mk 1 0 0) 0 0) (Vector3.mk 1 0 0)), 1.
    split; [left; reflexivity|]. split; [left; reflexivity|lra]. }
  split; [exact Hs|]. split; [reflexivity|]. split; [exact Hw|].
  destruct (X8_second_keydown_wall_jumps_from_floor wallEverywhere
              (scenario (Vector3.mk 1 0 0) 0 0) Hs eq_refl Hw) as (_ & H & _).
  exact H.
Defined.

(** X9.  The key handlers of the first variant of script.js and of game.js
    are idempotent and last-write-wins: a repeated key-down or key-up
    changes nothing more, a key-down after a key-up of the same key is the
    key-down alone, and for every key but Space a key-up after a key-down
    is the key-up alone.  In particular pressing and releasing a key whose
    flag was clear gives back the state (in game.js, for ControlLeft, when
    the camera was at [NORMAL_HEIGHT]). *)
Theorem X9_key_handlers_last_write_wins :
  (forall (k : Key) (s : ScriptA.State),
     ScriptA.onKeyDown k (ScriptA.onKeyDown k s) = ScriptA.onKeyDown k s /\
     ScriptA.onKeyUp k (ScriptA.onKeyUp k s) = ScriptA.onKeyUp k s /\
     ScriptA.onKeyDown k (ScriptA.onKeyUp k s) = ScriptA.onKeyDown k s /\
     (k <> Space ->
      ScriptA.onKeyUp k (ScriptA.onKeyDown k s) = ScriptA.onKeyUp k s) /\
     (A_flag k s = Some false ->
      ScriptA.onKeyUp k (ScriptA.onKeyDown k s) = s)) /\
  (forall (k : Key) (s : Game.State),
     Game.onKeyDown k (Game.onKeyDown k s) = Game.onKeyDown k s /\
     Game.onKeyUp k (Game.onKeyUp k s) = Game.onKeyUp k s /\
     Game.onKeyDown k (Game.onKeyUp k s) = Game.onKeyDown k s /\
     (k <> Space ->
      Game.onKeyUp k (Game.onKeyDown k s) = Game.onKeyUp k s) /\
     (G_flag k s = Some false ->
      (k = ControlLeft -> Vector3.y (Game.position s) = Game.NORMAL_HEIGHT) ->
      Game.onKeyUp k (Game.onKeyDown k s) = s)).
Proof.
  split.
  - intros k s.
    destruct s as [p cr lk v d f b l r cj sp pt].
    repeat split.
    + destruct k; simpl; try reflexivity. destruct cj; reflexivity.
    + destruct k; reflexivity.
    + destruct k; reflexivity.
    + intros Hk. destruct k; try reflexivity. exfalso. apply Hk. reflexivity.
    + intros Hf. destruct k; simpl in Hf; try discriminate Hf;
        injection Hf as ->; reflexivity.
  - intros k s.
    destruct s as [[px py pz] wd v d f b l r cj sp ck].
    repeat split.
    + destruct k; simpl; try reflexivity. destruct cj; reflexivity.
    + destruct k; reflexivity.
    + destruct k; reflexivity.
    + intros Hk. destruct k; try reflexivity. exfalso. apply Hk. reflexivity.
    + intros Hf Hy. destruct k; simpl in Hf; try discriminate Hf;
        injection Hf as ->; try reflexivity.
      simpl in Hy. specialize (Hy eq_refl). subst py. reflexivity.
Qed.

(** X9, witness: D pressed and released after [init] in the first variant
    of script.js. *)
Lemma X9_key_handlers_witness :
  KeyD <> Space /\
  A_flag KeyD (ScriptA.init (Vector3.mk 1 0 0) true 0) = Some false /\
  ScriptA.onKeyUp KeyD (ScriptA.onKeyDown KeyD (ScriptA.init (Vector3.mk 1 0 0) true 0))
  = ScriptA.init (Vector3.mk 1 0 0) true 0.
Proof.
  split; [discriminate|]. split; [reflexivity|].
  destruct X9_key_handlers_last_write_wins as (HA & _).
  destruct (HA KeyD (ScriptA.init (Vector3.mk 1 0 0) true 0)) as (_ & _ & _ & _ & H).
  apply H. reflexivity.
Defined.

(** ** game.js: the HUD *)

Lemma G_integrate_unfold (w : World) (delta : R) (s : Game.State) :
  Game.integrate w delta s
  = fst (Game.checkCollisions w
           (Game.moveVertical delta
              (Game.moveHorizontal w delta
                 (Game.inputDirection (Game.applyGravity delta s))))).
Proof.
  unfold Game.integrate. destruct (Game.checkCollisions _ _). reflexivity.
Qed.

Lemma G_checkCollisions_velocity_xz (w : World) (s : Game.State) :
  Vector3.x (Game.velocity (fst (Game.checkCollisions w s)))
  = Vector3.x (Game.velocity s) /\
  Vector3.z (Game.velocity (fst (Game.checkCollisions w s)))
  = Vector3.z (Game.velocity s).
Proof.
  unfold Game.checkCollisions. destruct (firstCloserThan _ _); simpl.
  - destruct (Rlt_dec _ _); split; reflexivity.
  - split; reflexivity.
Qed.

Lemma G_moveHorizontal_velocity (w : World) (delta : R) (s : Game.State) :
  Game.velocity (Game.moveHorizontal w delta s) = Game.velocity s.
Proof.
  unfold Game.moveHorizontal.
  destruct (Rlt_dec _ _); [destruct (negb _)|]; reflexivity.
Qed.

Lemma G_animate_velocity_xz (w : World) (delta : R) (s : Game.State) :
  Vector3.x (Game.velocity (Game.animate w delta s)) = Vector3.x (Game.velocity s) /\
  Vector3.z (Game.velocity (Game.animate w delta s)) = Vector3.z (Game.velocity s).
Proof.
  assert (Hf : forall t : Game.State,
             Vector3.x (Game.velocity (Game.floorCheck t)) = Vector3.x (Game.velocity t) /\
             Vector3.z (Game.velocity (Game.floorCheck t)) = Vector3.z (Game.velocity t)).
  { intros t. unfold Game.floorCheck. destruct (Rlt_dec _ _); split; reflexivity. }
  unfold Game.animate.
  destruct (Hf (Game.integrate w delta s)) as (-> & ->).
  rewrite G_integrate_unfold.
  destruct (G_checkCollisions_velocity_xz w
              (Game.moveVertical delta
                 (Game.moveHorizontal w delta
                    (Game.inputDirection (Game.applyGravity delta s)))))
    as (-> & ->).
  change (Game.velocity (Game.moveVertical delta ?t)) with (Game.velocity t).
  rewrite G_moveHorizontal_velocity. split; reflexivity.
Qed.

Lemma G_step_velocity_xz (w : World) (e : Game.Event) (s : Game.State) :
  Vector3.x (Game.velocity (Game.step w e s)) = Vector3.x (Game.velocity s) /\
  Vector3.z (Game.velocity (Game.step w e s)) = Vector3.z (Game.velocity s).
Proof.
  destruct e as [k|k|t|d]; simpl.
  - destruct k; simpl; try (split; reflexivity).
    destruct (Game.canJump s); split; reflexivity.
  - destruct k; split; reflexivity.
  - apply G_animate_velocity_xz.
  - split; reflexivity.
Qed.

(** X11.  game.js never writes [velocity.x] or [velocity.z]: no key event
    and no frame changes them, so they are 0 in every state reached from
    [init], and the horizontal speed that [updateHUD] computes for the
    display is 0 whether the actor moves or not. *)
Theorem X11_hud_speed_is_always_zero :
  (forall (w : World) (e : Game.Event) (s : Game.State),
     Vector3.x (Game.velocity (Game.step w e s)) = Vector3.x (Game.velocity s) /\
     Vector3.z (Game.velocity (Game.step w e s)) = Vector3.z (Game.velocity s)) /\
  (forall (w : World) (es : list Game.Event) (worldDir : Vec3),
     let s := Game.run w es (Game.init worldDir) in
     Vector3.x (Game.velocity s) = 0 /\
     Vector3.z (Game.velocity s) = 0 /\
     Hud.currentSpeed s = 0).
Proof.
  split; [exact G_step_velocity_xz|].
  intros w es worldDir. cbv zeta.
  assert (H : Vector3.x (Game.velocity (Game.run w es (Game.init worldDir))) = 0 /\
              Vector3.z (Game.velocity (Game.run w es (Game.init worldDir))) = 0).
  { unfold Game.run.
    assert (H0 : Vector3.x (Game.velocity (Game.init worldDir)) = 0 /\
                 Vector3.z (Game.velocity (Game.init worldDir)) = 0)
      by (split; reflexivity).
    revert H0. generalize (Game.init worldDir).
    induction es as [|e es IH]; intros s (Hx & Hz); simpl.
    - split; assumption.
    - apply IH. destruct (G_step_velocity_xz w e s) as (-> & ->).
      split; assumption. }
  destruct H as (Hx & Hz). split; [exact Hx|]. split; [exact Hz|].
  unfold Hud.currentSpeed. rewrite Hx, Hz.
  replace (0 * 0 + 0 * 0) with 0 by ring. apply sqrt_0.
Qed.

(** X12.  The state text of the HUD names the speed regime that [animate]
    applies: it starts with "Crouching" exactly when the speed of the frame
    is [CROUCH_SPEED], with "Sprinting" exactly when it is [SPRINT_SPEED]
    and with "Standing" exactly when it is [NORMAL_SPEED]; crouching wins
    over sprinting in both.  " (Airborne)" is appended exactly when
    [canJump] is false. *)
Theorem X12_hud_state_matches_speed (s : Game.State) :
  (String.prefix "Crouching" (Hud.stateText s) = true
   <-> Game.speedOf s = Game.CROUCH_SPEED) /\
  (String.prefix "Sprinting" (Hud.stateText s) = true
   <-> Game.speedOf s = Game.SPRINT_SPEED) /\
  (String.prefix "Standing" (Hud.stateText s) = true
   <-> Game.speedOf s = Game.NORMAL_SPEED) /\
  Hud.stateText s
  = String.append (Hud.stateText (Game.set_canJump s true))
      (if Game.canJump s then ""%string else " (Airborne)"%string).
Proof.
  destruct s as [p wd v d f b l r cj sp ck].
  unfold Hud.stateText, Game.speedOf, Game.CROUCH_SPEED, Game.SPRINT_SPEED,
    Game.NORMAL_SPEED.
  destruct cj, sp, ck; simpl;
    repeat split; intros H; try reflexivity; try discriminate H; exfalso; lra.
Qed.

(** ** game.js: mouse look *)

(** X14.  [onMouseMove] keeps the pitch within a quarter turn: whatever
    rotation is read from the camera and whatever the mouse movement
    (missing values count as 0), the pitch written back lies in
    [[-PI/2, PI/2]]; it is the pitch lowered by 0.002 per unit of
    [movementY] whenever that lies in the range, and the bound it
    overshoots otherwise.  The yaw is lowered by 0.002 per unit of
    [movementX] without bound, and the roll is not touched. *)
Theorem X14_mouse_look_clamps_pitch
    (movementX movementY : option R) (euler : MouseLook.Euler) :
  let e' := MouseLook.onMouseMove movementX movementY euler in
  let pitch := MouseLook.ex euler - MouseLook.orZero movementY * (2 / 1000) in
  - MouseLook.PI_2 <= MouseLook.ex e' <= MouseLook.PI_2 /\
  (- MouseLook.PI_2 <= pitch <= MouseLook.PI_2 -> MouseLook.ex e' = pitch) /\
  (MouseLook.PI_2 < pitch -> MouseLook.ex e' = MouseLook.PI_2) /\
  (pitch < - MouseLook.PI_2 -> MouseLook.ex e' = - MouseLook.PI_2) /\
  MouseLook.ey e' = MouseLook.ey euler - MouseLook.orZero movementX * (2 / 1000) /\
  MouseLook.ez e' = MouseLook.ez euler /\
  MouseLook.onMouseMove None None e' = e'.
Proof.
  cbv zeta.
  assert (Hpi : 0 < MouseLook.PI_2).
  { unfold MouseLook.PI_2. pose proof PI_RGT_0. lra. }
  unfold MouseLook.onMouseMove. simpl.
  set (pitch := MouseLook.ex euler - MouseLook.orZero movementY * (2 / 1000)).
  repeat apply conj.
  - unfold Rmax, Rmin. repeat destruct (Rle_dec _ _); lra.
  - unfold Rmax, Rmin. repeat destruct (Rle_dec _ _); lra.
  - intros H. unfold Rmax, Rmin. repeat destruct (Rle_dec _ _); lra.
  - intros H. unfold Rmax, Rmin. repeat destruct (Rle_dec _ _); lra.
  - intros H. unfold Rmax, Rmin. repeat destruct (Rle_dec _ _); lra.
  - reflexivity.
  - reflexivity.
  - f_equal.
    + unfold Rmax, Rmin. repeat destruct (Rle_dec _ _); lra.
    + ring.
Qed.

(** X14, witness: a large upward movement from the level view. *)
Lemma X14_mouse_look_witness :
  MouseLook.PI_2
  < MouseLook.ex (MouseLook.mkEuler 0 0 0) - MouseLook.orZero (Some (-2000)) * (2 / 1000) /\
  MouseLook.ex (MouseLook.onMouseMove None (Some (-2000)) (MouseLook.mkEuler 0 0 0))
  = MouseLook.PI_2.
Proof.
  assert (H : MouseLook.PI_2
              < MouseLook.ex (MouseLook.mkEuler 0 0 0)
                - MouseLook.orZero (Some (-2000)) * (2 / 1000)).
  { unfold MouseLook.PI_2. simpl. pose proof PI_4. lra. }
  split; [exact H|].
  destruct (X14_mouse_look_clamps_pitch None (Some (-2000)) (MouseLook.mkEuler 0 0 0))
    as (_ & _ & Hhigh & _).
  exact (Hhigh H).
Defined.

(** ** script.js, first variant: the collision ray *)

(** X15.  First variant of script.js: [detectCollision] is always handed
    the live camera position, which is also the origin of its ray, so the
    ray it casts has the zero vector for its direction, whatever the
    attempted move.  Hence in a world that reports no intersection for a
    ray without direction, no move is ever undone: each frame displaces
    the actor by [-velocity.x * delta] along the camera's right axis and by
    [-velocity.z * delta] along its forward axis, and keeps both velocity
    components. *)
Theorem X15_collision_ray_has_no_direction (w : World) (delta : R) (s : ScriptA.State) :
  ScriptA.detectCollision w s (ScriptA.position s)
  = nonEmpty (w (mkRay (ScriptA.position s) Vector3.zero 0 (Some ScriptA.PLAYER_RADIUS))) /\
  ((forall (o : Vec3) (n : R) (f : option R), w (mkRay o Vector3.zero n f) = []) ->
   let a := ScriptA.accelerate delta s in
   ScriptA.moveAxisX w delta a = A_movedX delta a /\
   ScriptA.moveAxisZ w delta (A_movedX delta a) = A_movedZ delta (A_movedX delta a) /\
   Vector3.x (ScriptA.velocity (ScriptA.tick w delta s)) = Vector3.x (ScriptA.velocity a) /\
   Vector3.z (ScriptA.velocity (ScriptA.tick w delta s)) = Vector3.z (ScriptA.velocity a) /\
   Vector3.x (ScriptA.position (ScriptA.tick w delta s))
   = Vector3.x (ScriptA.position s)
     + Vector3.x (ScriptA.camRight s) * (- Vector3.x (ScriptA.velocity a) * delta)
     + Vector3.x (Vector3.cross Vector3.up (ScriptA.camRight s))
       * (- Vector3.z (ScriptA.velocity a) * delta) /\
   Vector3.z (ScriptA.position (ScriptA.tick w delta s))
   = Vector3.z (ScriptA.position s)
     + Vector3.z (ScriptA.camRight s) * (- Vector3.x (ScriptA.velocity a) * delta)
     + Vector3.z (Vector3.cross Vector3.up (ScriptA.camRight s))
       * (- Vector3.z (ScriptA.velocity a) * delta)).
Proof.
  split; [apply A_detectCollision_ray|].
  intros Hw. cbv zeta.
  assert (Hfree : forall t : ScriptA.State,
             ScriptA.detectCollision w t (ScriptA.position t) = false).
  { intros t. rewrite A_detectCollision_ray, Hw. reflexivity. }
  assert (Ex : ScriptA.moveAxisX w delta (ScriptA.accelerate delta s)
               = A_movedX delta (ScriptA.accelerate delta s))
    by (apply A_moveAxisX_free, Hfree).
  assert (Ez : ScriptA.moveAxisZ w delta (A_movedX delta (ScriptA.accelerate delta s))
               = A_movedZ delta (A_movedX delta (ScriptA.accelerate delta s)))
    by (apply A_moveAxisZ_free, Hfree).
  split; [exact Ex|]. split; [exact Ez|].
  unfold ScriptA.tick, ScriptA.integrate.
  destruct (A_floorCheck_velocity_xz
              (ScriptA.moveVertical delta
                 (ScriptA.moveAxisZ w delta
                    (ScriptA.moveAxisX w delta (ScriptA.accelerate delta s)))))
    as (-> & ->).
  destruct (A_floorCheck_position_xz
              (ScriptA.moveVertical delta
                 (ScriptA.moveAxisZ w delta
                    (ScriptA.moveAxisX w delta (ScriptA.accelerate delta s)))))
    as (-> & ->).
  rewrite Ex, Ez.
  assert (Pa : ScriptA.position (ScriptA.accelerate delta s) = ScriptA.position s)
    by reflexivity.
  assert (Ca : ScriptA.camRight (ScriptA.accelerate delta s) = ScriptA.camRight s)
    by reflexivity.
  rewrite <- Pa, <- Ca.
  generalize (ScriptA.accelerate delta s). intros a.
  destruct a as [[px py pz] [rx ry rz] lk [vx vy vz] d f b l r cj sp pt].
  unfold A_movedZ, A_movedX, ScriptA.moveVertical. eval_A.
  repeat split; ring.
Qed.

(** X15, witness: a level without solids. *)
Lemma X15_collision_ray_witness :
  (forall (o : Vec3) (n : R) (f : option R), emptyWorld (mkRay o Vector3.zero n f) = []) /\
  Vector3.x (ScriptA.velocity (ScriptA.tick emptyWorld (1 / 10) A_diagonalFromRest))
  = Vector3.x (ScriptA.velocity (ScriptA.accelerate (1 / 10) A_diagonalFromRest)).
Proof.
  assert (H : forall (o : Vec3) (n : R) (f : option R),
             emptyWorld (mkRay o Vector3.zero n f) = [])
    by (intros; reflexivity).
  split; [exact H|].
  destruct (X15_collision_ray_has_no_direction emptyWorld (1 / 10) A_diagonalFromRest)
    as (_ & Hfree).
  destruct (Hfree H) as (_ & _ & Hx & _).
  exact Hx.
Defined.

(** ** game.js: the horizontal step and standing on a solid *)

Lemma recip_lengthOr1_sqr (v : Vec3) :
  0 < Vector3.lengthSq v ->
  (1 / Vector3.lengthOr1 v) * (1 / Vector3.lengthOr1 v) * Vector3.lengthSq v = 1.
Proof.
  intros H. rewrite <- (lengthOr1_sqr v H).
  pose proof (lengthOr1_pos v). field. lra.
Qed.

(** The movement vector in closed form, for a normalized input direction
    [(X t, 0 t, Z t)]. *)
Lemma G_moveVector_components (s : Game.State) (t speed delta : R) :
  let X := Number (Game.moveRight s) - Number (Game.moveLeft s) in
  let Z := Number (Game.moveForward s) - Number (Game.moveBackward s) in
  let fwdV := Vector3.set_y (Game.worldDirection s) 0 in
  let rightV := Vector3.set_y (Vector3.cross (Game.worldDirection s) Vector3.up) 0 in
  let u := 1 / Vector3.lengthOr1 fwdV in
  let u' := 1 / Vector3.lengthOr1 rightV in
  Game.moveVector s (Vector3.mk (X * t) (0 * t) (Z * t)) speed delta
  = Vector3.mk
      (Vector3.x fwdV * u * (Z * t * speed * delta)
       + Vector3.x rightV * u' * (X * t * speed * delta))
      0
      (Vector3.z fwdV * u * (Z * t * speed * delta)
       + Vector3.z rightV * u' * (X * t * speed * delta)).
Proof.
  cbv zeta. unfold Game.moveVector.
  destruct (Game.moveForward s), (Game.moveBackward s),
           (Game.moveLeft s), (Game.moveRight s);
    cbv [orb Number Vector3.normalize Vector3.divideScalar Vector3.multiplyScalar
         Vector3.add Vector3.zero Vector3.set_y Vector3.x Vector3.y Vector3.z];
    f_equal; ring.
Qed.

Lemma G_moveVector_y (s : Game.State) (d : Vec3) (speed delta : R) :
  Vector3.y (Game.moveVector s d speed delta) = 0.
Proof.
  unfold Game.moveVector.
  destruct (Game.moveForward s || Game.moveBackward s),
           (Game.moveLeft s || Game.moveRight s);
    cbv [Vector3.normalize Vector3.divideScalar Vector3.multiplyScalar
         Vector3.add Vector3.zero Vector3.set_y Vector3.x Vector3.y Vector3.z];
    ring.
Qed.

Lemma G_speedOf_pos (s : Game.State) : 0 < Game.speedOf s.
Proof.
  unfold Game.speedOf, Game.SPRINT_SPEED, Game.CROUCH_SPEED, Game.NORMAL_SPEED.
  destruct (Game.isSprinting s && negb (Game.isCrouching s));
    [|destruct (Game.isCrouching s)]; lra.
Qed.

Lemma G_moveVector_length (delta : R) (s : Game.State) :
  Vector3.x (Game.worldDirection s) <> 0 \/ Vector3.z (Game.worldDirection s) <> 0 ->
  Vector3.y (Game.direction s) = 0 ->
  Game.moveForward s <> Game.moveBackward s \/ Game.moveLeft s <> Game.moveRight s ->
  let s1 := Game.inputDirection (Game.applyGravity delta s) in
  Vector3.length (Game.moveVector s1 (Game.direction s1) (Game.speedOf s1) delta)
  = Game.speedOf s * Rabs delta.
Proof.
  intros Hwd Hdy Hkeys. cbv zeta.
  set (X := Number (Game.moveRight s) - Number (Game.moveLeft s)).
  set (Z := Number (Game.moveForward s) - Number (Game.moveBackward s)).
  set (iv := intent 0 (Game.moveForward s) (Game.moveBackward s)
               (Game.moveLeft s) (Game.moveRight s)).
  set (t := 1 / Vector3.lengthOr1 iv).
  assert (Hiv : 0 < Vector3.lengthSq iv).
  { pose proof (intent_unbalanced_nonzero _ _ _ _ Hkeys) as Hn. fold iv in Hn.
    pose proof (length_sqr iv) as Hs. pose proof (length_nonneg iv) as Hp.
    rewrite <- Hs. nra. }
  assert (Ht : t * t * (X * X + Z * Z) = 1).
  { pose proof (recip_lengthOr1_sqr iv Hiv) as H.
    unfold iv in H at 3. rewrite intent_lengthSq in H. exact H. }
  assert (Ed : Game.direction (Game.inputDirection (Game.applyGravity delta s))
               = Vector3.mk (X * t) (0 * t) (Z * t)).
  { unfold Game.inputDirection, Game.applyGravity; simpl.
    destruct (Game.direction s) as [dx dy dz]. simpl in Hdy. subst dy.
    reflexivity. }
  rewrite Ed.
  assert (Es : Game.speedOf (Game.inputDirection (Game.applyGravity delta s))
               = Game.speedOf s) by reflexivity.
  rewrite Es.
  pose proof (G_moveVector_components
                (Game.inputDirection (Game.applyGravity delta s)) t
                (Game.speedOf s) delta) as Emv.
  cbv zeta in Emv.
  change (Game.moveRight (Game.inputDirection (Game.applyGravity delta s)))
    with (Game.moveRight s) in Emv.
  change (Game.moveLeft (Game.inputDirection (Game.applyGravity delta s)))
    with (Game.moveLeft s) in Emv.
  change (Game.moveForward (Game.inputDirection (Game.applyGravity delta s)))
    with (Game.moveForward s) in Emv.
  change (Game.moveBackward (Game.inputDirection (Game.applyGravity delta s)))
    with (Game.moveBackward s) in Emv.
  change (Game.worldDirection (Game.inputDirection (Game.applyGravity delta s)))
    with (Game.worldDirection s) in Emv.
  fold X Z in Emv. rewrite Emv. clear Emv Ed Es.
  destruct (Game.worldDirection s) as [a wy c] eqn:Ewd. simpl in Hwd.
  set (fwdV := Vector3.set_y (Vector3.mk a wy c) 0).
  set (rightV := Vector3.set_y (Vector3.cross (Vector3.mk a wy c) Vector3.up) 0).
  assert (HC : 0 < a * a + c * c).
  { destruct Hwd as [H|H].
    - assert (0 < a * a) by (destruct (Rtotal_order a 0) as [L|[E|G]]; [nra|contradiction|nra]).
      nra.
    - assert (0 < c * c) by (destruct (Rtotal_order c 0) as [L|[E|G]]; [nra|contradiction|nra]).
      nra. }
  assert (Hf : Vector3.lengthSq fwdV = a * a + c * c)
    by (unfold fwdV, Vector3.lengthSq; simpl; ring).
  assert (Hr : Vector3.lengthSq rightV = a * a + c * c)
    by (unfold rightV, Vector3.lengthSq, Vector3.cross, Vector3.up; simpl; ring).
  assert (Hu : (1 / Vector3.lengthOr1 fwdV) * (1 / Vector3.lengthOr1 fwdV)
               * (a * a + c * c) = 1).
  { rewrite <- Hf. apply recip_lengthOr1_sqr. rewrite Hf. exact HC. }
  assert (Hu' : (1 / Vector3.lengthOr1 rightV) * (1 / Vector3.lengthOr1 rightV)
                * (a * a + c * c) = 1).
  { rewrite <- Hr. apply recip_lengthOr1_sqr. rewrite Hr. exact HC. }
  set (u := 1 / Vector3.lengthOr1 fwdV) in *.
  set (u' := 1 / Vector3.lengthOr1 rightV) in *.
  set (k := Game.speedOf s * delta).
  assert (Hsq : Vector3.lengthSq
                  (Vector3.mk
                     (Vector3.x fwdV * u * (Z * t * Game.speedOf s * delta)
                      + Vector3.x rightV * u' * (X * t * Game.speedOf s * delta))
                     0
                     (Vector3.z fwdV * u * (Z * t * Game.speedOf s * delta)
                      + Vector3.z rightV * u' * (X * t * Game.speedOf s * delta)))
                = k * k).
  { unfold Vector3.lengthSq, fwdV, rightV, Vector3.cross, Vector3.up; simpl.
    transitivity (k * k * (t * t) * (Z * Z * (u * u * (a * a + c * c))
                                     + X * X * (u' * u' * (a * a + c * c)))).
    - unfold k. ring.
    - rewrite Hu, Hu'.
      transitivity (k * k * (t * t * (X * X + Z * Z))); [ring|].
      rewrite Ht. ring. }
  unfold Vector3.length. rewrite Hsq.
  change (k * k) with (Rsqr k). rewrite sqrt_Rsqr_abs.
  unfold k. rewrite Rabs_mult.
  rewrite (Rabs_pos_eq (Game.speedOf s)); [reflexivity|].
  apply Rlt_le, G_speedOf_pos.
Qed.

Lemma G_moveHorizontal_position_y (w : World) (delta : R) (s : Game.State) :
  Vector3.y (Game.position (Game.moveHorizontal w delta s))
  = Vector3.y (Game.position s).
Proof.
  unfold Game.moveHorizontal.
  destruct (Rlt_dec _ _); [destruct (negb _)|]; try reflexivity.
  unfold Game.set_position, Vector3.add.
  cbv [Game.position Vector3.y].
  change (match Game.moveVector s (Game.direction s) (Game.speedOf s) delta with
          | Vector3.mk _ y _ => y end)
    with (Vector3.y (Game.moveVector s (Game.direction s) (Game.speedOf s) delta)).
  rewrite G_moveVector_y.
  destruct (Game.position s) as [px py pz]. ring.
Qed.

Lemma G_moveHorizontal_isCrouching (w : World) (delta : R) (s : Game.State) :
  Game.isCrouching (Game.moveHorizontal w delta s) = Game.isCrouching s.
Proof.
  unfold Game.moveHorizontal.
  destruct (Rlt_dec _ _); [destruct (negb _)|]; reflexivity.
Qed.

(** X10.  game.js, [animate] (lines 291-328), a frame with [delta <> 0]:
    with a directional key held and unbalanced, the camera not looking
    straight up or down, and the scratch vector [direction] with [y = 0]
    (as [init] leaves it), the movement vector of the frame is horizontal and its
    length is exactly the speed of the stance times [|delta|]: 5, 10 or 2.5
    units per second, with no diagonal boost, whatever the pitch of the
    camera.  If the wall ray along it finds nothing closer than 0.5 the
    actor is displaced by that vector; if it finds something the actor
    keeps its horizontal position. *)
Theorem X10_step_length_is_speed_times_delta
  (w : World) (delta : R) (s : Game.State) :
  Vector3.x (Game.worldDirection s) <> 0 \/ Vector3.z (Game.worldDirection s) <> 0 ->
  Vector3.y (Game.direction s) = 0 ->
  Game.moveForward s <> Game.moveBackward s \/ Game.moveLeft s <> Game.moveRight s ->
  delta <> 0 ->
  let mv := G_frameMove delta s in
  let blocked :=
    Game.checkWallCollision w s (Vector3.normalize mv) (5 / 10) in
  let s' := Game.animate w delta s in
  Vector3.length mv = Game.speedOf s * Rabs delta /\
  Vector3.y mv = 0 /\
  Vector3.x (Game.position s')
  = Vector3.x (Game.position s) + (if blocked then 0 else Vector3.x mv) /\
  Vector3.z (Game.position s')
  = Vector3.z (Game.position s) + (if blocked then 0 else Vector3.z mv).
Proof.
  intros Hwd Hdy Hkeys Hdelta mv blocked s'.
  pose proof (G_moveVector_length delta s Hwd Hdy Hkeys) as Hlen.
  cbv zeta in Hlen. fold (G_frameMove delta s) in Hlen. fold mv in Hlen.
  split; [exact Hlen|].
  split; [apply G_moveVector_y|].
  destruct (G_animate_position_xz w delta s) as [Ex Ez].
  unfold s'. rewrite Ex, Ez. clear Ex Ez.
  unfold Game.moveHorizontal.
  fold (G_frameMove delta s). fold mv.
  assert (Hpos : 0 < Vector3.length mv).
  { rewrite Hlen. apply Rmult_lt_0_compat; [apply G_speedOf_pos|].
    apply Rabs_pos_lt, Hdelta. }
  destruct (Rlt_dec 0 (Vector3.length mv)) as [_|N]; [|contradiction].
  change (Game.checkWallCollision w
            (Game.inputDirection (Game.applyGravity delta s))
            (Vector3.normalize mv) (5 / 10)) with blocked.
  destruct blocked; simpl.
  - split; ring.
  - destruct (Game.position s) as [px py pz]. simpl. split; reflexivity.
Qed.

Lemma X10_step_length_witness :
  Vector3.length (G_frameMove (1 / 10) besideWall) = 5 * Rabs (1 / 10).
Proof.
  assert (H1 : Vector3.x (Game.worldDirection besideWall) <> 0 \/
               Vector3.z (Game.worldDirection besideWall) <> 0)
    by (right; simpl; lra).
  assert (H2 : Vector3.y (Game.direction besideWall) = 0) by reflexivity.
  assert (H3 : Game.moveForward besideWall <> Game.moveBackward besideWall \/
               Game.moveLeft besideWall <> Game.moveRight besideWall)
    by (left; simpl; discriminate).
  assert (H4 : 1 / 10 <> 0) by lra.
  exact (proj1 (X10_step_length_is_speed_times_delta emptyWorld (1 / 10)
                  besideWall H1 H2 H3 H4)).
Defined.

(** X13.  game.js, [animate] and [checkCollisions] (lines 258-272, 286-340):
    an actor at vertical rest over a solid (the ground ray cast after the
    frame's move finds it closer than the eye height plus 0.1) and at
    least [GRAVITY * delta^2] above its eye height is told it stands
    ([canJump] true, [velocity.y] back to 0), yet the frame has already
    moved it down by the gravity of the frame: [position.y] is lower by
    exactly [GRAVITY * delta^2].  A solid above floor level does not
    carry the actor; it sinks a little every frame. *)
Theorem X13_solid_ground_does_not_hold
  (w : World) (delta : R) (s : Game.State) :
  0 < delta ->
  Vector3.y (Game.velocity s) = 0 ->
  G_solidBelow w (Game.position (G_afterMove w delta s)) s = true ->
  Game.currentHeight s + Game.GRAVITY * delta * delta
  <= Vector3.y (Game.position s) ->
  let s' := Game.animate w delta s in
  Game.canJump s' = true /\
  Vector3.y (Game.velocity s') = 0 /\
  Vector3.y (Game.position s')
  = Vector3.y (Game.position s) - Game.GRAVITY * delta * delta /\
  Vector3.y (Game.position s') < Vector3.y (Game.position s).
Proof.
  intros Hdelta Hv Hsolid Habove s'.
  unfold s', Game.animate. rewrite G_integrate_unfold.
  unfold G_solidBelow, G_afterMove in Hsolid.
  set (s1 := Game.inputDirection (Game.applyGravity delta s)) in *.
  pose proof (G_moveHorizontal_position_y w delta s1) as Hy.
  pose proof (G_moveHorizontal_velocity w delta s1) as Hvel.
  pose proof (G_moveHorizontal_isCrouching w delta s1) as Hcr.
  change (Vector3.y (Game.position s1)) with (Vector3.y (Game.position s)) in Hy.
  change (Game.isCrouching s1) with (Game.isCrouching s) in Hcr.
  change (Game.velocity s1)
    with (Vector3.set_y (Game.velocity s)
            (Vector3.y (Game.velocity s) - Game.GRAVITY * delta)) in Hvel.
  unfold Game.currentHeight in *.
  destruct (Game.velocity s) as [vx vy vz]. simpl in Hv. subst vy.
  destruct (Game.moveHorizontal w delta s1)
    as [[px py pz] wd v d f b l r cj sp cr].
  simpl in Hy, Hvel, Hcr.
  set (y0 := Vector3.y (Game.position s)) in *. clearbody y0.
  set (c0 := Game.isCrouching s) in *. clearbody c0.
  subst py v cr.
  unfold Game.checkCollisions.
  cbv [Game.moveVertical Game.set_position Game.position Game.velocity
       Game.isCrouching Vector3.set_y Vector3.y] in Hsolid |- *.
  rewrite Hsolid.
  assert (HG : 0 < Game.GRAVITY * delta * delta).
  { unfold Game.GRAVITY. nra. }
  assert (HGd : 0 < Game.GRAVITY * delta).
  { unfold Game.GRAVITY. nra. }
  cbv [Game.set_canJump Game.set_velocity Game.position Game.velocity
       Game.isCrouching Game.canJump Vector3.set_y Vector3.y Vector3.x Vector3.z
       Game.worldDirection Game.direction Game.moveForward Game.moveBackward
       Game.moveLeft Game.moveRight Game.isSprinting].
  destruct (Rlt_dec (0 - Game.GRAVITY * delta) 0) as [_|N]; [|exfalso; lra].
  unfold Game.floorCheck.
  cbv [fst Game.position Game.velocity Game.isCrouching Game.canJump
       Vector3.y].
  destruct (Rlt_dec _ _) as [L|_]; [exfalso; lra|].
  cbv [Game.position Game.velocity Game.canJump Vector3.y].
  repeat split; lra.
Qed.

Lemma X13_solid_ground_witness :
  Vector3.y (Game.position (Game.animate climbingBox (1 / 10) overTheBox))
  = 34 / 10 - Game.GRAVITY * (1 / 10) * (1 / 10).
Proof.
  assert (H1 : 0 < 1 / 10) by lra.
  assert (H2 : Vector3.y (Game.velocity overTheBox) = 0) by reflexivity.
  assert (H3 : G_solidBelow climbingBox
                 (Game.position (G_afterMove climbingBox (1 / 10) overTheBox))
                 overTheBox = true).
  { unfold G_solidBelow, G_afterMove, overTheBox. cbv [Game.moveHorizontal].
    assert (Hmv : Game.moveVector
                    (Game.inputDirection
                       (Game.applyGravity (1 / 10) overTheBox))
                    (Game.direction
                       (Game.inputDirection
                          (Game.applyGravity (1 / 10) overTheBox)))
                    (Game.speedOf
                       (Game.inputDirection
                          (Game.applyGravity (1 / 10) overTheBox)))
                    (1 / 10) = Vector3.zero) by reflexivity.
    unfold overTheBox in Hmv. rewrite Hmv, length_zero_vector.
    destruct (Rlt_dec 0 0) as [L|_]; [exfalso; lra|].
    unfold climbingBox, pointsDown, inRange. eval_G.
    settle_comparisons; cbv beta iota; eval_G; settle_comparisons;
      try reflexivity; lra. }
  assert (H4 : Game.currentHeight overTheBox
               + Game.GRAVITY * (1 / 10) * (1 / 10)
               <= Vector3.y (Game.position overTheBox)).
  { unfold Game.currentHeight, Game.GRAVITY, Game.NORMAL_HEIGHT; simpl. lra. }
  exact (proj1 (proj2 (proj2
           (X13_solid_ground_does_not_hold climbingBox (1 / 10) overTheBox
              H1 H2 H3 H4)))).
Defined.

(** ** C10: climbing a wall by repeated wall jumps *)

Lemma B_wallInReach_rays (w : World) (s : ScriptB.State) :
  B_wallInReach w (ScriptB.position s) (ScriptB.rotationY s) ->
  exists ray d, In ray (wallRays s) /\ In d (w ray) /\ d < 2.
Proof.
  unfold B_wallInReach. rewrite wallRays_yawRays. intros H. exact H.
Qed.

(** [checkWallJump] either leaves the state alone or grants the jump, and
    it grants it only on a ray that hits. *)
Lemma B_wallJumpLoop_cases (w : World) (s : ScriptB.State) (dirs : list Vec3) :
  fst (ScriptB.wallJumpLoop w s dirs) = s \/
  (fst (ScriptB.wallJumpLoop w s dirs) = wallJumped s /\
   exists dir, In dir dirs /\ wallHit w (wallRay s dir) = true).
Proof.
  induction dirs as [|d dirs IH].
  - left. reflexivity.
  - cbn [ScriptB.wallJumpLoop].
    fold (wallRay s d). fold (wallHit w (wallRay s d)).
    destruct (wallHit w (wallRay s d)) eqn:E.
    + right. split; [reflexivity|]. exists d. split; [left; reflexivity|exact E].
    + destruct (ScriptB.wallJumpLoop w s dirs) as [s' rays]. simpl in *.
      destruct IH as [->|(-> & dir & Hin & Hh)].
      * left. reflexivity.
      * right. split; [reflexivity|]. exists dir.
        split; [right; exact Hin|exact Hh].
Qed.

(** The three outcomes of a Space key-down. *)
Lemma B_press_cases (w : World) (s : ScriptB.State) :
  (ScriptB.canJump s = true /\
   ScriptB.onKeyDown w Space s
   = ScriptB.set_canJump
       (ScriptB.set_velocity s
          (Vector3.set_y (ScriptB.velocity s) ScriptB.JUMP_FORCE)) false) \/
  (ScriptB.canJump s = false /\ ScriptB.onKeyDown w Space s = s) \/
  (ScriptB.canJump s = false /\ ScriptB.onKeyDown w Space s = wallJumped s /\
   exists dir, In dir ScriptB.directions /\ wallHit w (wallRay s dir) = true).
Proof.
  cbn [ScriptB.onKeyDown]. destruct (ScriptB.canJump s) eqn:Hc.
  - left. split; reflexivity.
  - right. unfold ScriptB.checkWallJump.
    destruct (B_wallJumpLoop_cases w s ScriptB.directions) as [E|(E & Hex)].
    + left. split; [reflexivity|exact E].
    + right. split; [reflexivity|]. split; [exact E|exact Hex].
Qed.

Lemma B_integrate_horizontalRest (delta : R) (s : ScriptB.State) :
  B_horizontalRest s ->
  B_horizontalRest (ScriptB.integrate delta s) /\
  Vector3.x (ScriptB.position (ScriptB.integrate delta s))
  = Vector3.x (ScriptB.position s) /\
  Vector3.z (ScriptB.position (ScriptB.integrate delta s))
  = Vector3.z (ScriptB.position s) /\
  ScriptB.rotationY (ScriptB.integrate delta s) = ScriptB.rotationY s.
Proof.
  destruct s as [[px py pz] [rx ry rz] rot lk [vx vy vz] d f b l r cj sp ck pt].
  unfold B_horizontalRest. cbn [ScriptB.velocity ScriptB.moveForward
    ScriptB.moveBackward ScriptB.moveLeft ScriptB.moveRight Vector3.x Vector3.z].
  intros (-> & -> & -> & -> & -> & ->).
  eval_B. repeat split; ring.
Qed.

Lemma B_floorCheck_column (s : ScriptB.State) :
  Vector3.x (ScriptB.position (ScriptB.floorCheck s)) = Vector3.x (ScriptB.position s) /\
  Vector3.z (ScriptB.position (ScriptB.floorCheck s)) = Vector3.z (ScriptB.position s) /\
  ScriptB.rotationY (ScriptB.floorCheck s) = ScriptB.rotationY s.
Proof.
  unfold ScriptB.floorCheck. destruct (Rlt_dec _ _); repeat split; reflexivity.
Qed.

(** At horizontal rest a press and a frame keep the actor in its column,
    with the same [rotation.y]. *)
Lemma B_pressAndFrame_column (w : World) (delta : R) (s : ScriptB.State) :
  B_horizontalRest s ->
  B_horizontalRest (pressAndFrame w delta s) /\
  Vector3.x (ScriptB.position (pressAndFrame w delta s))
  = Vector3.x (ScriptB.position s) /\
  Vector3.z (ScriptB.position (pressAndFrame w delta s))
  = Vector3.z (ScriptB.position s) /\
  ScriptB.rotationY (pressAndFrame w delta s) = ScriptB.rotationY s.
Proof.
  intros Hs. unfold pressAndFrame.
  assert (Hp : B_horizontalRest (ScriptB.onKeyDown w Space s) /\
               ScriptB.position (ScriptB.onKeyDown w Space s) = ScriptB.position s /\
               ScriptB.rotationY (ScriptB.onKeyDown w Space s) = ScriptB.rotationY s).
  { destruct (B_press_cases w s) as [(_ & ->)|[(_ & ->)|(_ & -> & _)]];
      repeat split; try reflexivity; try exact Hs; apply Hs. }
  destruct Hp as (Hr & Ep & Ey).
  generalize dependent (ScriptB.onKeyDown w Space s). intros s1 Hr Ep Ey.
  destruct (B_integrate_horizontalRest delta s1 Hr) as (Hi & Ex & Ez & Eq).
  unfold ScriptB.tick.
  destruct (B_floorCheck_column (ScriptB.integrate delta s1)) as (-> & -> & ->).
  destruct (B_floorCheck_keeps (ScriptB.integrate delta s1))
    as (Fx & Fz & _ & Ff & Fb & Fl & Fr & _).
  rewrite Ex, Ez, Eq, Ep, Ey.
  split; [|repeat split; reflexivity].
  unfold B_horizontalRest. rewrite Fx, Fz, Ff, Fb, Fl, Fr. exact Hi.
Qed.

Lemma B_iter_column (w : World) (delta : R) (s : ScriptB.State) (n : nat) :
  B_horizontalRest s ->
  B_horizontalRest (Nat.iter n (pressAndFrame w delta) s) /\
  Vector3.x (ScriptB.position (Nat.iter n (pressAndFrame w delta) s))
  = Vector3.x (ScriptB.position s) /\
  Vector3.z (ScriptB.position (Nat.iter n (pressAndFrame w delta) s))
  = Vector3.z (ScriptB.position s) /\
  ScriptB.rotationY (Nat.iter n (pressAndFrame w delta) s) = ScriptB.rotationY s.
Proof.
  intros Hs. induction n as [|n (Hr & Ex & Ez & Ey)].
  - repeat split; try reflexivity; apply Hs.
  - simpl Nat.iter.
    destruct (B_pressAndFrame_column w delta _ Hr) as (Hr' & -> & -> & ->).
    repeat split; try assumption; apply Hr'.
Qed.

(** Presses, one per frame of 0.1 s, while a wall is in reach at each of
    them: every frame lifts the actor by 1.02. *)
Lemma B_climb_while_in_reach (w : World) (s : ScriptB.State) (n : nat) :
  nearest_first w ->
  ScriptB.canJump s = false ->
  Vector3.y (ScriptB.camRight s) = 0 ->
  ScriptB.currentHeight s <= Vector3.y (ScriptB.position s) ->
  (forall k : nat, (k < n)%nat ->
     let sk := Nat.iter k (pressAndFrame w (1 / 10)) s in
     B_wallInReach w (ScriptB.position sk) (ScriptB.rotationY sk)) ->
  let sn := Nat.iter n (pressAndFrame w (1 / 10)) s in
  ScriptB.canJump sn = false /\
  Vector3.y (ScriptB.camRight sn) = 0 /\
  ScriptB.currentHeight sn <= Vector3.y (ScriptB.position sn) /\
  ScriptB.currentHeight sn = ScriptB.currentHeight s /\
  Vector3.y (ScriptB.position sn)
  = Vector3.y (ScriptB.position s) + INR n * (102 / 100).
Proof.
  intros Hs Hc Hr Hh. induction n as [|n IH]; intros Hreach.
  - simpl. repeat split; try assumption; try lra.
  - assert (Hlow : forall k : nat, (k < n)%nat ->
               let sk := Nat.iter k (pressAndFrame w (1 / 10)) s in
               B_wallInReach w (ScriptB.position sk) (ScriptB.rotationY sk))
      by (intros k Hk; apply Hreach; lia).
    specialize (IH Hlow). cbv zeta in IH |- *.
    destruct IH as (Ic & Ir & Ih & Ik & Iy).
    assert (Hn : B_wallInReach w
                   (ScriptB.position (Nat.iter n (pressAndFrame w (1 / 10)) s))
                   (ScriptB.rotationY (Nat.iter n (pressAndFrame w (1 / 10)) s)))
      by (apply (Hreach n); lia).
    simpl Nat.iter.
    set (sn := Nat.iter n (pressAndFrame w (1 / 10)) s) in *.
    unfold pressAndFrame.
    rewrite (wall_in_reach_jumps w sn Hs Ic (B_wallInReach_rays w sn Hn)).
    destruct (wallJumped_frame _ Ir Ih) as (Fc & Fr & Fk & Fy).
    assert (Ek : ScriptB.currentHeight (ScriptB.tick (1 / 10) (wallJumped sn))
                 = ScriptB.currentHeight s).
    { unfold ScriptB.currentHeight in *. rewrite Fk. exact Ik. }
    rewrite S_INR.
    repeat split.
    + rewrite Fc. exact Ic.
    + rewrite Fr. exact Ir.
    + rewrite Ek, Fy. rewrite Ik in Ih. lra.
    + exact Ek.
    + rewrite Fy, Iy. ring.
Qed.

(** Beside a wall that is in reach at every height of the actor's column,
    it is in reach at every press. *)
Lemma B_column_reach (w : World) (s : ScriptB.State) :
  nearest_first w ->
  ScriptB.canJump s = false ->
  Vector3.y (ScriptB.camRight s) = 0 ->
  ScriptB.currentHeight s <= Vector3.y (ScriptB.position s) ->
  B_horizontalRest s ->
  (forall y : R,
     Vector3.y (ScriptB.position s) <= y ->
     B_wallInReach w
       (Vector3.mk (Vector3.x (ScriptB.position s)) y (Vector3.z (ScriptB.position s)))
       (ScriptB.rotationY s)) ->
  forall n k : nat, (k < n)%nat ->
    let sk := Nat.iter k (pressAndFrame w (1 / 10)) s in
    B_wallInReach w (ScriptB.position sk) (ScriptB.rotationY sk).
Proof.
  intros Hs Hc Hr Hh Hrest Hcol. induction n as [|n IH]; intros k Hk.
  - lia.
  - destruct (Nat.eq_dec k n) as [->|Hne]; [|apply IH; lia].
    cbv zeta.
    destruct (B_climb_while_in_reach w s n Hs Hc Hr Hh IH) as (_ & _ & _ & _ & Ey).
    destruct (B_iter_column w (1 / 10) s n Hrest) as (_ & Ex & Ez & Eq).
    rewrite Eq.
    assert (Ep : ScriptB.position (Nat.iter n (pressAndFrame w (1 / 10)) s)
                 = Vector3.mk (Vector3.x (ScriptB.position s))
                     (Vector3.y (ScriptB.position s) + INR n * (102 / 100))
                     (Vector3.z (ScriptB.position s))).
    { destruct (ScriptB.position (Nat.iter n (pressAndFrame w (1 / 10)) s))
        as [qx qy qz].
      simpl in Ex, Ez, Ey. rewrite Ex, Ez, Ey. reflexivity. }
    rewrite Ep. apply Hcol.
    pose proof (pos_INR n). lra.
Qed.

Lemma nearest_first_faceX (x0 : R) (facesWest : bool) (ylo yhi zlo zhi : R) :
  nearest_first (faceX x0 facesWest ylo yhi zlo zhi).
Proof.
  intros r. unfold faceX.
  destruct (if facesWest then _ else _); [|constructor].
  destruct (_ && _); repeat constructor.
Qed.

(** A horizontal ray meets a face only at the height of its origin. *)
Lemma faceX_hit_height (x0 : R) (facesWest : bool) (ylo yhi zlo zhi : R)
    (r : Raycaster) :
  Vector3.y (rayDirection r) = 0 ->
  wallHit (faceX x0 facesWest ylo yhi zlo zhi) r = true ->
  ylo <= Vector3.y (origin r) <= yhi.
Proof.
  intros Hy. unfold wallHit, faceX. rewrite Hy.
  destruct (if facesWest then _ else _); [|discriminate].
  destruct (Rle_dec 0 _); [|discriminate].
  unfold inRange at 1.
  destruct (Rle_dec ylo _) as [A|]; [|discriminate].
  destruct (Rle_dec _ yhi) as [B|]; [|discriminate].
  intros _. split; lra.
Qed.

Lemma B_apex_above (s : ScriptB.State) :
  Vector3.y (ScriptB.position s) <= B_apex s.
Proof.
  unfold B_apex. destruct (Rlt_dec 0 _) as [L|N]; [|lra].
  assert (0 <= Vector3.y (ScriptB.velocity s) * Vector3.y (ScriptB.velocity s) / 196)
    by nra.
  lra.
Qed.

(** Free flight never raises the height the actor can still reach. *)
Lemma B_apex_integrate (delta : R) (s : ScriptB.State) :
  Vector3.y (ScriptB.camRight s) = 0 -> 0 <= delta ->
  B_apex (ScriptB.integrate delta s) <= B_apex s.
Proof.
  intros Hr Hd. unfold B_apex.
  destruct (B_integrate_vertical delta s Hr) as (-> & ->).
  set (v := Vector3.y (ScriptB.velocity s)).
  set (y := Vector3.y (ScriptB.position s)).
  destruct (Rlt_dec 0 (v - 98 * delta)) as [L|N];
    destruct (Rlt_dec 0 v) as [L'|N']; nra.
Qed.

Lemma B_apex_tick (delta bound : R) (s : ScriptB.State) :
  Vector3.y (ScriptB.camRight s) = 0 -> 0 <= delta ->
  18 / 10 <= bound ->
  B_apex s <= bound -> B_apex (ScriptB.tick delta s) <= bound.
Proof.
  intros Hr Hd Hb Ha. unfold ScriptB.tick.
  pose proof (B_apex_integrate delta s Hr Hd) as Hi.
  set (s1 := ScriptB.integrate delta s) in *.
  destruct (Rlt_dec (Vector3.y (ScriptB.position s1)) (ScriptB.currentHeight s1))
    as [L|N].
  - destruct (B_floorCheck_clamped s1 L) as (Ey & Ev & _).
    unfold B_apex. rewrite Ey, Ev.
    destruct (Rlt_dec 0 0) as [F|_]; [exfalso; lra|].
    unfold ScriptB.currentHeight, ScriptB.CROUCH_HEIGHT, ScriptB.PLAYER_HEIGHT.
    destruct (ScriptB.isCrouching s1); lra.
  - rewrite (B_floorCheck_untouched s1 N). lra.
Qed.

(** Beside the large wall, whatever the actor's column and facing: a
    press leaves the reachable height below the top of the wall plus the
    rise of one wall jump. *)
Lemma B_apex_press (s : ScriptB.State) :
  B_grounded_exact s ->
  B_apex s <= 10 + 400 / 196 ->
  B_apex (ScriptB.onKeyDown largeWallWest Space s) <= 10 + 400 / 196.
Proof.
  intros (_ & Hg) Ha.
  destruct (B_press_cases largeWallWest s)
    as [(Hc & ->)|[(_ & ->)|(_ & -> & dir & Hin & Hhit)]].
  - destruct (Hg Hc) as (Ey & _).
    assert (Hh : ScriptB.currentHeight s <= 18 / 10).
    { unfold ScriptB.currentHeight, ScriptB.CROUCH_HEIGHT, ScriptB.PLAYER_HEIGHT.
      destruct (ScriptB.isCrouching s); lra. }
    unfold B_apex.
    cbn [ScriptB.position ScriptB.velocity ScriptB.set_canJump ScriptB.set_velocity
         Vector3.set_y Vector3.y].
    rewrite Ey. unfold ScriptB.JUMP_FORCE.
    destruct (Rlt_dec 0 15) as [_|N]; [lra|exfalso; lra].
  - exact Ha.
  - assert (Hy : Vector3.y (rayDirection (wallRay s dir)) = 0).
    { unfold ScriptB.directions in Hin.
      destruct Hin as [<-|[<-|[<-|[<-|[]]]]]; reflexivity. }
    pose proof (faceX_hit_height 9 true 0 10 (-10) 10 (wallRay s dir) Hy Hhit) as Hq.
    change (origin (wallRay s dir)) with (ScriptB.position s) in Hq.
    unfold B_apex, wallJumped.
    cbn [ScriptB.position ScriptB.velocity ScriptB.set_velocity
         Vector3.set_y Vector3.y].
    unfold ScriptB.WALL_JUMP_FORCE_UP.
    destruct (Rlt_dec 0 20) as [_|N]; [lra|exfalso; lra].
Qed.

(** Whatever the timing of presses and frames, beside the large wall the
    actor never rises above the top of the wall by more than the rise of
    one wall jump. *)
Lemma B_climb_bounded (cs : list Climb) (s : ScriptB.State) :
  forwardInTime cs ->
  B_grounded_exact s ->
  B_apex s <= 10 + 400 / 196 ->
  Vector3.y (ScriptB.position (climb largeWallWest cs s)) <= 10 + 400 / 196.
Proof.
  revert s. induction cs as [|c cs IH]; intros s Hf Hg Ha.
  - simpl. pose proof (B_apex_above s). lra.
  - inversion Hf as [|? ? Hc Hcs]; subst.
    simpl. apply IH; [exact Hcs| |].
    + destruct c as [|delta]; simpl.
      * exact (B_step_grounded_exact largeWallWest (ScriptB.KeyDown Space) s I Hg).
      * apply B_tick_grounded_exact. exact Hg.
    + destruct c as [|delta]; simpl.
      * apply B_apex_press; assumption.
      * apply B_apex_tick; [apply Hg|exact Hc|lra|exact Ha].
Qed.

Lemma length_unit_x_neg0 : Vector3.length (Vector3.mk 1 0 (- 0)) = 1.
Proof.
  unfold Vector3.length, Vector3.lengthSq; simpl.
  replace (1 * 1 + 0 * 0 + - 0 * - 0) with 1 by ring. apply sqrt_1.
Qed.

(** The large wall is in reach one unit west of its face, at every height
    from 0 to 10. *)
Lemma largeWall_in_reach (y : R) :
  0 <= y <= 10 -> B_wallInReach largeWallWest (Vector3.mk 8 y 0) 0.
Proof.
  intros Hy. unfold B_wallInReach, yawRays.
  exists (mkRay (Vector3.mk 8 y 0) (Vector3.mk (cos 0) 0 (- sin 0)) 0 (Some 10)), 1.
  split; [left; reflexivity|]. split; [|lra].
  rewrite cos_0, sin_0.
  unfold largeWallWest, faceX, withinReach, inRange.
  cbn [origin rayDirection near far Vector3.x Vector3.y Vector3.z].
  rewrite length_unit_x_neg0.
  replace ((9 - 8) / 1) with 1 by field.
  repeat (settle_comparisons; cbn [andb]).
  left. ring.
Qed.

(** C10 (as stated, refuted).  Repeated presses next to a wall do not
    permit unbounded ascent: the wall has a top.  The actor hangs in the
    air one unit west of the large wall of the level, which spans the
    heights 0 to 10, with the wall in reach.  The rays of
    [checkWallJump] are horizontal, so above the top of the wall none of
    them hits and Space does nothing.  Whatever the sequence of presses
    and frames, the actor never gets above [10 + 400 / 196], the top of
    the wall plus the rise of one wall jump. *)
Theorem C10_counterexample_ascent_ends_above_the_wall :
  ~ (forall (w : World) (s : ScriptB.State),
       nearest_first w ->
       ScriptB.canJump s = false ->
       Vector3.y (ScriptB.camRight s) = 0 ->
       ScriptB.currentHeight s <= Vector3.y (ScriptB.position s) ->
       B_wallInReach w (ScriptB.position s) (ScriptB.rotationY s) ->
       forall H : R,
       exists cs : list Climb,
         forwardInTime cs /\ H < Vector3.y (ScriptB.position (climb w cs s))).
Proof.
  intros F.
  set (s := B_airborneAt (Vector3.mk 8 5 0)).
  assert (Hh : ScriptB.currentHeight s <= Vector3.y (ScriptB.position s)).
  { unfold ScriptB.currentHeight, ScriptB.PLAYER_HEIGHT, s, B_airborneAt; simpl. lra. }
  assert (Hw : B_wallInReach largeWallWest (ScriptB.position s) (ScriptB.rotationY s)).
  { apply (largeWall_in_reach 5). lra. }
  destruct (F largeWallWest s (nearest_first_faceX 9 true 0 10 (-10) 10)
              eq_refl eq_refl Hh Hw 13) as (cs & Hf & Hlt).
  assert (Hg : B_grounded_exact s).
  { split; [reflexivity|]. intros Hc. discriminate Hc. }
  assert (Ha : B_apex s <= 10 + 400 / 196).
  { unfold B_apex, s, B_airborneAt; simpl.
    destruct (Rlt_dec 0 0) as [L|_]; [exfalso; lra|lra]. }
  pose proof (B_climb_bounded cs s Hf Hg Ha) as Hb.
  lra.
Qed.

(** C10 (amended).  Second variant of script.js, intersections reported
    nearest first.  Every Space key-down with [canJump] false for which one
    of the four rays, the cardinal directions turned by [rotation.y], has an
    intersection closer than 2 leaves exactly the state of a granted wall
    jump: [velocity.y = 20], [canJump] still false.  The state holds no
    count of wall jumps and no cooldown, so this holds after any number of
    earlier wall jumps.  Pressing Space once per frame of 0.1 s lifts the
    actor by 1.02 per frame for as long as the wall is in reach at each
    press: after [n] such presses it is [n * 1.02] higher.  The ascent is
    limited by the wall alone: beside a wall that is in reach at every
    height of the actor's column, an actor without horizontal motion
    exceeds every height. *)
Theorem C10_wall_jump_has_no_limit (w : World) :
  nearest_first w ->
  (forall s : ScriptB.State,
     ScriptB.canJump s = false ->
     B_wallInReach w (ScriptB.position s) (ScriptB.rotationY s) ->
     ScriptB.onKeyDown w Space s = wallJumped s /\
     Vector3.y (ScriptB.velocity (ScriptB.onKeyDown w Space s)) = 20 /\
     ScriptB.canJump (ScriptB.onKeyDown w Space s) = false) /\
  (forall (s : ScriptB.State) (n : nat),
     ScriptB.canJump s = false ->
     Vector3.y (ScriptB.camRight s) = 0 ->
     ScriptB.currentHeight s <= Vector3.y (ScriptB.position s) ->
     (forall k : nat, (k < n)%nat ->
        let sk := Nat.iter k (pressAndFrame w (1 / 10)) s in
        B_wallInReach w (ScriptB.position sk) (ScriptB.rotationY sk)) ->
     Vector3.y (ScriptB.position (Nat.iter n (pressAndFrame w (1 / 10)) s))
     = Vector3.y (ScriptB.position s) + INR n * (102 / 100) /\
     ScriptB.canJump (Nat.iter n (pressAndFrame w (1 / 10)) s) = false) /\
  (forall s : ScriptB.State,
     ScriptB.canJump s = false ->
     Vector3.y (ScriptB.camRight s) = 0 ->
     ScriptB.currentHeight s <= Vector3.y (ScriptB.position s) ->
     B_horizontalRest s ->
     (forall y : R,
        Vector3.y (ScriptB.position s) <= y ->
        B_wallInReach w
          (Vector3.mk (Vector3.x (ScriptB.position s)) y
             (Vector3.z (ScriptB.position s)))
          (ScriptB.rotationY s)) ->
     forall H : R,
     exists n : nat,
       H < Vector3.y (ScriptB.position (Nat.iter n (pressAndFrame w (1 / 10)) s))).
Proof.
  intros Hs. split; [|split].
  - intros s Hc Hreach.
    rewrite (wall_in_reach_jumps w s Hs Hc (B_wallInReach_rays w s Hreach)).
    split; [reflexivity|]. split; [reflexivity|exact Hc].
  - intros s n Hc Hr Hh Hreach.
    destruct (B_climb_while_in_reach w s n Hs Hc Hr Hh Hreach)
      as (Ic & _ & _ & _ & Iy).
    split; assumption.
  - intros s Hc Hr Hh Hrest Hcol H.
    destruct (INR_unbounded ((H - Vector3.y (ScriptB.position s)) / (102 / 100)))
      as (n & Hn).
    exists n.
    destruct (B_climb_while_in_reach w s n Hs Hc Hr Hh
                (B_column_reach w s Hs Hc Hr Hh Hrest Hcol n))
      as (_ & _ & _ & _ & Iy).
    rewrite Iy.
    apply Rgt_lt in Hn.
    apply (Rmult_lt_compat_r (102 / 100)) in Hn; [|lra].
    replace ((H - Vector3.y (ScriptB.position s)) / (102 / 100) * (102 / 100))
      with (H - Vector3.y (ScriptB.position s)) in Hn by (field; lra).
    lra.
Qed.

Lemma wallAtMinusOne_in_reach (y : R) :
  B_wallInReach wallAtMinusOne (Vector3.mk 0 y 0) 0.
Proof.
  unfold B_wallInReach, yawRays.
  exists (mkRay (Vector3.mk 0 y 0) (Vector3.mk (- cos 0) 0 (sin 0)) 0 (Some 10)), 1.
  split; [right; left; reflexivity|]. split; [|lra].
  rewrite cos_0, sin_0. unfold wallAtMinusOne.
  cbn [origin rayDirection Vector3.x].
  destruct (Rlt_dec (- (1)) 0) as [_|N]; [|exfalso; lra].
  left. field.
Qed.

(** C10, witness: an actor in the air at height 5, at rest, one unit from
    a wall without a top.  The wall is in reach at every height of its
    column; three presses, one per frame, lift it by 3.06, and some number
    of presses lifts it above 100. *)
Lemma C10_wall_jump_witness :
  nearest_first wallAtMinusOne /\
  (forall y : R, 5 <= y -> B_wallInReach wallAtMinusOne (Vector3.mk 0 y 0) 0) /\
  Vector3.y (ScriptB.position
               (Nat.iter 3 (pressAndFrame wallAtMinusOne (1 / 10)) (B_airborne 5)))
  = 5 + 3 * (102 / 100) /\
  exists n : nat,
    100 < Vector3.y (ScriptB.position
                       (Nat.iter n (pressAndFrame wallAtMinusOne (1 / 10))
                          (B_airborne 5))).
Proof.
  assert (Hs : nearest_first wallAtMinusOne).
  { intros r. unfold wallAtMinusOne. destruct (Rlt_dec _ _); repeat constructor. }
  assert (Hcol : forall y : R,
             Vector3.y (ScriptB.position (B_airborne 5)) <= y ->
             B_wallInReach wallAtMinusOne
               (Vector3.mk (Vector3.x (ScriptB.position (B_airborne 5))) y
                  (Vector3.z (ScriptB.position (B_airborne 5))))
               (ScriptB.rotationY (B_airborne 5)))
    by (intros y _; apply wallAtMinusOne_in_reach).
  assert (Hc : ScriptB.canJump (B_airborne 5) = false) by reflexivity.
  assert (Hr : Vector3.y (ScriptB.camRight (B_airborne 5)) = 0) by reflexivity.
  assert (Hh : ScriptB.currentHeight (B_airborne 5)
               <= Vector3.y (ScriptB.position (B_airborne 5))).
  { unfold ScriptB.currentHeight, B_airborne, ScriptB.PLAYER_HEIGHT. simpl. lra. }
  assert (Hrest : B_horizontalRest (B_airborne 5)) by (repeat split; reflexivity).
  split; [exact Hs|].
  split; [intros y _; apply wallAtMinusOne_in_reach|].
  destruct (C10_wall_jump_has_no_limit wallAtMinusOne Hs) as (_ & Hclimb & Hup).
  split.
  - destruct (Hclimb (B_airborne 5) 3%nat Hc Hr Hh
                (B_column_reach wallAtMinusOne (B_airborne 5) Hs Hc Hr Hh Hrest Hcol 3))
      as (Hy & _).
    rewrite Hy. simpl. lra.
  - exact (Hup (B_airborne 5) Hc Hr Hh Hrest Hcol 100).
Defined.
